(** * beefy-cowllector-v2: fixed-point formatting and Discord notification

    A shallow embedding of [src/util/bigint.ts] and [src/lib/notify.ts].

    - [JS]             the fragment of JavaScript the two files compute with:
                       completions (normal / thrown), binary64 numbers,
                       BigInt conversion and division, strings;
    - [Bigint]         [bigintPercent] and [bigintFormat];
    - [FixedPointSpec] reading a rendered amount back at a scale;
    - [Async]          the settled-outcome projection [asyncResultGet];
    - [Notify]         [getBalanceReportTable], [notifyHarvestReport],
                       [notifyUnwrapReport] and [notifyError], run in a small
                       effect monad that records log lines and webhook posts;
    - [Samples]        concrete collaborators, configurations and reports;
    - [NotifyEarlier]  the earlier revision of [notify.ts] kept with the
                       sources: one webhook, warning details, live role pings;
    - [More]           further checks and sample data.

    The earlier revision computes the report level and the unwrap
    eventfulness gate by the same lines as the current one.

    Numbers are IEEE-754 binary64 values ([SpecFloat] at precision 53),
    BigInts are [Z], strings are byte strings. *)

From Stdlib Require Import ZArith NArith List String Ascii Bool Lia.
From Stdlib Require Import Floats.SpecFloat.
Import ListNotations.

Local Open Scope string_scope.
Local Open Scope Z_scope.

(* ===================================================================== *)
(** ** JavaScript values *)
(* ===================================================================== *)

Module JS.

(** Errors a JavaScript expression can throw. *)
Inductive Exn : Type :=
| RangeError (msg : string)
| OtherError (msg : string).

(** The completion of an expression: a value, or a thrown error. *)
Inductive Completion (A : Type) : Type :=
| Normal (a : A)
| Throw (e : Exn).
Arguments Normal {A} a.
Arguments Throw {A} e.

Definition bindC {A B} (c : Completion A) (k : A -> Completion B) : Completion B :=
  match c with
  | Normal a => k a
  | Throw e => Throw e
  end.

Declare Scope js_scope.
Delimit Scope js_scope with js.
Notation "x <- c ;; k" := (bindC c (fun x => k))
  (at level 61, c at next level, right associativity) : js_scope.

Definition returns {A} (c : Completion A) : Prop := exists a, c = Normal a.
Definition raises {A} (c : Completion A) : Prop := exists e, c = Throw e.

(** *** Numbers: IEEE-754 binary64 *)

Definition prec : Z := 53.
Definition emax : Z := 1024.

(** A JavaScript [number]. *)
Definition number : Type := spec_float.

(** The number nearest to an integer (round to nearest, ties to even). *)
Definition Number_of_Z (z : Z) : number := binary_normalize prec emax z 0 false.

Definition Number_mul (x y : number) : number := SFmul prec emax x y.

(** [10 ** k] for an integral exponent [k]: the number nearest to the power
    of ten (ties to even).  Up to [k = 22] the power is itself a binary64
    value; from [k = 23] on it is not, and the result is a neighbour of it;
    from [k = 309] on it is [Infinity].  For [k < 0] the power is never a
    binary64 value: it is rounded from a quotient carried far enough below
    the last bit kept, with a sticky bit for the rest.

    The language leaves the result of [**] to the engine's approximation
    where the power is not a binary64 value: what is taken here is the
    nearest number, and an engine may return its neighbour (V8 does at
    [k = 26]).  The results below use the exact powers up to [k = 22], the
    value at [k = 24], and that the conversion of a finite power is
    positive. *)
Definition Number_pow10 (k : Z) : number :=
  if 0 <=? k then Number_of_Z (10 ^ k)
  else
    let n := 10 ^ (- k) in
    let p := Z.log2 n + 1200 in
    binary_normalize prec emax (2 * (2 ^ p / n) + 1) (- (p + 1)) false.

(** [Math.round(x)]: the integer nearest to [x], halves towards +Infinity. *)
Definition Math_round (x : number) : number :=
  match x with
  | S754_finite s m e =>
      if 0 <=? e then x
      else
        let v := if s then Z.neg m else Z.pos m in
        binary_normalize prec emax ((2 * v + 2 ^ (- e)) / 2 ^ (1 - e)) 0 s
  | _ => x
  end.

(** [BigInt(x)]: throws a RangeError unless [x] is an integral number. *)
Definition BigInt (x : number) : Completion Z :=
  match x with
  | S754_zero _ => Normal 0
  | S754_finite s m e =>
      let v := if s then Z.neg m else Z.pos m in
      if 0 <=? e then Normal (v * 2 ^ e)
      else if Z.pos m mod 2 ^ (- e) =? 0 then Normal (v / 2 ^ (- e))
      else Throw (RangeError "The number cannot be converted to a BigInt because it is not an integer")
  | _ => Throw (RangeError "The number cannot be converted to a BigInt because it is not an integer")
  end.

(** *** BigInt arithmetic: [/] truncates towards zero, [%] takes the sign of
    the dividend, both throw on a zero divisor. *)

Definition BigInt_div (a b : Z) : Completion Z :=
  if b =? 0 then Throw (RangeError "Division by zero") else Normal (Z.quot a b).

Definition BigInt_rem (a b : Z) : Completion Z :=
  if b =? 0 then Throw (RangeError "Division by zero") else Normal (Z.rem a b).

(** *** Decimal rendering of integers *)

Definition digit_char (d : N) : ascii := ascii_of_N (48 + d).

(** The decimal digits of [n], most significant first, put before [acc];
    [fuel] bounds the number of digits. *)
Fixpoint digits_before (fuel : nat) (n : N) (acc : string) : string :=
  match fuel with
  | O => acc
  | S fuel' =>
      let acc' := String (digit_char (n mod 10)) acc in
      if (n / 10 =? 0)%N then acc' else digits_before fuel' (n / 10) acc'
  end.

Definition N_toString (n : N) : string :=
  digits_before (S (N.to_nat (N.log2 n))) n EmptyString.

(** [n.toString()] for a BigInt (and for an integral number). *)
Definition BigInt_toString (n : Z) : string :=
  match n with
  | Z0 => "0"
  | Zpos p => N_toString (Npos p)
  | Zneg p => "-" ++ N_toString (Npos p)
  end.

(** *** Strings *)

Fixpoint repeat_char (c : ascii) (k : nat) : string :=
  match k with
  | O => EmptyString
  | S k' => String c (repeat_char c k')
  end.

(** [s.padStart(targetLength, c)] for a one-character filler. *)
Definition padStart (s : string) (targetLength : Z) (c : ascii) : string :=
  repeat_char c (Z.to_nat (targetLength - Z.of_nat (String.length s))) ++ s.

(** [s.slice(1)]. *)
Definition slice1 (s : string) : string :=
  match s with
  | EmptyString => EmptyString
  | String _ rest => rest
  end.

(** The substitution of a replacement text for a string pattern (no capture
    groups): [$$] is a dollar, [$&] the matched text, [$`] the text before
    the match, [$'] the text after it; any other [$] stays as it is. *)
Fixpoint expand_replacement (matched before after by_ : string) : string :=
  match by_ with
  | EmptyString => EmptyString
  | String c tail =>
      if Ascii.eqb c "$" then
        match tail with
        | EmptyString => String c EmptyString
        | String c' rest =>
            if Ascii.eqb c' "$" then String "$" (expand_replacement matched before after rest)
            else if Ascii.eqb c' "&" then matched ++ expand_replacement matched before after rest
            else if Ascii.eqb c' "`" then before ++ expand_replacement matched before after rest
            else if Ascii.eqb c' "'" then after ++ expand_replacement matched before after rest
            else String c (expand_replacement matched before after tail)
        end
      else String c (expand_replacement matched before after tail)
  end.

(** The first occurrence of [pat] in [s], with [before] the text already
    passed. *)
Fixpoint replace_from (before s pat by_ : string) : string :=
  if String.prefix pat s
  then
    let after := String.substring (String.length pat) (String.length s) s in
    expand_replacement pat before after by_ ++ after
  else match s with
       | EmptyString => EmptyString
       | String c rest =>
           String c (replace_from (before ++ String c EmptyString) rest pat by_)
       end.

(** [s.replace(pat, by)] for a string pattern: the first occurrence only. *)
Definition String_replace (s pat by_ : string) : string :=
  replace_from EmptyString s pat by_.

(** Truthiness of a string: the empty string is falsy. *)
Definition truthy_string (s : string) : bool :=
  match s with
  | EmptyString => false
  | _ => true
  end.

(** [s || fallback] on strings. *)
Definition or_else (s fallback : string) : string :=
  if truthy_string s then s else fallback.

(** [xs.join(',')], which is also how a template literal renders an array. *)
Definition Array_join (xs : list string) : string := String.concat "," xs.

(** *** [x.toString()] for an integral number

    The digits are the shortest decimal [s] (of [k] digits, times
    [10 ^ (n - k)]) whose nearest number is [x]; of several the closest to
    [x], of two equally close the even one.  Up to [n = 21] they are written
    out with [n - k] zeros, beyond in exponent form. *)

(** The number nearest to [candidate] has the value [x]. *)
Definition reads_as (x candidate : Z) : bool :=
  match BigInt (Number_of_Z candidate) with
  | Normal v => v =? x
  | Throw _ => false
  end.

(** The decimals of [k] digits that read as [x], each with its [n]; [d] is
    the number of digits of [x]. *)
Definition shortest_candidates (x d k : Z) : list (Z * Z) :=
  filter (fun c : Z * Z =>
            let (s, n) := c in
            (10 ^ (k - 1) <=? s) && (s <? 10 ^ k) && reads_as x (s * 10 ^ (n - k)))
         (flat_map (fun n =>
                      if k <=? n
                      then [(x / 10 ^ (n - k), n); (x / 10 ^ (n - k) + 1, n)]
                      else [])
                   [d; d + 1]).

Definition closer (x k : Z) (a b : Z * Z) : Z * Z :=
  let da := Z.abs (fst a * 10 ^ (snd a - k) - x) in
  let db := Z.abs (fst b * 10 ^ (snd b - k) - x) in
  if db <? da then b
  else if (db =? da) && Z.even (fst b) && negb (Z.even (fst a)) then b
  else a.

(** [(s, k, n)] for [x], trying the digit counts [ks] in order. *)
Fixpoint shortest_decimal (x d : Z) (ks : list Z) : Z * Z * Z :=
  match ks with
  | [] => (x, d, d)
  | k :: more =>
      match shortest_candidates x d k with
      | [] => shortest_decimal x d more
      | c :: cs => let (s, n) := fold_left (closer x k) cs c in (s, k, n)
      end
  end.

(** The string of a positive integral value [x] of a number. *)
Definition digits_or_exponent (x : Z) : string :=
  let d := Z.of_nat (String.length (N_toString (Z.to_N x))) in
  let '(s, k, n) := shortest_decimal x d (map Z.of_nat (seq 1 17)) in
  let digits := N_toString (Z.to_N s) in
  if n <=? 21 then digits ++ repeat_char "0" (Z.to_nat (n - k))
  else
    let mantissa :=
      match digits with
      | String c (String c' rest) => String c (String "." (String c' rest))
      | _ => digits
      end in
    mantissa ++ "e+" ++ N_toString (Z.to_N (n - 1)).

(** [x.toString()] for the number nearest to the integer [z].  A safe integer
    (magnitude below 2^53) is its own shortest decimal. *)
Definition Number_toString (z : Z) : string :=
  if Z.abs z <? 2 ^ 53 then BigInt_toString z
  else
    match BigInt (Number_of_Z (Z.abs z)) with
    | Normal x => (if z <? 0 then "-" else EmptyString) ++ digits_or_exponent x
    | Throw _ => if z <? 0 then "-Infinity" else "Infinity"
    end.

End JS.

(* ===================================================================== *)
(** ** src/util/bigint.ts *)
(* ===================================================================== *)

Module Bigint.
Import JS.
Local Open Scope js_scope.

(** [bigintPercent(n, percent, precision = 4)]. *)
Definition bigintPercent (n : Z) (percent : number) (precision : Z) : Completion Z :=
  let divisor := Number_pow10 precision in
  mult <- BigInt (Math_round (Number_mul percent divisor)) ;;
  d <- BigInt divisor ;;
  BigInt_div (n * mult) d.

(** The default value of [precision]. *)
Definition precision_default : Z := 4.

(** [bigintFormat(n, decimal)]. *)
Definition bigintFormat (n : Z) (decimal : Z) : Completion string :=
  let sign := if n <? 0 then "-" else EmptyString in
  let n := if n <? 0 then - n else n in
  div <- BigInt (Number_pow10 decimal) ;;
  r <- BigInt_rem n div ;;
  let decimalPart := padStart (BigInt_toString r) decimal "0" in
  q <- BigInt_div n div ;;
  let integerPart := BigInt_toString q in
  Normal (sign ++ integerPart ++ "." ++ decimalPart).

(** The call [bigintFormat(n, decimal, displayDigits)] as [notify.ts] writes
    it.  [bigintFormat] declares two parameters; a third argument is
    evaluated and dropped. *)
Definition bigintFormat3 (n decimal displayDigits : Z) : Completion string :=
  bigintFormat n decimal.

End Bigint.

(* ===================================================================== *)
(** ** Reading a rendered amount back *)
(* ===================================================================== *)

Module FixedPointSpec.
Import JS.

Definition digit_value (c : ascii) : option N :=
  let n := N_of_ascii c in
  if ((48 <=? n) && (n <=? 57))%N then Some (n - 48)%N else None.

Fixpoint parse_digits_from (acc : N) (s : string) : option N :=
  match s with
  | EmptyString => Some acc
  | String c rest =>
      match digit_value c with
      | Some d => parse_digits_from (10 * acc + d)%N rest
      | None => None
      end
  end.

(** At least one digit. *)
Definition parse_digits (s : string) : option N :=
  match s with
  | EmptyString => None
  | _ => parse_digits_from 0%N s
  end.

Fixpoint split_at_point (s : string) : string * string :=
  match s with
  | EmptyString => (EmptyString, EmptyString)
  | String c rest =>
      if Ascii.eqb c "." then (EmptyString, rest)
      else let (whole, frac) := split_at_point rest in (String c whole, frac)
  end.

Fixpoint take (k : nat) (s : string) : string :=
  match k, s with
  | S k', String c rest => String c (take k' rest)
  | _, _ => EmptyString
  end.

Fixpoint drop (k : nat) (s : string) : string :=
  match k, s with
  | S k', String _ rest => drop k' rest
  | _, _ => s
  end.

Fixpoint all_zeros (s : string) : bool :=
  match s with
  | EmptyString => true
  | String c rest => Ascii.eqb c "0" && all_zeros rest
  end.

(** Every character is a decimal digit. *)
Fixpoint is_digits (s : string) : bool :=
  match s with
  | EmptyString => true
  | String c rest =>
      match digit_value c with
      | Some _ => is_digits rest
      | None => false
      end
  end.

(** The digits of the integer part, a point, the digits of the fraction.
    The fraction is read at [scale] digits: a shorter one is filled with
    zeros on the right, digits past the scale must be zeros. *)
Definition parse_unsigned (scale : nat) (s : string) : option N :=
  let (whole, frac) := split_at_point s in
  match parse_digits whole,
        parse_digits_from 0%N (take scale (frac ++ repeat_char "0" scale)) with
  | Some w, Some f =>
      if all_zeros (drop scale frac) then Some (w * 10 ^ N.of_nat scale + f)%N else None
  | _, _ => None
  end.

(** What the specification calls "parsing back to an integer at scale s":
    an optional [-], then the unsigned amount. *)
Definition parseFixed (scale : nat) (s : string) : option Z :=
  match s with
  | String "-" rest => option_map (fun v => - Z.of_N v) (parse_unsigned scale rest)
  | _ => option_map Z.of_N (parse_unsigned scale s)
  end.

End FixedPointSpec.

(* ===================================================================== *)
(** ** src/util/async.ts *)
(* ===================================================================== *)

Module Async.
Import JS.
Local Open Scope js_scope.

(** The settled result of an asynchronous sub-operation.  A report field
    holding one may also be absent ([undefined] / [null]): [None]. *)
Inductive SettledOutcome (T : Type) : Type :=
| Fulfilled (value : T)
| Rejected (reason : string).
Arguments Fulfilled {T} value.
Arguments Rejected {T} reason.

(** Modelled from the spec: [asyncResultGet] is imported from
    [../util/async], which is not among the sources.  Section 4.2: for a
    fulfilled outcome it evaluates [mapFn(value)] and returns it, propagating
    any error [mapFn] raises; for a rejected or absent outcome it returns the
    "unavailable" marker ([None]) without calling [mapFn]. *)
Definition asyncResultGet {T R : Type}
    (result : option (SettledOutcome T)) (mapFn : T -> Completion R)
  : Completion (option R) :=
  match result with
  | Some (Fulfilled value) => r <- mapFn value ;; Normal (Some r)
  | Some (Rejected _) => Normal None
  | None => Normal None
  end.

(** The rendering fallback [projected || '??'] of [getBalanceReportTable]. *)
Definition orUnavailable (projected : option string) : string :=
  match projected with
  | Some s => or_else s "??"
  | None => "??"
  end.

(** [asyncResultGet(result, mapFn) || '??']. *)
Definition projectOrUnavailable {T : Type}
    (result : option (SettledOutcome T)) (mapFn : T -> Completion string)
  : Completion string :=
  projected <- asyncResultGet result mapFn ;;
  Normal (orUnavailable projected).

End Async.

(* ===================================================================== *)
(** ** src/lib/notify.ts *)
(* ===================================================================== *)

Module Notify.
Import JS Bigint Async.

(** *** Reports *)

Record Balances : Type := {
  balanceWei : Z;
  wnativeBalanceWei : Z;
  aggregatedBalanceWei : Z
}.

Record Statuses : Type := {
  error : Z;
  warning : Z;
  notice : Z;
  info : Z
}.

Module HarvestReport.
Record Summary : Type := {
  harvested : Z;
  skipped : Z;
  totalStrategies : Z;
  statuses : Statuses;
  nativeGasUsedWei : Z;
  wnativeProfitWei : Z;
  aggregatedProfitWei : Z
}.
Record StratSummary : Type := { discordMessage : option string }.
Record StratReport : Type := { strat_summary : StratSummary }.
Record t : Type := {
  chain : string;
  summary : Summary;
  details : list StratReport;
  collectorBalanceBefore : option (SettledOutcome Balances);
  collectorBalanceAfter : option (SettledOutcome Balances)
}.
End HarvestReport.

Module UnwrapReport.
Record Summary : Type := {
  success : bool;
  unwrapped : bool;
  nativeGasUsedWei : Z;
  wnativeProfitWei : Z;
  aggregatedProfitWei : Z
}.
Record t : Type := {
  chain : string;
  summary : Summary;
  unwrapDecision : option (SettledOutcome unit);
  unwrapTransaction : option (SettledOutcome unit);
  collectorBalanceBefore : option (SettledOutcome Balances);
  collectorBalanceAfter : option (SettledOutcome Balances)
}.
End UnwrapReport.

(** [HarvestReport | UnwrapReport]. *)
Inductive Report : Type :=
| OfHarvest (r : HarvestReport.t)
| OfUnwrap (r : UnwrapReport.t).

Definition report_chain (report : Report) : string :=
  match report with
  | OfHarvest r => HarvestReport.chain r
  | OfUnwrap r => UnwrapReport.chain r
  end.

Definition report_collectorBalanceBefore (report : Report) :=
  match report with
  | OfHarvest r => HarvestReport.collectorBalanceBefore r
  | OfUnwrap r => UnwrapReport.collectorBalanceBefore r
  end.

Definition report_collectorBalanceAfter (report : Report) :=
  match report with
  | OfHarvest r => HarvestReport.collectorBalanceAfter r
  | OfUnwrap r => UnwrapReport.collectorBalanceAfter r
  end.

Definition report_nativeGasUsedWei (report : Report) : Z :=
  match report with
  | OfHarvest r => HarvestReport.nativeGasUsedWei (HarvestReport.summary r)
  | OfUnwrap r => UnwrapReport.nativeGasUsedWei (UnwrapReport.summary r)
  end.

Definition report_wnativeProfitWei (report : Report) : Z :=
  match report with
  | OfHarvest r => HarvestReport.wnativeProfitWei (HarvestReport.summary r)
  | OfUnwrap r => UnwrapReport.wnativeProfitWei (UnwrapReport.summary r)
  end.

Definition report_aggregatedProfitWei (report : Report) : Z :=
  match report with
  | OfHarvest r => HarvestReport.aggregatedProfitWei (HarvestReport.summary r)
  | OfUnwrap r => UnwrapReport.aggregatedProfitWei (UnwrapReport.summary r)
  end.

(** *** Configuration ([./config]) *)

Record Config : Type := {
  DISCORD_REPORT_WEBHOOK_URL : option string;
  DISCORD_ALERT_WEBHOOK_URL : option string;
  DISCORD_NOTIFY_UNEVENTFUL_HARVEST : bool;
  DISCORD_PING_ROLE_IDS_ON_ERROR : option (list string);
  REPORT_URL_TEMPLATE : string
}.

(** Truthiness of an optional string: unset and empty are both falsy. *)
Definition truthy_url (u : option string) : bool :=
  match u with
  | Some s => truthy_string s
  | None => false
  end.

(** Truthiness of an optional array: every array is truthy. *)
Definition truthy_array {A : Type} (xs : option (list A)) : bool :=
  match xs with
  | Some _ => true
  | None => false
  end.

(** Truthiness of [number | null]: [null] and [0] are falsy. *)
Definition truthy_id (id : option Z) : bool :=
  match id with
  | Some z => negb (z =? 0)
  | None => false
  end.

(** *** What leaves the process *)

Record DiscordWebhookParams : Type := { content : string }.

Record File : Type := { file_name : string; file_body : string }.

Record Form : Type := { payload_json : string; file1 : option File }.

Inductive LogLevel : Type := LWarn | LInfo | LError | LTrace.

Inductive Event : Type :=
| Log (level : LogLevel) (msg : string) (e : option Exn)
| Post (url : string) (form : Form).

(** *** Table cells and options of the [table] package *)

Inductive Cell : Type :=
| CellStr (s : string)
| CellNum (n : Z).

Inductive Alignment : Type := AlignLeft | AlignRight.

Record TableConfig : Type := {
  drawHorizontalLine : Z -> Z -> bool;
  columns : list Alignment
}.

(** *** Collaborators whose code is outside [src]: pure functions, but for
    [String(x)] and [JSON.stringify(x, null, 2)] on a value of any type,
    which throw on some values (a BigInt or a cycle for the JSON text). *)

Record Collaborators (Any : Type) : Type := {
  table : list (list Cell) -> TableConfig -> string;
  getChainWNativeTokenSymbol : string -> string;
  removeSecretsFromString : string -> string;
  serializeReport : Report -> bool -> string;
  extractErrorMessage : SettledOutcome unit -> string;
  toLocaleUpperCase : string -> string;
  JSON_stringify_params : DiscordWebhookParams -> string;
  JSON_stringify_pretty : Any -> Completion string;
  String_of : Any -> Completion string
}.
Arguments table {Any} _ _ _.
Arguments getChainWNativeTokenSymbol {Any} _ _.
Arguments removeSecretsFromString {Any} _ _.
Arguments serializeReport {Any} _ _ _.
Arguments extractErrorMessage {Any} _ _.
Arguments toLocaleUpperCase {Any} _ _.
Arguments JSON_stringify_params {Any} _ _.
Arguments JSON_stringify_pretty {Any} _ _.
Arguments String_of {Any} _ _.

(** *** Effects: a completion together with the events emitted on the way *)

Definition Eff (A : Type) : Type := (Completion A * list Event)%type.

Definition ret {A} (a : A) : Eff A := (Normal a, []).

Definition bind {A B} (m : Eff A) (k : A -> Eff B) : Eff B :=
  match m with
  | (Normal a, t) => let (r, t') := k a in (r, (t ++ t')%list)
  | (Throw e, t) => (Throw e, t)
  end.

Definition lift {A} (c : Completion A) : Eff A := (c, []).

Definition emit (ev : Event) : Eff unit := (Normal tt, [ev]).

(** [try { body } catch (e) { handler }]. *)
Definition try_catch {A} (body : Eff A) (handler : Exn -> Eff A) : Eff A :=
  match body with
  | (Normal a, t) => (Normal a, t)
  | (Throw e, t) => let (r, t') := handler e in (r, (t ++ t')%list)
  end.

Declare Scope eff_scope.
Delimit Scope eff_scope with eff.
Notation "x <- m ;; k" := (bind m (fun x => k))
  (at level 61, m at next level, right associativity) : eff_scope.
Notation "m ;; k" := (bind m (fun _ => k))
  (at level 61, right associativity) : eff_scope.

Definition completion {A} (m : Eff A) : Completion A := fst m.
Definition trace {A} (m : Eff A) : list Event := snd m.

(** A dispatch was made: some event of the trace is a webhook post. *)
Definition is_post (ev : Event) : bool :=
  match ev with
  | Post _ _ => true
  | Log _ _ _ => false
  end.

Definition dispatched {A} (m : Eff A) : bool := existsb is_post (trace m).

(** *** Severity *)

Inductive ReportLevel : Type := INFO | WARNING | ERROR.

Definition level_rank (l : ReportLevel) : nat :=
  match l with
  | INFO => 0
  | WARNING => 1
  | ERROR => 2
  end.

(** The strings the source assigns to [reportLevel]. *)
Definition level_label (l : ReportLevel) : string :=
  match l with
  | ERROR => "🔥 ERROR"
  | WARNING => "⚠️ WARNING"
  | INFO => "ℹ️ INFO"
  end.

(** *** The functions of [notify.ts] *)

Section Functions.
Context {Any : Type}.
Variable env : Collaborators Any.
Variable cfg : Config.
(** [axios.post(url, form)]: resolves, or rejects with an error. *)
Variable axios_post : string -> Form -> Completion unit.

Local Open Scope eff_scope.

Definition logger_warn (msg : string) : Eff unit := emit (Log LWarn msg None).
Definition logger_info (msg : string) : Eff unit := emit (Log LInfo msg None).
Definition logger_error (msg : string) (e : Exn) : Eff unit := emit (Log LError msg (Some e)).
Definition logger_trace (e : Exn) : Eff unit := emit (Log LTrace EmptyString (Some e)).

(** [await axios.post(url, form)]. *)
Definition post (url : string) (form : Form) : Eff unit :=
  (axios_post url form, [Post url form]).

Definition balanceOf (outcome : option (SettledOutcome Balances)) (field : Balances -> Z)
  : Completion string :=
  projectOrUnavailable outcome (fun b => bigintFormat3 (field b) 18 6).

Definition amountOf (wei : Z) : Completion string :=
  bindC (bigintFormat3 wei 18 6) (fun s => Normal (or_else s "??")).

Definition getBalanceReportTable (report : Report) : Completion string :=
  let wnativeSymbol := getChainWNativeTokenSymbol env (report_chain report) in
  let nativeSymbol := slice1 wnativeSymbol in
  let before := report_collectorBalanceBefore report in
  let after := report_collectorBalanceAfter report in
  (b1 <- balanceOf before balanceWei ;;
   b2 <- balanceOf before wnativeBalanceWei ;;
   b3 <- balanceOf before aggregatedBalanceWei ;;
   a1 <- balanceOf after balanceWei ;;
   a2 <- balanceOf after wnativeBalanceWei ;;
   a3 <- balanceOf after aggregatedBalanceWei ;;
   p1 <- amountOf (report_nativeGasUsedWei report) ;;
   p2 <- amountOf (report_wnativeProfitWei report) ;;
   p3 <- amountOf (report_aggregatedProfitWei report) ;;
   Normal (table env
     [ [CellStr EmptyString; CellStr nativeSymbol; CellStr wnativeSymbol; CellStr "sum"];
       [CellStr "before"; CellStr b1; CellStr b2; CellStr b3];
       [CellStr "after"; CellStr a1; CellStr a2; CellStr a3];
       [CellStr "profit"; CellStr p1; CellStr p2; CellStr p3] ]
     {| drawHorizontalLine := fun lineIndex rowCount =>
          (lineIndex =? 0) || (lineIndex =? 1) || (lineIndex =? rowCount - 1)
          || (lineIndex =? rowCount);
        columns := [AlignLeft; AlignRight; AlignRight; AlignRight] |}))%js.

(** The multipart form of a report: the message and the serialized report. *)
Definition reportForm (params : DiscordWebhookParams) (report : Report) : Form :=
  let reportStr := serializeReport env report true in
  let reportFile :=
    {| file_name := "report_" ++ report_chain report ++ ".json";
       file_body := reportStr |} in
  {| payload_json := JSON_stringify_params env params;
     file1 := Some reportFile |}.

Definition sendFailed : string := "something went wrong sending discord message".

(** [try { ... await axios.post(url, form) } catch (e) { log }] of the two
    report notifications. *)
Definition sendReport (url : string) (params : DiscordWebhookParams) (report : Report)
  : Eff unit :=
  try_catch
    (post url (reportForm params report))
    (fun e => logger_error sendFailed e ;; logger_trace e).

(** The "full report" link.  [db_raw_report_id] is [number | null]: the id of
    a database row, an integer ([None] for [null]); it is written by the
    number's [toString]. *)
Definition reportUrlMarkdown (db_raw_report_id : option Z) : string :=
  let reportUrl :=
    match db_raw_report_id with
    | Some id =>
        if truthy_id db_raw_report_id
        then String_replace (REPORT_URL_TEMPLATE cfg) "{{reportId}}" (Number_toString id)
        else EmptyString
    | None => EmptyString
    end in
  "[full report](" ++ reportUrl ++ ")".

Definition rolePingMentions (roleIds : option (list string)) : string :=
  match roleIds with
  | Some ids => Array_join (map (fun roleId => "<@&" ++ roleId ++ ">") ids)
  | None => EmptyString
  end.

Definition codeSep : string := "```".

(** **** notifyHarvestReport *)

Definition harvestUneventful (s : HarvestReport.Summary) : bool :=
  (HarvestReport.harvested s =? 0)
  && (error (HarvestReport.statuses s) =? 0)
  && (warning (HarvestReport.statuses s) =? 0)
  && (notice (HarvestReport.statuses s) =? 0).

Definition harvestReportLevel (s : HarvestReport.Summary) : ReportLevel :=
  if 0 <? error (HarvestReport.statuses s) then ERROR
  else if 0 <? warning (HarvestReport.statuses s) then WARNING
  else INFO.

Definition stratCountTableStr (s : HarvestReport.Summary) : string :=
  table env
    [ [CellStr "strategies"; CellNum (HarvestReport.totalStrategies s)];
      [CellStr "skipped"; CellNum (HarvestReport.skipped s)];
      [CellStr "info"; CellNum (info (HarvestReport.statuses s))];
      [CellStr "notices"; CellNum (notice (HarvestReport.statuses s))];
      [CellStr "warnings"; CellNum (warning (HarvestReport.statuses s))];
      [CellStr "errors"; CellNum (error (HarvestReport.statuses s))];
      [CellStr "harvested"; CellNum (HarvestReport.harvested s)] ]
    {| drawHorizontalLine := fun lineIndex rowCount =>
         existsb (Z.eqb lineIndex) [0; 1; 3; 6; 7];
       columns := [AlignRight; AlignLeft] |}.

Fixpoint harvestErrorDetails (details : list HarvestReport.StratReport) : string :=
  match details with
  | [] => EmptyString
  | stratReport :: rest =>
      match HarvestReport.discordMessage (HarvestReport.strat_summary stratReport) with
      | Some m =>
          if truthy_string m
          then m ++ String "010" (harvestErrorDetails rest)
          else harvestErrorDetails rest
      | None => harvestErrorDetails rest
      end
  end.

Definition harvestRolePing (s : HarvestReport.Summary) : string :=
  if ((0 <? error (HarvestReport.statuses s))
      || (0 <? warning (HarvestReport.statuses s))
      || DISCORD_NOTIFY_UNEVENTFUL_HARVEST cfg)
     && truthy_array (DISCORD_PING_ROLE_IDS_ON_ERROR cfg)
     && false
  then rolePingMentions (DISCORD_PING_ROLE_IDS_ON_ERROR cfg)
  else EmptyString.

(** The template literal of the harvest message, by the values it splices. *)
Definition harvestContent (reportLevel chainUpper urlMarkdown countTable balanceTable
                           errorDetails rolePing : string) : string :=
  "
### Harvest " ++ reportLevel ++ " for " ++ chainUpper ++ "
" ++ urlMarkdown ++ "
" ++ codeSep ++ "
" ++ countTable ++ "
" ++ balanceTable ++ "
" ++ codeSep ++ "
" ++ errorDetails ++ "
" ++ rolePing.

(** The message of a harvest report at a given severity. *)
Definition harvestParams (report : HarvestReport.t) (db_raw_report_id : option Z)
    (level : ReportLevel) : Completion DiscordWebhookParams :=
  (balanceTable <- getBalanceReportTable (OfHarvest report) ;;
   Normal {| content := removeSecretsFromString env
       (harvestContent (level_label level)
          (toLocaleUpperCase env (HarvestReport.chain report))
          (reportUrlMarkdown db_raw_report_id)
          (stratCountTableStr (HarvestReport.summary report))
          balanceTable
          (harvestErrorDetails (HarvestReport.details report))
          (harvestRolePing (HarvestReport.summary report))) |})%js.

Definition notifyHarvestReport (report : HarvestReport.t) (db_raw_report_id : option Z)
  : Eff unit :=
  match DISCORD_REPORT_WEBHOOK_URL cfg with
  | Some url =>
    if negb (truthy_string url) then
      logger_warn "DISCORD_REPORT_WEBHOOK_URL not set, not sending any discord message"
    else
      let notify : Eff unit :=
        logger_info "notifying harvest for report" ;;
        params <- lift (harvestParams report db_raw_report_id
                          (harvestReportLevel (HarvestReport.summary report))) ;;
        sendReport url params (OfHarvest report) in
      if harvestUneventful (HarvestReport.summary report) then
        logger_info "All strats were skipped, not reporting" ;;
        if negb (DISCORD_NOTIFY_UNEVENTFUL_HARVEST cfg) then ret tt else notify
      else notify
  | None =>
      logger_warn "DISCORD_REPORT_WEBHOOK_URL not set, not sending any discord message"
  end.

(** **** notifyUnwrapReport *)

Definition unwrapUneventful (s : UnwrapReport.Summary) : bool :=
  Bool.eqb (UnwrapReport.success s) true && Bool.eqb (UnwrapReport.unwrapped s) false.

Definition unwrapReportLevel (s : UnwrapReport.Summary) : ReportLevel :=
  if negb (UnwrapReport.success s) then ERROR else INFO.

Definition rejectedDetail (label : string) (outcome : option (SettledOutcome unit)) : string :=
  match outcome with
  | Some (Rejected reason) =>
      "- 🔥 " ++ label ++ " failed: " ++ extractErrorMessage env (Rejected reason)
      ++ String "010" EmptyString
  | _ => EmptyString
  end.

Definition unwrapErrorDetails (report : UnwrapReport.t) : string :=
  rejectedDetail "Unwrap decision" (UnwrapReport.unwrapDecision report)
  ++ rejectedDetail "Unwrap transaction" (UnwrapReport.unwrapTransaction report).

Definition unwrapRolePing (s : UnwrapReport.Summary) : string :=
  if (negb (UnwrapReport.success s) || DISCORD_NOTIFY_UNEVENTFUL_HARVEST cfg)
     && truthy_array (DISCORD_PING_ROLE_IDS_ON_ERROR cfg)
     && false
  then rolePingMentions (DISCORD_PING_ROLE_IDS_ON_ERROR cfg)
  else EmptyString.

Definition unwrapContent (reportLevel chainUpper urlMarkdown balanceBlock
                          errorDetails rolePing : string) : string :=
  "
### Wnative unwrap " ++ reportLevel ++ " for " ++ chainUpper ++ "
" ++ urlMarkdown ++ "
" ++ balanceBlock ++ "  " ++ "
" ++ errorDetails ++ "
" ++ rolePing.

Definition unwrapParams (report : UnwrapReport.t) (db_raw_report_id : option Z)
    (level : ReportLevel) : Completion DiscordWebhookParams :=
  (balanceBlock <-
     (if UnwrapReport.unwrapped (UnwrapReport.summary report)
      then balanceTable <- getBalanceReportTable (OfUnwrap report) ;;
           Normal (codeSep ++ balanceTable ++ codeSep)
      else Normal EmptyString) ;;
   Normal {| content := removeSecretsFromString env
       (unwrapContent (level_label level)
          (toLocaleUpperCase env (UnwrapReport.chain report))
          (reportUrlMarkdown db_raw_report_id)
          balanceBlock
          (unwrapErrorDetails report)
          (unwrapRolePing (UnwrapReport.summary report))) |})%js.

Definition notifyUnwrapReport (report : UnwrapReport.t) (db_raw_report_id : option Z)
  : Eff unit :=
  match DISCORD_REPORT_WEBHOOK_URL cfg with
  | Some url =>
    if negb (truthy_string url) then
      logger_warn "DISCORD_REPORT_WEBHOOK_URL not set, not sending any discord message"
    else
      let notify : Eff unit :=
        logger_info "notifying unwrap report" ;;
        params <- lift (unwrapParams report db_raw_report_id
                          (unwrapReportLevel (UnwrapReport.summary report))) ;;
        sendReport url params (OfUnwrap report) in
      if unwrapUneventful (UnwrapReport.summary report) then
        logger_info "Did not unwrap anything, not reporting" ;;
        if negb (DISCORD_NOTIFY_UNEVENTFUL_HARVEST cfg) then ret tt else notify
      else notify
  | None =>
      logger_warn "DISCORD_REPORT_WEBHOOK_URL not set, not sending any discord message"
  end.

(** **** notifyError *)

Record ErrorContext : Type := { doing : string; data : Any }.

(** The template literal of the alert, spliced in order: [String(error)],
    then [JSON.stringify(ctx.data, null, 2)]. *)
Definition errorContent (ctx : ErrorContext) (error : Any) : Completion string :=
  (errorText <- String_of env error ;;
   dataText <- JSON_stringify_pretty env (data ctx) ;;
   Normal ("
### 🚨 ERROR while " ++ doing ctx ++ "
" ++ codeSep ++ "
" ++ errorText ++ "
" ++ codeSep ++ "
" ++ codeSep ++ "
" ++ dataText ++ "
" ++ codeSep ++ "
"))%js.

Definition notifyError (ctx : ErrorContext) (error : Any) : Eff unit :=
  match DISCORD_ALERT_WEBHOOK_URL cfg with
  | Some url =>
    if negb (truthy_string url) then
      logger_warn "DISCORD_ALERT_WEBHOOK_URL not set, not sending any discord message"
    else
      logger_info "notifying error" ;;
      text <- lift (errorContent ctx error) ;;
      let params := {| content := removeSecretsFromString env text |} in
      try_catch
        (let form :=
           {| payload_json := JSON_stringify_params env params; file1 := None |} in
         post url form)
        (fun e => logger_error sendFailed e ;; logger_trace e)
  | None =>
      logger_warn "DISCORD_ALERT_WEBHOOK_URL not set, not sending any discord message"
  end.

End Functions.

(** A run that returned normally and logged every failed post it made. *)
Definition failure_logged (axios_post : string -> Form -> Completion unit)
    (run : Eff unit) : Prop :=
  forall url form e,
    In (Post url form) (trace run) ->
    axios_post url form = Throw e ->
    In (Log LError sendFailed (Some e)) (trace run).

Definition swallowed (axios_post : string -> Form -> Completion unit)
    (run : Eff unit) : Prop :=
  completion run = Normal tt /\ failure_logged axios_post run.

End Notify.

(* ===================================================================== *)
(** ** Concrete collaborators, configurations and reports *)
(* ===================================================================== *)

Module Samples.
Import JS Async Notify.

(** A summary with one more error counted. *)
Definition one_more_error (s : HarvestReport.Summary) : HarvestReport.Summary :=
  {| HarvestReport.harvested := HarvestReport.harvested s;
     HarvestReport.skipped := HarvestReport.skipped s;
     HarvestReport.totalStrategies := HarvestReport.totalStrategies s;
     HarvestReport.statuses :=
       {| error := error (HarvestReport.statuses s) + 1;
          warning := warning (HarvestReport.statuses s);
          notice := notice (HarvestReport.statuses s);
          info := info (HarvestReport.statuses s) |};
     HarvestReport.nativeGasUsedWei := HarvestReport.nativeGasUsedWei s;
     HarvestReport.wnativeProfitWei := HarvestReport.wnativeProfitWei s;
     HarvestReport.aggregatedProfitWei := HarvestReport.aggregatedProfitWei s |}.

Definition cellText (c : Cell) : string :=
  match c with
  | CellStr s => s
  | CellNum n => BigInt_toString n
  end.

Fixpoint upperAscii (s : string) : string :=
  match s with
  | EmptyString => EmptyString
  | String c rest =>
      let n := N_of_ascii c in
      String (if ((97 <=? n) && (n <=? 122))%N then ascii_of_N (n - 32) else c)
             (upperAscii rest)
  end.

(** Collaborators that render plainly: cells joined by bars, nothing
    redacted, the content as its own JSON. *)
Definition plain : Collaborators string :=
  {| table := fun rows _ =>
       String.concat (String "010" EmptyString)
         (map (fun row => String.concat "|" (map cellText row)) rows);
     getChainWNativeTokenSymbol := fun _ => "WBNB";
     removeSecretsFromString := fun s => s;
     serializeReport := fun _ _ => "{}";
     extractErrorMessage := fun _ => "failed";
     toLocaleUpperCase := upperAscii;
     JSON_stringify_params := fun p => content p;
     JSON_stringify_pretty := fun a => Normal a;
     String_of := fun a => Normal a |}.

(** Values passed as [ctx.data] or as the error: a text, or a BigInt, which
    [String] renders and [JSON.stringify] refuses. *)
Inductive Datum : Type :=
| DText (s : string)
| DBigInt (n : Z).

Definition with_bigints : Collaborators Datum :=
  {| table := table plain;
     getChainWNativeTokenSymbol := getChainWNativeTokenSymbol plain;
     removeSecretsFromString := removeSecretsFromString plain;
     serializeReport := serializeReport plain;
     extractErrorMessage := extractErrorMessage plain;
     toLocaleUpperCase := toLocaleUpperCase plain;
     JSON_stringify_params := JSON_stringify_params plain;
     JSON_stringify_pretty := fun d =>
       match d with
       | DText t => Normal t
       | DBigInt _ => Throw (OtherError "TypeError: Do not know how to serialize a BigInt")
       end;
     String_of := fun d =>
       match d with
       | DText t => Normal t
       | DBigInt n => Normal (BigInt_toString n)
       end |}.

Definition config (notifyUneventful : bool) : Config :=
  {| DISCORD_REPORT_WEBHOOK_URL := Some "https://discord.example/report";
     DISCORD_ALERT_WEBHOOK_URL := Some "https://discord.example/alert";
     DISCORD_NOTIFY_UNEVENTFUL_HARVEST := notifyUneventful;
     DISCORD_PING_ROLE_IDS_ON_ERROR := Some ["1234"];
     REPORT_URL_TEMPLATE := "https://reports.example/{{reportId}}" |}.

Definition post_ok : string -> Form -> Completion unit := fun _ _ => Normal tt.

Definition post_fails : string -> Form -> Completion unit :=
  fun _ _ => Throw (OtherError "connect ECONNREFUSED").

Definition summary_with (harvested errors warnings notices : Z) : HarvestReport.Summary :=
  {| HarvestReport.harvested := harvested;
     HarvestReport.skipped := 10 - harvested;
     HarvestReport.totalStrategies := 10;
     HarvestReport.statuses :=
       {| error := errors; warning := warnings; notice := notices; info := 0 |};
     HarvestReport.nativeGasUsedWei := 0;
     HarvestReport.wnativeProfitWei := 0;
     HarvestReport.aggregatedProfitWei := 0 |}.

Definition harvest_report (s : HarvestReport.Summary) : HarvestReport.t :=
  {| HarvestReport.chain := "bsc";
     HarvestReport.summary := s;
     HarvestReport.details := [];
     HarvestReport.collectorBalanceBefore := None;
     HarvestReport.collectorBalanceAfter := Some (Rejected "timeout") |}.

Definition unwrap_report (success unwrapped : bool) : UnwrapReport.t :=
  {| UnwrapReport.chain := "bsc";
     UnwrapReport.summary :=
       {| UnwrapReport.success := success;
          UnwrapReport.unwrapped := unwrapped;
          UnwrapReport.nativeGasUsedWei := 0;
          UnwrapReport.wnativeProfitWei := 0;
          UnwrapReport.aggregatedProfitWei := 0 |};
     UnwrapReport.unwrapDecision := None;
     UnwrapReport.unwrapTransaction := None;
     UnwrapReport.collectorBalanceBefore := None;
     UnwrapReport.collectorBalanceAfter := None |}.

End Samples.

(* ===================================================================== *)
(** ** Decidable checks on completions, used to settle finitely many scales *)
(* ===================================================================== *)

Module Checks.
Import JS.

Definition is_normal_Z (c : Completion Z) (z : Z) : bool :=
  match c with
  | Normal v => v =? z
  | Throw _ => false
  end.

Definition is_positive (c : Completion Z) : bool :=
  match c with
  | Normal v => 0 <? v
  | Throw _ => false
  end.

Definition percent_zero_ok (precision : Z) : bool :=
  is_normal_Z (BigInt (Math_round (Number_mul (Number_of_Z 0) (Number_pow10 precision)))) 0
  && is_positive (BigInt (Number_pow10 precision)).

End Checks.

(* ===================================================================== *)
(** ** The earlier revision of notify.ts *)
(* ===================================================================== *)

(** The revision kept beside [notify.ts]: one webhook, no report link, no
    redaction, warning details built from the strategy decisions, and role
    pings that are live. *)
Module NotifyEarlier.
Import JS Bigint Async Notify.

Module Harvest.
Record Statuses : Type := {
  error : Z;
  warning : Z;
  silent_error : Z
}.
Record Summary : Type := {
  harvested : Z;
  skipped : Z;
  totalStrategies : Z;
  statuses : Statuses;
  nativeGasUsedWei : Z;
  wnativeProfitWei : Z;
  aggregatedProfitWei : Z
}.
Record Vault : Type := { id : string; strategyAddress : string }.
Record Decision : Type := { decision_warning : bool; notHarvestingReason : string }.
Record StratSummary : Type := { status : string }.
Record StratReport : Type := {
  vault : Vault;
  strat_summary : StratSummary;
  decision : option Decision
}.
Record t : Type := {
  chain : string;
  summary : Summary;
  details : list StratReport;
  collectorBalanceBefore : option (SettledOutcome Balances);
  collectorBalanceAfter : option (SettledOutcome Balances)
}.
End Harvest.

(** [HarvestReport | UnwrapReport]; of an unwrap report this revision reads
    the chain, the summary and the two balances. *)
Inductive Report : Type :=
| OfHarvest (r : Harvest.t)
| OfUnwrap (r : UnwrapReport.t).

Definition report_chain (report : Report) : string :=
  match report with
  | OfHarvest r => Harvest.chain r
  | OfUnwrap r => UnwrapReport.chain r
  end.

Definition report_collectorBalanceBefore (report : Report) :=
  match report with
  | OfHarvest r => Harvest.collectorBalanceBefore r
  | OfUnwrap r => UnwrapReport.collectorBalanceBefore r
  end.

Definition report_collectorBalanceAfter (report : Report) :=
  match report with
  | OfHarvest r => Harvest.collectorBalanceAfter r
  | OfUnwrap r => UnwrapReport.collectorBalanceAfter r
  end.

Definition report_nativeGasUsedWei (report : Report) : Z :=
  match report with
  | OfHarvest r => Harvest.nativeGasUsedWei (Harvest.summary r)
  | OfUnwrap r => UnwrapReport.nativeGasUsedWei (UnwrapReport.summary r)
  end.

Definition report_wnativeProfitWei (report : Report) : Z :=
  match report with
  | OfHarvest r => Harvest.wnativeProfitWei (Harvest.summary r)
  | OfUnwrap r => UnwrapReport.wnativeProfitWei (UnwrapReport.summary r)
  end.

Definition report_aggregatedProfitWei (report : Report) : Z :=
  match report with
  | OfHarvest r => Harvest.aggregatedProfitWei (Harvest.summary r)
  | OfUnwrap r => UnwrapReport.aggregatedProfitWei (UnwrapReport.summary r)
  end.

Record ExplorerConfig : Type := { addressLinkTemplate : string }.

(** [./config] of this revision.  [EXPLORER_CONFIG] is an object keyed by
    chain: a chain without an entry reads as [undefined]. *)
Record Config : Type := {
  DISCORD_WEBHOOK_URL : option string;
  DISCORD_NOTIFY_UNEVENTFUL_HARVEST : bool;
  DISCORD_PING_ROLE_IDS_ON_ERROR : option (list string);
  EXPLORER_CONFIG : string -> option ExplorerConfig
}.

(** Collaborators whose code is outside [src]: pure functions. *)
Record Collaborators : Type := {
  table : list (list Cell) -> TableConfig -> string;
  getChainWNativeTokenSymbol : string -> string;
  serializeReport : Report -> bool -> string;
  toLocaleUpperCase : string -> string;
  JSON_stringify_params : DiscordWebhookParams -> string
}.

Section Functions.
Variable env : Collaborators.
Variable cfg : Config.
Variable axios_post : string -> Form -> Completion unit.

Local Open Scope eff_scope.

Definition getBalanceReportTable (report : Report) : Completion string :=
  let wnativeSymbol := getChainWNativeTokenSymbol env (report_chain report) in
  let nativeSymbol := slice1 wnativeSymbol in
  let before := report_collectorBalanceBefore report in
  let after := report_collectorBalanceAfter report in
  (b1 <- balanceOf before balanceWei ;;
   b2 <- balanceOf before wnativeBalanceWei ;;
   b3 <- balanceOf before aggregatedBalanceWei ;;
   a1 <- balanceOf after balanceWei ;;
   a2 <- balanceOf after wnativeBalanceWei ;;
   a3 <- balanceOf after aggregatedBalanceWei ;;
   p1 <- amountOf (report_nativeGasUsedWei report) ;;
   p2 <- amountOf (report_wnativeProfitWei report) ;;
   p3 <- amountOf (report_aggregatedProfitWei report) ;;
   Normal (table env
     [ [CellStr EmptyString; CellStr nativeSymbol; CellStr wnativeSymbol;
        CellStr (nativeSymbol ++ " + " ++ wnativeSymbol)];
       [CellStr "before"; CellStr b1; CellStr b2; CellStr b3];
       [CellStr "after"; CellStr a1; CellStr a2; CellStr a3];
       [CellStr "profit"; CellStr p1; CellStr p2; CellStr p3] ]
     {| drawHorizontalLine := fun lineIndex rowCount =>
          (lineIndex =? 0) || (lineIndex =? 1) || (lineIndex =? rowCount - 1)
          || (lineIndex =? rowCount);
        columns := [AlignLeft; AlignRight; AlignRight; AlignRight] |}))%js.

Definition reportForm (params : DiscordWebhookParams) (report : Report) : Form :=
  let reportStr := serializeReport env report true in
  let reportFile :=
    {| file_name := "report_" ++ report_chain report ++ ".json";
       file_body := reportStr |} in
  {| payload_json := JSON_stringify_params env params;
     file1 := Some reportFile |}.

Definition sendReport (url : string) (params : DiscordWebhookParams) (report : Report)
  : Eff unit :=
  try_catch
    (post axios_post url (reportForm params report))
    (fun e => logger_error sendFailed e ;; logger_trace e).

(** The condition and the two branches of the [rolePing] ternary. *)
Definition rolePing (wanted : bool) : string :=
  if wanted && truthy_array (DISCORD_PING_ROLE_IDS_ON_ERROR cfg)
  then rolePingMentions (DISCORD_PING_ROLE_IDS_ON_ERROR cfg)
  else EmptyString.

(** **** notifyHarvestReport *)

Definition harvestUneventful (s : Harvest.Summary) : bool :=
  (Harvest.harvested s =? 0)
  && (Harvest.error (Harvest.statuses s) =? 0)
  && (Harvest.warning (Harvest.statuses s) =? 0).

Definition harvestReportLevel (s : Harvest.Summary) : ReportLevel :=
  if 0 <? Harvest.error (Harvest.statuses s) then ERROR
  else if 0 <? Harvest.warning (Harvest.statuses s) then WARNING
  else INFO.

Definition stratCountTableStr (s : Harvest.Summary) : string :=
  table env
    [ [CellStr "strategies"; CellNum (Harvest.totalStrategies s)];
      [CellStr "skipped"; CellNum (Harvest.skipped s)];
      [CellStr "errors"; CellNum (Harvest.error (Harvest.statuses s))];
      [CellStr "warnings"; CellNum (Harvest.warning (Harvest.statuses s))];
      [CellStr "silent errors"; CellNum (Harvest.silent_error (Harvest.statuses s))];
      [CellStr "harvested"; CellNum (Harvest.harvested s)] ]
    {| drawHorizontalLine := fun lineIndex rowCount =>
         (lineIndex =? 0) || (lineIndex =? 1) || (lineIndex =? rowCount - 1)
         || (lineIndex =? rowCount);
       columns := [AlignRight; AlignLeft] |}.

(** [d.summary.status === 'warning']. *)
Definition isWarning (d : Harvest.StratReport) : bool :=
  String.eqb (Harvest.status (Harvest.strat_summary d)) "warning".

(** The body of the loop for one strategy report: the text it appends.
    Reading [addressLinkTemplate] of a missing explorer entry is a
    TypeError. *)
Definition warningLine (explorerConfig : option ExplorerConfig)
    (stratReport : Harvest.StratReport) : Completion string :=
  match Harvest.decision stratReport with
  | Some d =>
      if Harvest.decision_warning d then
        let vaultId := Harvest.id (Harvest.vault stratReport) in
        let strategyAddress := Harvest.strategyAddress (Harvest.vault stratReport) in
        let vaultLink :=
          "[" ++ vaultId ++ "](<https://app.beefy.finance/vault/" ++ vaultId ++ ">)" in
        match explorerConfig with
        | Some explorer =>
            let stratExplorerLink :=
              String_replace (addressLinkTemplate explorer) "${address}" strategyAddress in
            let stratLink := "[" ++ strategyAddress ++ "](<" ++ stratExplorerLink ++ ">)" in
            Normal ("- " ++ vaultLink ++ " (" ++ stratLink ++ "): "
                    ++ Harvest.notHarvestingReason d ++ String "010" EmptyString)
        | None =>
            Throw (OtherError
              "TypeError: Cannot read properties of undefined (reading 'addressLinkTemplate')")
        end
      else Normal EmptyString
  | None => Normal EmptyString
  end.

Fixpoint warningLines (explorerConfig : option ExplorerConfig)
    (details : list Harvest.StratReport) : Completion string :=
  match details with
  | [] => Normal EmptyString
  | stratReport :: rest =>
      (line <- warningLine explorerConfig stratReport ;;
       more <- warningLines explorerConfig rest ;;
       Normal (line ++ more))%js
  end.

Definition warningDetails (report : Harvest.t) : Completion string :=
  let explorerConfig := EXPLORER_CONFIG cfg (Harvest.chain report) in
  if 0 <? Harvest.warning (Harvest.statuses (Harvest.summary report))
  then warningLines explorerConfig (filter isWarning (Harvest.details report))
  else Normal EmptyString.

Definition harvestRolePing (s : Harvest.Summary) : string :=
  rolePing ((0 <? Harvest.error (Harvest.statuses s))
            || (0 <? Harvest.warning (Harvest.statuses s))
            || DISCORD_NOTIFY_UNEVENTFUL_HARVEST cfg).

Definition harvestContent (reportLevel chainUpper countTable balanceTable
                           warnings ping : string) : string :=
  "
### Harvest " ++ reportLevel ++ " for " ++ chainUpper ++ "
" ++ codeSep ++ "
" ++ countTable ++ "
" ++ balanceTable ++ "
" ++ codeSep ++ "
" ++ warnings ++ "
" ++ ping.

Definition harvestParams (report : Harvest.t) : Completion DiscordWebhookParams :=
  (warnings <- warningDetails report ;;
   balanceTable <- getBalanceReportTable (OfHarvest report) ;;
   Normal {| content :=
       harvestContent (level_label (harvestReportLevel (Harvest.summary report)))
         (toLocaleUpperCase env (Harvest.chain report))
         (stratCountTableStr (Harvest.summary report))
         balanceTable
         warnings
         (harvestRolePing (Harvest.summary report)) |})%js.

Definition notifyHarvestReport (report : Harvest.t) : Eff unit :=
  match DISCORD_WEBHOOK_URL cfg with
  | Some url =>
    if negb (truthy_string url) then
      logger_warn "DISCORD_WEBHOOK_URL not set, not sending any discord message"
    else
      let notify : Eff unit :=
        logger_info "notifying harvest for report" ;;
        params <- lift (harvestParams report) ;;
        sendReport url params (OfHarvest report) in
      if harvestUneventful (Harvest.summary report) then
        logger_info "All strats were skipped, not reporting" ;;
        if negb (DISCORD_NOTIFY_UNEVENTFUL_HARVEST cfg) then ret tt else notify
      else notify
  | None =>
      logger_warn "DISCORD_WEBHOOK_URL not set, not sending any discord message"
  end.

(** **** notifyUnwrapReport *)

Definition unwrapRolePing (s : UnwrapReport.Summary) : string :=
  rolePing (negb (UnwrapReport.success s) || DISCORD_NOTIFY_UNEVENTFUL_HARVEST cfg).

Definition unwrapContent (reportLevel chainUpper balanceBlock ping : string) : string :=
  "
### Wnative unwrap " ++ reportLevel ++ " for " ++ chainUpper ++ "
" ++ balanceBlock ++ "  " ++ "
" ++ ping.

Definition unwrapParams (report : UnwrapReport.t) : Completion DiscordWebhookParams :=
  (balanceBlock <-
     (if UnwrapReport.unwrapped (UnwrapReport.summary report)
      then balanceTable <- getBalanceReportTable (OfUnwrap report) ;;
           Normal (codeSep ++ balanceTable ++ codeSep)
      else Normal EmptyString) ;;
   Normal {| content :=
       unwrapContent (level_label (unwrapReportLevel (UnwrapReport.summary report)))
         (toLocaleUpperCase env (UnwrapReport.chain report))
         balanceBlock
         (unwrapRolePing (UnwrapReport.summary report)) |})%js.

Definition notifyUnwrapReport (report : UnwrapReport.t) : Eff unit :=
  match DISCORD_WEBHOOK_URL cfg with
  | Some url =>
    if negb (truthy_string url) then
      logger_warn "DISCORD_WEBHOOK_URL not set, not sending any discord message"
    else
      let notify : Eff unit :=
        logger_info "notifying unwrap report" ;;
        params <- lift (unwrapParams report) ;;
        sendReport url params (OfUnwrap report) in
      if unwrapUneventful (UnwrapReport.summary report) then
        logger_info "Did not unwrap anything, not reporting" ;;
        if negb (DISCORD_NOTIFY_UNEVENTFUL_HARVEST cfg) then ret tt else notify
      else notify
  | None =>
      logger_warn "DISCORD_WEBHOOK_URL not set, not sending any discord message"
  end.

End Functions.

End NotifyEarlier.

(* ===================================================================== *)
(** ** More checks, numbers and sample data *)
(* ===================================================================== *)

Module More.
Import JS Bigint Async Notify Checks.

(** The number 0.5. *)
Definition Number_half : number := S754_finite false 4503599627370496 (-53).

(** At precision [p] a ratio of 1 has the divisor itself as multiplier. *)
Definition percent_one_ok (precision : Z) : bool :=
  match BigInt (Math_round (Number_mul (Number_of_Z 1) (Number_pow10 precision))),
        BigInt (Number_pow10 precision) with
  | Normal mult, Normal d => (mult =? d) && (0 <? d)
  | _, _ => false
  end.

(** An evaluation that returned, as a boolean. *)
Definition is_normal {A : Type} (c : Completion A) : bool :=
  match c with
  | Normal _ => true
  | Throw _ => false
  end.

(** The webhook posts of a trace, in order. *)
Definition posts (t : list Event) : list Event := filter is_post t.

(** No character of [s] is [c]. *)
Fixpoint lacks (c : ascii) (s : string) : bool :=
  match s with
  | EmptyString => true
  | String a rest => negb (Ascii.eqb a c) && lacks c rest
  end.

(** [pat] occurs nowhere in [s]. *)
Fixpoint occurs_nowhere (pat s : string) : bool :=
  negb (String.prefix pat s)
  && match s with
     | EmptyString => true
     | String _ rest => occurs_nowhere pat rest
     end.

(** A strategy report that contributes a line to the error details. *)
Definition hasMessage (stratReport : HarvestReport.StratReport) : bool :=
  match HarvestReport.discordMessage (HarvestReport.strat_summary stratReport) with
  | Some m => truthy_string m
  | None => false
  end.

Definition isRejected {T : Type} (outcome : option (SettledOutcome T)) : bool :=
  match outcome with
  | Some (Rejected _) => true
  | _ => false
  end.

(** A strategy report the warning loop of the earlier revision writes a line
    for: status ['warning'], a decision, and the decision's warning flag. *)
Definition qualifies (d : NotifyEarlier.Harvest.StratReport) : bool :=
  NotifyEarlier.isWarning d
  && match NotifyEarlier.Harvest.decision d with
     | Some dec => NotifyEarlier.Harvest.decision_warning dec
     | None => false
     end.

(** A strategy report whose decision carries the warning flag. *)
Definition hasWarningDecision (d : NotifyEarlier.Harvest.StratReport) : bool :=
  match NotifyEarlier.Harvest.decision d with
  | Some dec => NotifyEarlier.Harvest.decision_warning dec
  | None => false
  end.

Definition mention (roleId : string) : string := "<@&" ++ roleId ++ ">".

Definition earlier_plain : NotifyEarlier.Collaborators :=
  {| NotifyEarlier.table := fun rows _ =>
       String.concat (String "010" EmptyString)
         (map (fun row => String.concat "|" (map Samples.cellText row)) rows);
     NotifyEarlier.getChainWNativeTokenSymbol := fun _ => "WBNB";
     NotifyEarlier.serializeReport := fun _ _ => "{}";
     NotifyEarlier.toLocaleUpperCase := Samples.upperAscii;
     NotifyEarlier.JSON_stringify_params := fun p => content p |}.

(** An earlier configuration: explorer entries for bsc only. *)
Definition earlier_config (notifyUneventful : bool) (roleIds : option (list string))
  : NotifyEarlier.Config :=
  {| NotifyEarlier.DISCORD_WEBHOOK_URL := Some "https://discord.example/hook";
     NotifyEarlier.DISCORD_NOTIFY_UNEVENTFUL_HARVEST := notifyUneventful;
     NotifyEarlier.DISCORD_PING_ROLE_IDS_ON_ERROR := roleIds;
     NotifyEarlier.EXPLORER_CONFIG := fun chain =>
       if String.eqb chain "bsc"
       then Some {| NotifyEarlier.addressLinkTemplate :=
                      "https://bscscan.com/address/${address}" |}
       else None |}.

Definition earlier_summary (harvested errors warnings silent : Z)
  : NotifyEarlier.Harvest.Summary :=
  {| NotifyEarlier.Harvest.harvested := harvested;
     NotifyEarlier.Harvest.skipped := 10 - harvested;
     NotifyEarlier.Harvest.totalStrategies := 10;
     NotifyEarlier.Harvest.statuses :=
       {| NotifyEarlier.Harvest.error := errors;
          NotifyEarlier.Harvest.warning := warnings;
          NotifyEarlier.Harvest.silent_error := silent |};
     NotifyEarlier.Harvest.nativeGasUsedWei := 0;
     NotifyEarlier.Harvest.wnativeProfitWei := 0;
     NotifyEarlier.Harvest.aggregatedProfitWei := 0 |}.

Definition warned_strat : NotifyEarlier.Harvest.StratReport :=
  {| NotifyEarlier.Harvest.vault :=
       {| NotifyEarlier.Harvest.id := "cake-bnb";
          NotifyEarlier.Harvest.strategyAddress := "0xabc" |};
     NotifyEarlier.Harvest.strat_summary := {| NotifyEarlier.Harvest.status := "warning" |};
     NotifyEarlier.Harvest.decision :=
       Some {| NotifyEarlier.Harvest.decision_warning := true;
               NotifyEarlier.Harvest.notHarvestingReason := "estimation failed" |} |}.

Definition earlier_report (chain : string) (s : NotifyEarlier.Harvest.Summary)
    (details : list NotifyEarlier.Harvest.StratReport) : NotifyEarlier.Harvest.t :=
  {| NotifyEarlier.Harvest.chain := chain;
     NotifyEarlier.Harvest.summary := s;
     NotifyEarlier.Harvest.details := details;
     NotifyEarlier.Harvest.collectorBalanceBefore := None;
     NotifyEarlier.Harvest.collectorBalanceAfter := None |}.

End More.

(* ===================================================================== *)
(** * Properties *)
(* ===================================================================== *)

Import JS Bigint FixedPointSpec Async Checks Notify Samples.

(** ** Numbers and BigInt conversion *)

Lemma is_normal_Z_true c z : is_normal_Z c z = true -> c = Normal z.
Proof.
  destruct c as [v|e]; simpl; [|discriminate].
  intros H; apply Z.eqb_eq in H; now subst.
Qed.

(** A check over the scales [0 .. n-1] decides a statement for each of them. *)
Lemma below_by_enumeration (P : Z -> bool) (n : nat) :
  forallb (fun k => P (Z.of_nat k)) (seq 0 n) = true ->
  forall k, 0 <= k < Z.of_nat n -> P k = true.
Proof.
  intros H k Hk.
  rewrite forallb_forall in H.
  specialize (H (Z.to_nat k)).
  rewrite Z2Nat.id in H by lia.
  apply H, in_seq. lia.
Qed.

(** Up to [10 ** 22] the power of ten is a binary64 value: the divisor is exact. *)
Lemma BigInt_pow10_exact k :
  0 <= k <= 22 -> BigInt (Number_pow10 k) = Normal (10 ^ k).
Proof.
  intros Hk. apply is_normal_Z_true.
  apply (below_by_enumeration (fun k => is_normal_Z (BigInt (Number_pow10 k)) (10 ^ k)) 23);
    [vm_compute; reflexivity | lia].
Qed.

(** [10 ** 24] is not: the nearest binary64 value is 16777216 below. *)
Lemma BigInt_pow10_24 :
  BigInt (Number_pow10 24) = Normal (10 ^ 24 - 16777216).
Proof. vm_compute. reflexivity. Qed.

(** Up to [10 ** 308] the power is finite and converts to a positive BigInt. *)
Lemma BigInt_pow10_positive k :
  0 <= k <= 308 -> exists d, BigInt (Number_pow10 k) = Normal d /\ 0 < d.
Proof.
  intros Hk.
  assert (H : is_positive (BigInt (Number_pow10 k)) = true).
  { apply (below_by_enumeration (fun k => is_positive (BigInt (Number_pow10 k))) 309);
      [vm_compute; reflexivity | lia]. }
  destruct (BigInt (Number_pow10 k)) as [d|e]; simpl in H; [|discriminate].
  exists d. split; [reflexivity | now apply Z.ltb_lt].
Qed.

(** ** Decimal digits *)

Lemma digit_value_digit_char d :
  (d < 10)%N -> digit_value (digit_char d) = Some d.
Proof.
  intros Hd.
  assert (H : In d [0; 1; 2; 3; 4; 5; 6; 7; 8; 9]%N).
  { simpl. lia. }
  simpl in H.
  repeat (destruct H as [<- | H]; [reflexivity|]). contradiction.
Qed.

Lemma digit_char_not_point d : (d < 10)%N -> Ascii.eqb (digit_char d) "." = false.
Proof.
  intros Hd.
  assert (H : In d [0; 1; 2; 3; 4; 5; 6; 7; 8; 9]%N).
  { simpl. lia. }
  simpl in H.
  repeat (destruct H as [<- | H]; [reflexivity|]). contradiction.
Qed.

Lemma digit_value_not_point c d : digit_value c = Some d -> Ascii.eqb c "." = false.
Proof.
  intros H. destruct (Ascii.eqb c ".") eqn:E; [|reflexivity].
  apply Ascii.eqb_eq in E. subst c. discriminate.
Qed.

Lemma digit_value_not_minus c d : digit_value c = Some d -> c <> "-"%char.
Proof. intros H ->. discriminate. Qed.

Lemma digit_value_zero : digit_value "0" = Some 0%N.
Proof. reflexivity. Qed.

Lemma string_app_assoc (a b c : string) : (a ++ b) ++ c = a ++ (b ++ c).
Proof. induction a; simpl; [reflexivity | now rewrite IHa]. Qed.

Lemma string_app_empty_r (a : string) : a ++ EmptyString = a.
Proof. induction a; simpl; [reflexivity | now rewrite IHa]. Qed.

Lemma string_length_app (a b : string) :
  String.length (a ++ b) = (String.length a + String.length b)%nat.
Proof. induction a; simpl; [reflexivity | now rewrite IHa]. Qed.

Lemma is_digits_app a b : is_digits (a ++ b) = is_digits a && is_digits b.
Proof.
  induction a as [|c a IH]; simpl; [reflexivity|].
  destruct (digit_value c); [exact IH | reflexivity].
Qed.

Lemma parse_digits_from_app a x y :
  parse_digits_from a (x ++ y) =
  match parse_digits_from a x with
  | Some v => parse_digits_from v y
  | None => None
  end.
Proof.
  revert a. induction x as [|c x IH]; intros a; simpl; [reflexivity|].
  destruct (digit_value c); [apply IH | reflexivity].
Qed.

(** The digits [digits_before] writes: they are digits, they read back as
    the number, there is at least one, and no more than the number needs. *)
Lemma digits_before_spec fuel :
  forall n acc, (n < 2 ^ N.of_nat fuel)%N ->
  exists ds,
    digits_before fuel n acc = ds ++ acc
    /\ is_digits ds = true
    /\ (forall a, parse_digits_from a ds
                  = Some (a * 10 ^ N.of_nat (String.length ds) + n)%N)
    /\ (fuel <> O -> ds <> EmptyString)
    /\ (forall k, (1 <= k)%nat -> (n < 10 ^ N.of_nat k)%N -> (String.length ds <= k)%nat).
Proof.
  induction fuel as [|fuel IH]; intros n acc Hn.
  - exists EmptyString. simpl in *.
    assert (n = 0%N) by lia. subst n.
    repeat split; try reflexivity; try congruence; try lia.
    intros a. f_equal. lia.
  - simpl digits_before.
    assert (Hmod : (n mod 10 < 10)%N) by (apply N.mod_lt; lia).
    assert (Hdiv : (n = 10 * (n / 10) + n mod 10)%N) by (apply N.div_mod; lia).
    destruct (N.eqb_spec (n / 10) 0) as [Hz|Hnz].
    + exists (String (digit_char (n mod 10)) EmptyString).
      assert (Hsmall : (n mod 10 = n)%N) by lia.
      cbn [append is_digits parse_digits_from String.length].
      rewrite digit_value_digit_char by exact Hmod.
      repeat split; try reflexivity; try congruence; try lia.
      intros a. f_equal. change (N.of_nat 1) with 1%N. lia.
    + destruct (IH (n / 10)%N (String (digit_char (n mod 10)) acc)) as
        (ds & Heq & Hdig & Hparse & _ & Hlen).
      { rewrite Nat2N.inj_succ, N.pow_succ_r' in Hn.
        apply N.Div0.div_lt_upper_bound. lia. }
      exists (ds ++ String (digit_char (n mod 10)) EmptyString).
      split; [|split; [|split; [|split]]].
      * rewrite Heq, string_app_assoc. reflexivity.
      * rewrite is_digits_app, Hdig. cbn [is_digits andb].
        now rewrite digit_value_digit_char.
      * intros a. rewrite parse_digits_from_app, Hparse.
        cbn [parse_digits_from].
        rewrite digit_value_digit_char by exact Hmod.
        f_equal. rewrite string_length_app. cbn [String.length].
        rewrite Nat2N.inj_add, N.pow_add_r. change (N.of_nat 1) with 1%N. lia.
      * intros _. destruct ds; discriminate.
      * intros k Hk Hlt. rewrite string_length_app. cbn [String.length].
        destruct k as [|k]; [lia|].
        destruct k as [|k].
        { change (N.of_nat 1) with 1%N in Hlt.
          exfalso. apply Hnz. apply N.div_small. lia. }
        assert (String.length ds <= S k)%nat; [|lia].
        apply Hlen; [lia|].
        rewrite (Nat2N.inj_succ (S k)), N.pow_succ_r' in Hlt.
        apply N.Div0.div_lt_upper_bound. lia.
Qed.

Lemma log2_fuel_enough n : (n < 2 ^ N.of_nat (S (N.to_nat (N.log2 n))))%N.
Proof.
  rewrite Nat2N.inj_succ, N2Nat.id.
  destruct n as [|p]; [reflexivity|].
  apply N.log2_spec. lia.
Qed.

Lemma N_toString_spec n :
  exists ds,
    N_toString n = ds
    /\ is_digits ds = true
    /\ (forall a, parse_digits_from a ds
                  = Some (a * 10 ^ N.of_nat (String.length ds) + n)%N)
    /\ ds <> EmptyString
    /\ (forall k, (1 <= k)%nat -> (n < 10 ^ N.of_nat k)%N -> (String.length ds <= k)%nat).
Proof.
  destruct (digits_before_spec _ n EmptyString (log2_fuel_enough n))
    as (ds & Heq & Hdig & Hparse & Hne & Hlen).
  exists ds. rewrite string_app_empty_r in Heq.
  repeat split; auto.
Qed.

Lemma BigInt_toString_nonneg z :
  0 <= z -> BigInt_toString z = N_toString (Z.to_N z).
Proof.
  destruct z as [|p|p]; intros Hz; [reflexivity | reflexivity | lia].
Qed.

(** ** Reading back what [bigintFormat] writes *)

Lemma split_at_point_digits a b :
  is_digits a = true -> split_at_point (a ++ String "." b) = (a, b).
Proof.
  induction a as [|c a IH]; intros Ha; cbn [append split_at_point].
  - reflexivity.
  - cbn [is_digits] in Ha.
    destruct (digit_value c) as [d|] eqn:Hc; [|discriminate].
    rewrite (digit_value_not_point c d Hc), (IH Ha). reflexivity.
Qed.

Lemma take_app_length a b : take (String.length a) (a ++ b) = a.
Proof. induction a as [|c a IH]; cbn; [now destruct b | now rewrite IH]. Qed.

Lemma drop_length a : drop (String.length a) a = EmptyString.
Proof. induction a as [|c a IH]; cbn; [reflexivity | exact IH]. Qed.

Lemma length_repeat_char c k : String.length (repeat_char c k) = k.
Proof. induction k as [|k IH]; cbn; [reflexivity | now rewrite IH]. Qed.

Lemma parse_leading_zeros k x :
  parse_digits_from 0 (repeat_char "0" k ++ x) = parse_digits_from 0 x.
Proof.
  induction k as [|k IH]; cbn [repeat_char append parse_digits_from]; [reflexivity|].
  rewrite digit_value_zero. exact IH.
Qed.

Lemma parseFixed_unsigned k c s :
  c <> "-"%char ->
  parseFixed k (String c s) = option_map Z.of_N (parse_unsigned k (String c s)).
Proof.
  intros Hc.
  destruct c as [[] [] [] [] [] [] [] []]; try reflexivity.
  now contradiction Hc.
Qed.

(** The fraction [bigintFormat] writes for a remainder below [10 ^ s] reads
    back, at scale [s], as that remainder. *)
Lemma fraction_reads_back (s : nat) (r : N) :
  (r < 10 ^ N.of_nat s)%N ->
  let frac := padStart (N_toString r) (Z.of_nat s) "0" in
  parse_digits_from 0 (take s (frac ++ repeat_char "0" s)) = Some r
  /\ all_zeros (drop s frac) = true.
Proof.
  intros Hr frac.
  destruct (N_toString_spec r) as (ds & Heq & Hdig & Hparse & Hne & Hlen).
  destruct s as [|s].
  - assert (r = 0%N) by (change (10 ^ N.of_nat 0)%N with 1%N in Hr; lia).
    subst r. split; reflexivity.
  - assert (Hl : (String.length ds <= S s)%nat) by (apply Hlen; [lia | exact Hr]).
    subst frac. unfold padStart. rewrite Heq.
    set (zs := repeat_char "0" (Z.to_nat (Z.of_nat (S s) - Z.of_nat (String.length ds)))).
    assert (Hfl : String.length (zs ++ ds) = S s).
    { rewrite string_length_app. unfold zs. rewrite length_repeat_char. lia. }
    rewrite <- Hfl at 1 3.
    rewrite take_app_length, drop_length.
    split; [|reflexivity].
    unfold zs. rewrite parse_leading_zeros, Hparse. reflexivity.
Qed.

(** The unsigned part [q.frac] reads back as [q * 10^s + r]. *)
Lemma unsigned_reads_back (s : nat) (q r : N) :
  (r < 10 ^ N.of_nat s)%N ->
  parse_unsigned s
    (N_toString q ++ "." ++ padStart (N_toString r) (Z.of_nat s) "0")
  = Some (q * 10 ^ N.of_nat s + r)%N.
Proof.
  intros Hr.
  destruct (fraction_reads_back s r Hr) as [Hfrac Hextra].
  destruct (N_toString_spec q) as (ds & Heq & Hdig & Hparse & Hne & _).
  unfold parse_unsigned. rewrite Heq.
  change ("." ++ ?x) with (String "." x).
  rewrite (split_at_point_digits _ _ Hdig), Hfrac, Hextra.
  unfold parse_digits. destruct ds as [|c ds]; [congruence|].
  rewrite Hparse. reflexivity.
Qed.

Lemma N_toString_head_not_minus n :
  exists c rest, N_toString n = String c rest /\ c <> "-"%char.
Proof.
  destruct (N_toString_spec n) as (ds & Heq & Hdig & _ & Hne & _).
  rewrite Heq. destruct ds as [|c ds]; [congruence|].
  exists c, ds. split; [reflexivity|].
  cbn [is_digits] in Hdig.
  destruct (digit_value c) as [d|] eqn:Hc; [|discriminate].
  exact (digit_value_not_minus c d Hc).
Qed.

(** X1. For every amount and every scale whose power of ten is a binary64
    value (0 to 22), [bigintFormat] returns a string that reads back, at that
    scale, as the amount. *)
Lemma bigintFormat_reads_back (raw s : Z) :
  0 <= s <= 22 ->
  exists str, bigintFormat raw s = Normal str
              /\ parseFixed (Z.to_nat s) str = Some raw.
Proof.
  intros Hs.
  unfold bigintFormat. rewrite (BigInt_pow10_exact s Hs).
  cbn [bindC]. unfold BigInt_rem, BigInt_div.
  assert (Hd : 0 < 10 ^ s) by (apply Z.pow_pos_nonneg; lia).
  destruct (Z.eqb_spec (10 ^ s) 0) as [E|_]; [lia|].
  cbn [bindC].
  set (n := if raw <? 0 then - raw else raw).
  assert (Hn : 0 <= n) by (unfold n; destruct (Z.ltb_spec raw 0); lia).
  rewrite Z.rem_mod_nonneg, Z.quot_div_nonneg by lia.
  assert (Hr : 0 <= n mod 10 ^ s < 10 ^ s) by (apply Z.mod_pos_bound; lia).
  assert (Hq : 0 <= n / 10 ^ s) by (apply Z.div_pos; lia).
  assert (Hdm : n = 10 ^ s * (n / 10 ^ s) + n mod 10 ^ s) by (apply Z.div_mod; lia).
  rewrite !BigInt_toString_nonneg by lia.
  set (q := Z.to_N (n / 10 ^ s)). set (r := Z.to_N (n mod 10 ^ s)).
  assert (Hpow : Z.of_N (10 ^ N.of_nat (Z.to_nat s)) = 10 ^ s).
  { rewrite N2Z.inj_pow, nat_N_Z, Z2Nat.id by lia. reflexivity. }
  assert (Hread : parse_unsigned (Z.to_nat s)
            (N_toString q ++ "." ++ padStart (N_toString r) s "0")
          = Some (q * 10 ^ N.of_nat (Z.to_nat s) + r)%N).
  { rewrite <- (Z2Nat.id s) at 2 by lia. apply unsigned_reads_back.
    unfold r. lia. }
  assert (Hval : Z.of_N (q * 10 ^ N.of_nat (Z.to_nat s) + r) = n).
  { rewrite N2Z.inj_add, N2Z.inj_mul, Hpow. unfold q, r.
    rewrite !Z2N.id by lia. lia. }
  eexists. split; [reflexivity|].
  destruct (Z.ltb_spec raw 0) as [Hneg|Hpos].
  - change ("-" ++ ?x) with (String "-" x).
    cbn [parseFixed]. rewrite Hread. cbn [option_map].
    f_equal. rewrite Hval. unfold n.
    destruct (Z.ltb_spec raw 0); lia.
  - cbn [append].
    destruct (N_toString_head_not_minus q) as (c & rest & Hc & Hnm).
    rewrite Hc in Hread |- *. cbn [append] in Hread |- *.
    rewrite (parseFixed_unsigned _ c _ Hnm), Hread. cbn [option_map].
    f_equal. rewrite Hval. unfold n.
    destruct (Z.ltb_spec raw 0); lia.
Qed.

(** ** bigintFormat *)

(** C1. [bigintFormat(50000000000000n, 18, 6)], the call [notify.ts] makes
    for an amount of 0.00005: the function declares no display-digits
    parameter, the [6] is dropped, and the fraction comes back at the full
    scale width, ["0.000050000000000000"], not truncated to ["0.000050"]. *)
Theorem bigintFormat_keeps_scale_width :
  bigintFormat3 50000000000000 18 6 = Normal "0.000050000000000000"
  /\ bigintFormat3 50000000000000 18 6 <> Normal "0.000050".
Proof. split; [vm_compute; reflexivity | vm_compute; discriminate]. Qed.

Lemma BigInt_throws_RangeError x e :
  BigInt x = Throw e -> exists msg, e = RangeError msg.
Proof.
  destruct x as [s|s| |s m ex]; cbn [BigInt]; try discriminate.
  - intros [= <-]. eauto.
  - intros [= <-]. eauto.
  - destruct (0 <=? ex); [discriminate|].
    destruct (Z.pos m mod 2 ^ (- ex) =? 0); [discriminate|].
    intros [= <-]. eauto.
Qed.

Lemma BigInt_rem_throws_RangeError a b e :
  BigInt_rem a b = Throw e -> exists msg, e = RangeError msg.
Proof.
  unfold BigInt_rem. destruct (b =? 0); [|discriminate]. intros [= <-]. eauto.
Qed.

Lemma BigInt_div_throws_RangeError a b e :
  BigInt_div a b = Throw e -> exists msg, e = RangeError msg.
Proof.
  unfold BigInt_div. destruct (b =? 0); [|discriminate]. intros [= <-]. eauto.
Qed.

(** For every scale from 0 to 308 [bigintFormat] returns a string. *)
Lemma bigintFormat_returns n decimal :
  0 <= decimal <= 308 -> returns (bigintFormat n decimal).
Proof.
  intros Hd. unfold bigintFormat.
  destruct (BigInt_pow10_positive decimal Hd) as (d & -> & Hpos).
  cbn [bindC]. unfold BigInt_rem, BigInt_div.
  destruct (Z.eqb_spec d 0) as [E|_]; [lia|].
  cbn [bindC]. eexists. reflexivity.
Qed.

(** C6 (counterexample). Six display digits asked of an amount at scale 2:
    the call returns ["0.05"], it does not raise. *)
Lemma bigintFormat_excess_digits_accepted :
  2 < 6 /\ bigintFormat3 5 2 6 = Normal "0.05" /\ ~ raises (bigintFormat3 5 2 6).
Proof.
  split; [lia|]. split; [vm_compute; reflexivity|].
  intros [e He]. vm_compute in He. discriminate.
Qed.

(** C6 (amended). [bigintFormat] validates no precision.  A call asking for
    more display digits than the scale returns a string whenever the scale is
    between 0 and 308, and the only error the function ever throws, at any
    arguments, is the RangeError of a failed BigInt conversion or division. *)
Theorem bigintFormat_validates_no_precision (n decimal displayDigits : Z) :
  (0 <= decimal <= 308 -> decimal < displayDigits ->
   returns (bigintFormat3 n decimal displayDigits))
  /\ (forall e, bigintFormat3 n decimal displayDigits = Throw e ->
                exists msg, e = RangeError msg).
Proof.
  split.
  - intros Hd _. exact (bigintFormat_returns n decimal Hd).
  - intros e. unfold bigintFormat3, bigintFormat.
    destruct (BigInt (Number_pow10 decimal)) as [d|e1] eqn:E1; cbn [bindC].
    + destruct (BigInt_rem _ d) as [r|e2] eqn:E2; cbn [bindC].
      * destruct (BigInt_div _ d) as [q|e3] eqn:E3; cbn [bindC]; [discriminate|].
        intros [= <-]. exact (BigInt_div_throws_RangeError _ _ _ E3).
      * intros [= <-]. exact (BigInt_rem_throws_RangeError _ _ _ E2).
    + intros [= <-]. exact (BigInt_throws_RangeError _ _ E1).
Qed.

Lemma bigintFormat_validates_no_precision_witness :
  0 <= 2 <= 308 /\ 2 < 6 /\ returns (bigintFormat3 5 2 6).
Proof.
  split; [lia|]. split; [lia|].
  apply (proj1 (bigintFormat_validates_no_precision 5 2 6)); lia.
Defined.

(** C7. At scale 24 the divisor [BigInt(10 ** 24)] is
    999999999999999983222784, not 10^24, and the amount 10^24 is written as
    ["1.000000000000000016777216"], which reads back at scale 24 as
    10^24 + 16777216, not as the amount. *)
Theorem bigintFormat_scale_24_reads_back_wrong :
  BigInt (Number_pow10 24) = Normal 999999999999999983222784
  /\ bigintFormat (10 ^ 24) 24 = Normal "1.000000000000000016777216"
  /\ parseFixed 24 "1.000000000000000016777216" = Some (10 ^ 24 + 16777216)
  /\ parseFixed 24 "1.000000000000000016777216" <> Some (10 ^ 24).
Proof.
  split; [vm_compute; reflexivity|].
  split; [vm_compute; reflexivity|].
  split; [vm_compute; reflexivity | vm_compute; discriminate].
Qed.

(** ** bigintPercent *)

Lemma percent_zero_multiplier precision :
  0 <= precision <= 308 ->
  BigInt (Math_round (Number_mul (Number_of_Z 0) (Number_pow10 precision))) = Normal 0
  /\ exists d, BigInt (Number_pow10 precision) = Normal d /\ 0 < d.
Proof.
  intros Hp.
  assert (H : percent_zero_ok precision = true).
  { apply (below_by_enumeration percent_zero_ok 309); [vm_compute; reflexivity | lia]. }
  unfold percent_zero_ok in H. apply andb_prop in H. destruct H as [H0 _].
  split; [now apply is_normal_Z_true | now apply BigInt_pow10_positive].
Qed.

(** C2 (counterexample). One hundred "percent" of 1 at precision 4 is 100. *)
Lemma bigintPercent_100_is_hundredfold :
  bigintPercent 1 (Number_of_Z 100) precision_default = Normal 100
  /\ bigintPercent 1 (Number_of_Z 100) precision_default <> Normal 1.
Proof. split; [vm_compute; reflexivity | vm_compute; discriminate]. Qed.

(** C2 (amended). [percent] is a ratio.  For every amount: a ratio of 0
    gives 0 at every precision from 0 to 308; at precision 4 a ratio of 1
    gives the amount back, and a ratio of 100 gives a hundred times the
    amount. *)
Theorem bigintPercent_is_a_ratio (raw : Z) :
  (forall precision, 0 <= precision <= 308 ->
     bigintPercent raw (Number_of_Z 0) precision = Normal 0)
  /\ bigintPercent raw (Number_of_Z 1) precision_default = Normal raw
  /\ bigintPercent raw (Number_of_Z 100) precision_default = Normal (100 * raw).
Proof.
  split; [|split].
  - intros precision Hp. unfold bigintPercent.
    destruct (percent_zero_multiplier precision Hp) as (-> & d & -> & Hd).
    cbn [bindC]. unfold BigInt_div.
    destruct (Z.eqb_spec d 0) as [E|_]; [lia|].
    rewrite Z.mul_0_r. reflexivity.
  - unfold bigintPercent, precision_default.
    replace (BigInt (Math_round (Number_mul (Number_of_Z 1) (Number_pow10 4))))
      with (Normal 10000) by (vm_compute; reflexivity).
    replace (BigInt (Number_pow10 4)) with (Normal 10000) by (vm_compute; reflexivity).
    cbn [bindC]. unfold BigInt_div. cbn [Z.eqb].
    f_equal. apply Z.quot_mul. lia.
  - unfold bigintPercent, precision_default.
    replace (BigInt (Math_round (Number_mul (Number_of_Z 100) (Number_pow10 4))))
      with (Normal 1000000) by (vm_compute; reflexivity).
    replace (BigInt (Number_pow10 4)) with (Normal 10000) by (vm_compute; reflexivity).
    cbn [bindC]. unfold BigInt_div. cbn [Z.eqb].
    f_equal. replace (raw * 1000000) with (100 * raw * 10000) by lia.
    apply Z.quot_mul. lia.
Qed.

Lemma bigintPercent_is_a_ratio_witness :
  0 <= 4 <= 308 /\ bigintPercent 7 (Number_of_Z 0) 4 = Normal 0.
Proof.
  split; [lia|].
  apply (proj1 (bigintPercent_is_a_ratio 7)). lia.
Defined.

(** ** The settled-outcome projection *)

Lemma projectOrUnavailable_returns {T : Type} (mapFn : T -> Completion string) :
  (forall value, returns (mapFn value)) ->
  forall result, returns (projectOrUnavailable result mapFn).
Proof.
  intros Hmap [[value|reason]|]; try (eexists; reflexivity).
  unfold projectOrUnavailable, asyncResultGet.
  destruct (Hmap value) as [s ->]. eexists. reflexivity.
Qed.

(** ** The balance table *)

Lemma amountOf_returns wei : returns (amountOf wei).
Proof.
  unfold amountOf.
  destruct (bigintFormat_returns wei 18) as [s Hs]; [lia|].
  unfold bigintFormat3. rewrite Hs. eexists. reflexivity.
Qed.

Lemma balanceOf_returns outcome field : returns (balanceOf outcome field).
Proof.
  unfold balanceOf.
  apply projectOrUnavailable_returns.
  intros b. apply bigintFormat_returns. lia.
Qed.

(** C9. The safe projection never raises: for every outcome state
    (fulfilled, rejected, absent) and every mapping function, a pure function
    of the fulfilled value, the projection composed with the rendering
    fallback returns; so it does at the call sites of
    [getBalanceReportTable], whose mapping formats a balance field at scale
    18.  For a rejected or absent outcome the rendered field is ["??"]
    whatever is supplied as the mapping, which is not called; for a fulfilled
    outcome it is the mapped value (["??"] if that is the empty string).  The
    projection raises nothing of its own: an error can only be one raised by
    the mapping on the fulfilled value. *)
Theorem projection_never_raises {T : Type} :
  (forall (mapFn : T -> string) (result : option (SettledOutcome T)),
     returns (projectOrUnavailable result (fun value => Normal (mapFn value))))
  /\ (forall (mapFn : T -> Completion string) reason,
        projectOrUnavailable (Some (Rejected reason)) mapFn = Normal "??")
  /\ (forall (mapFn : T -> Completion string),
        projectOrUnavailable None mapFn = Normal "??")
  /\ (forall (mapFn : T -> string) value,
        projectOrUnavailable (Some (Fulfilled value)) (fun value => Normal (mapFn value))
        = Normal (or_else (mapFn value) "??"))
  /\ (forall outcome (field : Balances -> Z), returns (balanceOf outcome field))
  /\ (forall (mapFn : T -> Completion string) result e,
        projectOrUnavailable result mapFn = Throw e ->
        exists value, result = Some (Fulfilled value) /\ mapFn value = Throw e).
Proof.
  split.
  { intros mapFn result. apply projectOrUnavailable_returns.
    intros value. eexists. reflexivity. }
  split; [reflexivity|]. split; [reflexivity|]. split; [reflexivity|].
  split; [exact balanceOf_returns|].
  intros mapFn [[value|reason]|] e; cbn; try discriminate.
  unfold projectOrUnavailable, asyncResultGet.
  destruct (mapFn value) as [s|e'] eqn:E; cbn; [discriminate|].
  intros [= <-]. exists value. split; [reflexivity | exact E].
Qed.

(** [getBalanceReportTable] formats at scale 18 only: it always returns. *)
Lemma getBalanceReportTable_returns {Any} (env : Collaborators Any) report :
  returns (getBalanceReportTable env report).
Proof.
  unfold getBalanceReportTable.
  repeat match goal with
  | |- context [balanceOf ?o ?f] =>
      let s := fresh "s" in destruct (balanceOf_returns o f) as [s ->]; cbn [bindC]
  | |- context [amountOf ?w] =>
      let s := fresh "s" in destruct (amountOf_returns w) as [s ->]; cbn [bindC]
  end.
  eexists. reflexivity.
Qed.

(** ** Running the notifications *)

Lemma harvestParams_returns {Any} (env : Collaborators Any) cfg report id level :
  returns (harvestParams env cfg report id level).
Proof.
  unfold harvestParams.
  destruct (getBalanceReportTable_returns env (OfHarvest report)) as [bt ->].
  eexists. reflexivity.
Qed.

Lemma unwrapParams_returns {Any} (env : Collaborators Any) cfg report id level :
  returns (unwrapParams env cfg report id level).
Proof.
  unfold unwrapParams.
  destruct (UnwrapReport.unwrapped (UnwrapReport.summary report)).
  - destruct (getBalanceReportTable_returns env (OfUnwrap report)) as [bt ->].
    eexists. reflexivity.
  - eexists. reflexivity.
Qed.

(** The dispatch: one post, and on failure the two log lines of the handler. *)
Lemma sendReport_run {Any} (env : Collaborators Any) axios_post url params report :
  sendReport env axios_post url params report =
  (Normal tt,
   Post url (reportForm env params report)
   :: match axios_post url (reportForm env params report) with
      | Normal _ => []
      | Throw e => [Log LError sendFailed (Some e); Log LTrace EmptyString (Some e)]
      end).
Proof.
  unfold sendReport, try_catch, post.
  destruct (axios_post url (reportForm env params report)) as [[]|e]; reflexivity.
Qed.

(** What a harvest notification does once the endpoint is configured. *)
Lemma notifyHarvestReport_run {Any} (env : Collaborators Any) cfg axios_post report id url :
  DISCORD_REPORT_WEBHOOK_URL cfg = Some url -> truthy_string url = true ->
  exists params,
    harvestParams env cfg report id (harvestReportLevel (HarvestReport.summary report))
    = Normal params
    /\ notifyHarvestReport env cfg axios_post report id =
       (Normal tt,
        (if harvestUneventful (HarvestReport.summary report)
         then [Log LInfo "All strats were skipped, not reporting" None] else [])
        ++ (if harvestUneventful (HarvestReport.summary report)
               && negb (DISCORD_NOTIFY_UNEVENTFUL_HARVEST cfg)
            then []
            else Log LInfo "notifying harvest for report" None
                 :: trace (sendReport env axios_post url params (OfHarvest report))))%list.
Proof.
  intros Hurl Htruthy.
  destruct (harvestParams_returns env cfg report id
              (harvestReportLevel (HarvestReport.summary report))) as [params Hp].
  exists params. split; [exact Hp|].
  unfold notifyHarvestReport. rewrite Hurl, Htruthy, Hp.
  destruct (harvestUneventful (HarvestReport.summary report));
    destruct (DISCORD_NOTIFY_UNEVENTFUL_HARVEST cfg);
    cbv [bind lift logger_info emit ret negb andb];
    rewrite ?sendReport_run; reflexivity.
Qed.

Lemma notifyUnwrapReport_run {Any} (env : Collaborators Any) cfg axios_post report id url :
  DISCORD_REPORT_WEBHOOK_URL cfg = Some url -> truthy_string url = true ->
  exists params,
    unwrapParams env cfg report id (unwrapReportLevel (UnwrapReport.summary report))
    = Normal params
    /\ notifyUnwrapReport env cfg axios_post report id =
       (Normal tt,
        (if unwrapUneventful (UnwrapReport.summary report)
         then [Log LInfo "Did not unwrap anything, not reporting" None] else [])
        ++ (if unwrapUneventful (UnwrapReport.summary report)
               && negb (DISCORD_NOTIFY_UNEVENTFUL_HARVEST cfg)
            then []
            else Log LInfo "notifying unwrap report" None
                 :: trace (sendReport env axios_post url params (OfUnwrap report))))%list.
Proof.
  intros Hurl Htruthy.
  destruct (unwrapParams_returns env cfg report id
              (unwrapReportLevel (UnwrapReport.summary report))) as [params Hp].
  exists params. split; [exact Hp|].
  unfold notifyUnwrapReport. rewrite Hurl, Htruthy, Hp.
  destruct (unwrapUneventful (UnwrapReport.summary report));
    destruct (DISCORD_NOTIFY_UNEVENTFUL_HARVEST cfg);
    cbv [bind lift logger_info emit ret negb andb];
    rewrite ?sendReport_run; reflexivity.
Qed.

(** Without a truthy endpoint nothing is sent: one warning, then return. *)
Lemma notifyHarvestReport_unconfigured {Any} (env : Collaborators Any) cfg axios_post report id :
  truthy_url (DISCORD_REPORT_WEBHOOK_URL cfg) = false ->
  notifyHarvestReport env cfg axios_post report id =
  (Normal tt,
   [Log LWarn "DISCORD_REPORT_WEBHOOK_URL not set, not sending any discord message" None]).
Proof.
  unfold notifyHarvestReport, truthy_url.
  destruct (DISCORD_REPORT_WEBHOOK_URL cfg) as [url|]; [|reflexivity].
  intros ->. reflexivity.
Qed.

Lemma notifyUnwrapReport_unconfigured {Any} (env : Collaborators Any) cfg axios_post report id :
  truthy_url (DISCORD_REPORT_WEBHOOK_URL cfg) = false ->
  notifyUnwrapReport env cfg axios_post report id =
  (Normal tt,
   [Log LWarn "DISCORD_REPORT_WEBHOOK_URL not set, not sending any discord message" None]).
Proof.
  unfold notifyUnwrapReport, truthy_url.
  destruct (DISCORD_REPORT_WEBHOOK_URL cfg) as [url|]; [|reflexivity].
  intros ->. reflexivity.
Qed.

Lemma truthy_url_cases (u : option string) :
  truthy_url u = false \/ exists url, u = Some url /\ truthy_string url = true.
Proof.
  destruct u as [url|]; [|now left].
  cbn. destruct (truthy_string url) eqn:E; [right; eauto | now left].
Qed.

(** ** Severity and the eventfulness gate *)

(** C3. The severity of a harvest summary is ERROR when [statuses.error > 0],
    otherwise WARNING when [statuses.warning > 0], otherwise INFO; two
    summaries with the same error and warning counts have the same severity,
    whatever their other counts; and counting one more error never lowers the
    severity in the order INFO < WARNING < ERROR. *)
Theorem harvestReportLevel_classifies (s : HarvestReport.Summary) :
  (0 < error (HarvestReport.statuses s) -> harvestReportLevel s = ERROR)
  /\ (error (HarvestReport.statuses s) <= 0 ->
      0 < warning (HarvestReport.statuses s) -> harvestReportLevel s = WARNING)
  /\ (error (HarvestReport.statuses s) <= 0 ->
      warning (HarvestReport.statuses s) <= 0 -> harvestReportLevel s = INFO)
  /\ (forall s',
        error (HarvestReport.statuses s') = error (HarvestReport.statuses s) ->
        warning (HarvestReport.statuses s') = warning (HarvestReport.statuses s) ->
        harvestReportLevel s' = harvestReportLevel s)
  /\ (level_rank (harvestReportLevel s)
      <= level_rank (harvestReportLevel (one_more_error s)))%nat.
Proof.
  unfold harvestReportLevel.
  repeat split.
  - intros H. apply Z.ltb_lt in H. now rewrite H.
  - intros He Hw. apply Z.ltb_ge in He. apply Z.ltb_lt in Hw. now rewrite He, Hw.
  - intros He Hw. apply Z.ltb_ge in He. apply Z.ltb_ge in Hw. now rewrite He, Hw.
  - intros s' -> ->. reflexivity.
  - cbn [one_more_error HarvestReport.statuses error warning].
    destruct (Z.ltb_spec 0 (error (HarvestReport.statuses s)));
      destruct (Z.ltb_spec 0 (error (HarvestReport.statuses s) + 1));
      destruct (Z.ltb_spec 0 (warning (HarvestReport.statuses s)));
      cbn [level_rank]; lia.
Qed.

Lemma harvestReportLevel_classifies_witness :
  0 < error (HarvestReport.statuses (summary_with 8 2 1 0))
  /\ harvestReportLevel (summary_with 8 2 1 0) = ERROR.
Proof.
  split; [reflexivity|].
  apply (proj1 (harvestReportLevel_classifies (summary_with 8 2 1 0))).
  reflexivity.
Defined.

Lemma harvestUneventful_true (s : HarvestReport.Summary) :
  HarvestReport.harvested s = 0 ->
  error (HarvestReport.statuses s) = 0 ->
  warning (HarvestReport.statuses s) = 0 ->
  notice (HarvestReport.statuses s) = 0 ->
  harvestUneventful s = true /\ harvestReportLevel s = INFO.
Proof.
  intros Hh He Hw Hn. unfold harvestUneventful, harvestReportLevel.
  rewrite Hh, He, Hw, Hn. split; reflexivity.
Qed.

(** C4. A harvest report with nothing harvested and no error, warning or
    notice.  With [DISCORD_NOTIFY_UNEVENTFUL_HARVEST] off the notification
    returns without any post.  With the flag on (and the report endpoint
    configured, the gate before this one) the report is posted, and the
    message posted is the one of severity INFO. *)
Theorem notifyHarvestReport_uneventful {Any : Type} (env : Collaborators Any)
    (cfg : Config) (axios_post : string -> Form -> Completion unit)
    (report : HarvestReport.t) (id : option Z) :
  HarvestReport.harvested (HarvestReport.summary report) = 0 ->
  error (HarvestReport.statuses (HarvestReport.summary report)) = 0 ->
  warning (HarvestReport.statuses (HarvestReport.summary report)) = 0 ->
  notice (HarvestReport.statuses (HarvestReport.summary report)) = 0 ->
  (DISCORD_NOTIFY_UNEVENTFUL_HARVEST cfg = false ->
     completion (notifyHarvestReport env cfg axios_post report id) = Normal tt
     /\ dispatched (notifyHarvestReport env cfg axios_post report id) = false)
  /\ (DISCORD_NOTIFY_UNEVENTFUL_HARVEST cfg = true ->
      forall url,
        DISCORD_REPORT_WEBHOOK_URL cfg = Some url -> truthy_string url = true ->
        harvestReportLevel (HarvestReport.summary report) = INFO
        /\ exists params,
             harvestParams env cfg report id INFO = Normal params
             /\ In (Post url (reportForm env params (OfHarvest report)))
                   (trace (notifyHarvestReport env cfg axios_post report id))
             /\ dispatched (notifyHarvestReport env cfg axios_post report id) = true).
Proof.
  intros Hh He Hw Hn.
  destruct (harvestUneventful_true _ Hh He Hw Hn) as [Hun Hlevel].
  split.
  - intros Hflag.
    destruct (truthy_url_cases (DISCORD_REPORT_WEBHOOK_URL cfg)) as [Hno|(url & Hurl & Ht)].
    + rewrite (notifyHarvestReport_unconfigured env cfg axios_post report id Hno).
      split; reflexivity.
    + destruct (notifyHarvestReport_run env cfg axios_post report id url Hurl Ht)
        as (params & _ & ->).
      rewrite Hun, Hflag. split; reflexivity.
  - intros Hflag url Hurl Ht. split; [exact Hlevel|].
    destruct (notifyHarvestReport_run env cfg axios_post report id url Hurl Ht)
      as (params & Hp & ->).
    rewrite Hlevel in Hp. exists params. split; [exact Hp|].
    rewrite Hun, Hflag, sendReport_run.
    split; [cbn; auto | reflexivity].
Qed.

Lemma notifyHarvestReport_uneventful_witness :
  dispatched (notifyHarvestReport plain (config false) post_ok
                (harvest_report (summary_with 0 0 0 0)) (Some 42)) = false
  /\ dispatched (notifyHarvestReport plain (config true) post_ok
                   (harvest_report (summary_with 0 0 0 0)) (Some 42)) = true.
Proof.
  split.
  - apply (proj1 (notifyHarvestReport_uneventful plain (config false) post_ok
                    (harvest_report (summary_with 0 0 0 0)) (Some 42)
                    eq_refl eq_refl eq_refl eq_refl)).
    reflexivity.
  - destruct (proj2 (notifyHarvestReport_uneventful plain (config true) post_ok
                       (harvest_report (summary_with 0 0 0 0)) (Some 42)
                       eq_refl eq_refl eq_refl eq_refl)
                eq_refl _ eq_refl eq_refl) as (_ & params & _ & _ & H).
    exact H.
Defined.

(** C5. An unwrap report with [success = true] and [unwrapped = false],
    [DISCORD_NOTIFY_UNEVENTFUL_HARVEST] off: the notification returns after a
    single log line and its trace holds no post, whatever the transport. *)
Theorem notifyUnwrapReport_uneventful_silent {Any : Type} (env : Collaborators Any)
    (cfg : Config) (axios_post : string -> Form -> Completion unit)
    (report : UnwrapReport.t) (id : option Z) :
  UnwrapReport.success (UnwrapReport.summary report) = true ->
  UnwrapReport.unwrapped (UnwrapReport.summary report) = false ->
  DISCORD_NOTIFY_UNEVENTFUL_HARVEST cfg = false ->
  completion (notifyUnwrapReport env cfg axios_post report id) = Normal tt
  /\ dispatched (notifyUnwrapReport env cfg axios_post report id) = false
  /\ (forall url form,
        ~ In (Post url form) (trace (notifyUnwrapReport env cfg axios_post report id)))
  /\ (exists level msg,
        trace (notifyUnwrapReport env cfg axios_post report id) = [Log level msg None]).
Proof.
  intros Hs Hu Hflag.
  assert (Hun : unwrapUneventful (UnwrapReport.summary report) = true).
  { unfold unwrapUneventful. now rewrite Hs, Hu. }
  destruct (truthy_url_cases (DISCORD_REPORT_WEBHOOK_URL cfg)) as [Hno|(url & Hurl & Ht)].
  - rewrite (notifyUnwrapReport_unconfigured env cfg axios_post report id Hno).
    repeat split; try reflexivity.
    + intros url form [H|[]]. discriminate.
    + eexists _, _. reflexivity.
  - destruct (notifyUnwrapReport_run env cfg axios_post report id url Hurl Ht)
      as (params & _ & ->).
    rewrite Hun, Hflag.
    repeat split; try reflexivity.
    + intros url' form [H|[]]. discriminate.
    + eexists _, _. reflexivity.
Qed.

Lemma notifyUnwrapReport_uneventful_silent_witness :
  dispatched (notifyUnwrapReport plain (config false) post_fails
                (unwrap_report true false) None) = false.
Proof.
  apply (notifyUnwrapReport_uneventful_silent plain (config false) post_fails
           (unwrap_report true false) None eq_refl eq_refl eq_refl).
Defined.

(** ** Role pings *)

(** C10. For every configuration (any role-id list, either value of the
    uneventful flag) and every report (any severity), the role ping is the
    empty string, and so the harvest message and the unwrap message are
    assembled with the empty string as their last splice. *)
Theorem rolePing_disabled {Any : Type} (env : Collaborators Any) (cfg : Config)
    (hreport : HarvestReport.t) (ureport : UnwrapReport.t)
    (id : option Z) (level : ReportLevel) :
  harvestRolePing cfg (HarvestReport.summary hreport) = EmptyString
  /\ unwrapRolePing cfg (UnwrapReport.summary ureport) = EmptyString
  /\ harvestParams env cfg hreport id level =
     bindC (getBalanceReportTable env (OfHarvest hreport)) (fun balanceTable =>
       Normal {| content := removeSecretsFromString env
         (harvestContent (level_label level)
            (toLocaleUpperCase env (HarvestReport.chain hreport))
            (reportUrlMarkdown cfg id)
            (stratCountTableStr env (HarvestReport.summary hreport))
            balanceTable
            (harvestErrorDetails (HarvestReport.details hreport))
            EmptyString) |})
  /\ unwrapParams env cfg ureport id level =
     bindC (if UnwrapReport.unwrapped (UnwrapReport.summary ureport)
            then bindC (getBalanceReportTable env (OfUnwrap ureport))
                   (fun balanceTable => Normal (codeSep ++ balanceTable ++ codeSep))
            else Normal EmptyString) (fun balanceBlock =>
       Normal {| content := removeSecretsFromString env
         (unwrapContent (level_label level)
            (toLocaleUpperCase env (UnwrapReport.chain ureport))
            (reportUrlMarkdown cfg id)
            balanceBlock
            (unwrapErrorDetails env ureport)
            EmptyString) |}).
Proof.
  assert (Hh : forall s, harvestRolePing cfg s = EmptyString).
  { intros s. unfold harvestRolePing. now rewrite andb_false_r. }
  assert (Hu : forall s, unwrapRolePing cfg s = EmptyString).
  { intros s. unfold unwrapRolePing. now rewrite andb_false_r. }
  split; [apply Hh|]. split; [apply Hu|].
  unfold harvestParams, unwrapParams. rewrite Hh, Hu. split; reflexivity.
Qed.

(** ** Transport failures *)

Lemma failure_logged_send {Any} (env : Collaborators Any) axios_post url params report
    (before : list Event) :
  (forall ev, In ev before -> is_post ev = false) ->
  failure_logged axios_post
    (Normal tt, (before ++ trace (sendReport env axios_post url params report))%list).
Proof.
  intros Hbefore url' form' e Hin Hfail.
  unfold trace in *. cbn [snd] in *. rewrite sendReport_run in *. cbn [snd] in *.
  apply in_app_or in Hin. apply in_or_app.
  destruct Hin as [Hin | [Heq | Hin]].
  - apply Hbefore in Hin. discriminate.
  - injection Heq as <- <-. rewrite Hfail. right. right. left. reflexivity.
  - destruct (axios_post url (reportForm env params report)); [contradiction|].
    right. right. destruct Hin as [Hin | [Hin | []]]; discriminate.
Qed.

Lemma swallowed_harvest {Any} (env : Collaborators Any) cfg axios_post report id :
  swallowed axios_post (notifyHarvestReport env cfg axios_post report id).
Proof.
  destruct (truthy_url_cases (DISCORD_REPORT_WEBHOOK_URL cfg)) as [Hno|(url & Hurl & Ht)].
  - rewrite (notifyHarvestReport_unconfigured env cfg axios_post report id Hno).
    split; [reflexivity|]. intros url form e [H|[]]. discriminate.
  - destruct (notifyHarvestReport_run env cfg axios_post report id url Hurl Ht)
      as (params & _ & ->).
    split; [reflexivity|].
    destruct (harvestUneventful (HarvestReport.summary report));
      destruct (DISCORD_NOTIFY_UNEVENTFUL_HARVEST cfg); cbn [andb negb app].
    + apply (failure_logged_send env axios_post url params (OfHarvest report) [_; _]).
      intros ev [<-|[<-|[]]]; reflexivity.
    + intros url' form e [H|[]]. discriminate.
    + apply (failure_logged_send env axios_post url params (OfHarvest report) [_]).
      intros ev [<-|[]]; reflexivity.
    + apply (failure_logged_send env axios_post url params (OfHarvest report) [_]).
      intros ev [<-|[]]; reflexivity.
Qed.

Lemma swallowed_unwrap {Any} (env : Collaborators Any) cfg axios_post report id :
  swallowed axios_post (notifyUnwrapReport env cfg axios_post report id).
Proof.
  destruct (truthy_url_cases (DISCORD_REPORT_WEBHOOK_URL cfg)) as [Hno|(url & Hurl & Ht)].
  - rewrite (notifyUnwrapReport_unconfigured env cfg axios_post report id Hno).
    split; [reflexivity|]. intros url form e [H|[]]. discriminate.
  - destruct (notifyUnwrapReport_run env cfg axios_post report id url Hurl Ht)
      as (params & _ & ->).
    split; [reflexivity|].
    destruct (unwrapUneventful (UnwrapReport.summary report));
      destruct (DISCORD_NOTIFY_UNEVENTFUL_HARVEST cfg); cbn [andb negb app].
    + apply (failure_logged_send env axios_post url params (OfUnwrap report) [_; _]).
      intros ev [<-|[<-|[]]]; reflexivity.
    + intros url' form e [H|[]]. discriminate.
    + apply (failure_logged_send env axios_post url params (OfUnwrap report) [_]).
      intros ev [<-|[]]; reflexivity.
    + apply (failure_logged_send env axios_post url params (OfUnwrap report) [_]).
      intros ev [<-|[]]; reflexivity.
Qed.

Lemma failure_logged_attempt axios_post url form (before : list Event) :
  (forall ev, In ev before -> is_post ev = false) ->
  failure_logged axios_post
    (Normal tt,
     (before ++ Post url form
        :: match axios_post url form with
           | Normal _ => []
           | Throw e => [Log LError sendFailed (Some e); Log LTrace EmptyString (Some e)]
           end)%list).
Proof.
  intros Hbefore url' form' e Hin Hfail.
  unfold trace in *. cbn [snd] in *.
  apply in_app_or in Hin. apply in_or_app.
  destruct Hin as [Hin | [Heq | Hin]].
  - apply Hbefore in Hin. discriminate.
  - injection Heq as <- <-. rewrite Hfail. right. right. left. reflexivity.
  - destruct (axios_post url form); [contradiction|].
    right. right. destruct Hin as [Hin | [Hin | []]]; discriminate.
Qed.

Lemma truthy_url_some url : truthy_string url = true -> truthy_url (Some url) = true.
Proof. intros H. exact H. Qed.

(** What [notifyError] does once the alert endpoint is configured: the
    message text is built first, outside the [try]; an error of
    [String(error)] or of [JSON.stringify(ctx.data, null, 2)] leaves the
    function there. *)
Lemma notifyError_run {Any} (env : Collaborators Any) cfg axios_post
    (ctx : ErrorContext) (error : Any) url :
  DISCORD_ALERT_WEBHOOK_URL cfg = Some url -> truthy_string url = true ->
  notifyError env cfg axios_post ctx error =
  match errorContent env ctx error with
  | Normal text =>
    (Normal tt,
     Log LInfo "notifying error" None
     :: Post url {| payload_json := JSON_stringify_params env
                      {| content := removeSecretsFromString env text |};
                    file1 := None |}
     :: match axios_post url
                {| payload_json := JSON_stringify_params env
                     {| content := removeSecretsFromString env text |};
                   file1 := None |} with
        | Normal _ => []
        | Throw e => [Log LError sendFailed (Some e); Log LTrace EmptyString (Some e)]
        end)
  | Throw e => (Throw e, [Log LInfo "notifying error" None])
  end.
Proof.
  intros Hurl Ht. unfold notifyError. rewrite Hurl, Ht.
  destruct (errorContent env ctx error) as [text|e0]; [|reflexivity].
  cbv [negb bind lift logger_info emit try_catch post logger_error logger_trace].
  destruct (axios_post url _) as [[]|e]; reflexivity.
Qed.

Lemma notifyError_unconfigured {Any} (env : Collaborators Any) cfg axios_post
    (ctx : ErrorContext) (error : Any) :
  truthy_url (DISCORD_ALERT_WEBHOOK_URL cfg) = false ->
  notifyError env cfg axios_post ctx error =
  (Normal tt,
   [Log LWarn "DISCORD_ALERT_WEBHOOK_URL not set, not sending any discord message" None]).
Proof.
  unfold notifyError, truthy_url.
  destruct (DISCORD_ALERT_WEBHOOK_URL cfg) as [url|]; [|reflexivity].
  intros ->. reflexivity.
Qed.

Lemma failure_logged_error {Any} (env : Collaborators Any) cfg axios_post
    (ctx : ErrorContext) (error : Any) :
  failure_logged axios_post (notifyError env cfg axios_post ctx error).
Proof.
  destruct (truthy_url_cases (DISCORD_ALERT_WEBHOOK_URL cfg)) as [Hno|(url & Hurl & Ht)].
  - rewrite (notifyError_unconfigured env cfg axios_post ctx error Hno).
    intros url form e [H|[]]. discriminate.
  - rewrite (notifyError_run env cfg axios_post ctx error url Hurl Ht).
    destruct (errorContent env ctx error) as [text|e0].
    + apply (failure_logged_attempt axios_post url _ [_]).
      intros ev [<-|[]]; reflexivity.
    + intros url' form e [H|[]]. discriminate.
Qed.

Lemma swallowed_error {Any} (env : Collaborators Any) cfg axios_post
    (ctx : ErrorContext) (error : Any) :
  returns (errorContent env ctx error) ->
  swallowed axios_post (notifyError env cfg axios_post ctx error).
Proof.
  intros [text Htext]. split; [|apply failure_logged_error].
  destruct (truthy_url_cases (DISCORD_ALERT_WEBHOOK_URL cfg)) as [Hno|(url & Hurl & Ht)].
  - now rewrite (notifyError_unconfigured env cfg axios_post ctx error Hno).
  - now rewrite (notifyError_run env cfg axios_post ctx error url Hurl Ht), Htext.
Qed.

(** An error that leaves [notifyError] is one of building the message text,
    and no post has been made then. *)
Lemma notifyError_throw {Any} (env : Collaborators Any) cfg axios_post
    (ctx : ErrorContext) (error : Any) e :
  completion (notifyError env cfg axios_post ctx error) = Throw e ->
  errorContent env ctx error = Throw e
  /\ dispatched (notifyError env cfg axios_post ctx error) = false.
Proof.
  destruct (truthy_url_cases (DISCORD_ALERT_WEBHOOK_URL cfg)) as [Hno|(url & Hurl & Ht)].
  - rewrite (notifyError_unconfigured env cfg axios_post ctx error Hno). discriminate.
  - rewrite (notifyError_run env cfg axios_post ctx error url Hurl Ht).
    destruct (errorContent env ctx error) as [text|e0]; [discriminate|].
    intros [= ->]. split; reflexivity.
Qed.

(** C8 (counterexample). An alert whose [ctx.data] holds a BigInt: building
    the message text throws at [JSON.stringify(ctx.data, null, 2)], before
    the [try]; [notifyError] throws, whether the transport would have
    resolved or rejected, and nothing is posted. *)
Lemma notifyError_throws_before_dispatch :
  completion (notifyError with_bigints (config true) post_ok
                {| doing := "harvesting"; data := DBigInt 1 |} (DText "Error: timeout"))
  = Throw (OtherError "TypeError: Do not know how to serialize a BigInt")
  /\ completion (notifyError with_bigints (config true) post_fails
                   {| doing := "harvesting"; data := DBigInt 1 |} (DText "Error: timeout"))
     = Throw (OtherError "TypeError: Do not know how to serialize a BigInt")
  /\ dispatched (notifyError with_bigints (config true) post_ok
                   {| doing := "harvesting"; data := DBigInt 1 |} (DText "Error: timeout"))
     = false.
Proof. split; [|split]; vm_compute; reflexivity. Qed.

(** C8 (amended). Whatever the transport does on each post (resolve, or
    reject with any error), [notifyHarvestReport] and [notifyUnwrapReport]
    return normally for every report, and every post that failed is followed
    in the trace by the error log line of the [catch] handler.  So does
    [notifyError] whenever its message text can be built, that is whenever
    [String(error)] and [JSON.stringify(ctx.data, null, 2)] return; in any
    case a failed post of [notifyError] is logged, a run that posted returns
    normally, and an error that leaves [notifyError] is the one of building
    the text, thrown before any post. *)
Theorem transport_failure_swallowed {Any : Type} (env : Collaborators Any)
    (cfg : Config) (axios_post : string -> Form -> Completion unit) :
  (forall report id,
     swallowed axios_post (notifyHarvestReport env cfg axios_post report id))
  /\ (forall report id,
       swallowed axios_post (notifyUnwrapReport env cfg axios_post report id))
  /\ (forall ctx error,
       (returns (errorContent env ctx error) ->
        swallowed axios_post (notifyError env cfg axios_post ctx error))
       /\ failure_logged axios_post (notifyError env cfg axios_post ctx error)
       /\ (dispatched (notifyError env cfg axios_post ctx error) = true ->
           completion (notifyError env cfg axios_post ctx error) = Normal tt)
       /\ (forall e,
             completion (notifyError env cfg axios_post ctx error) = Throw e ->
             errorContent env ctx error = Throw e
             /\ dispatched (notifyError env cfg axios_post ctx error) = false)).
Proof.
  split; [|split].
  - intros report id. apply swallowed_harvest.
  - intros report id. apply swallowed_unwrap.
  - intros ctx error. split; [apply swallowed_error|].
    split; [apply failure_logged_error|]. split.
    + intros Hposted.
      destruct (completion (notifyError env cfg axios_post ctx error)) as [[]|e] eqn:E;
        [reflexivity|].
      destruct (notifyError_throw env cfg axios_post ctx error e E) as [_ Hnone].
      congruence.
    + intros e. apply notifyError_throw.
Qed.

Lemma transport_failure_swallowed_witness :
  completion (notifyHarvestReport plain (config true) post_fails
                (harvest_report (summary_with 8 0 1 0)) (Some 42)) = Normal tt
  /\ completion (notifyError plain (config true) post_fails
                   {| doing := "harvesting"; data := "{}" |} "Error: timeout")
     = Normal tt.
Proof.
  split.
  - apply (proj1 (transport_failure_swallowed plain (config true) post_fails)).
  - apply (proj1 (proj2 (proj2 (transport_failure_swallowed plain (config true) post_fails))
                   {| doing := "harvesting"; data := "{}" |} "Error: timeout")).
    eexists. reflexivity.
Defined.

(* ===================================================================== *)
(** * More properties of the code *)
(* ===================================================================== *)

Import More.

Lemma bigintFormat_reads_back_witness :
  0 <= 18 <= 22
  /\ exists str, bigintFormat (-50000000000000) 18 = Normal str
                 /\ parseFixed (Z.to_nat 18) str = Some (-50000000000000).
Proof.
  split; [lia|]. apply bigintFormat_reads_back. lia.
Defined.

(** ** bigint.ts *)

(** X2. Formatting is symmetric in the sign: for a positive amount, the
    negated amount formats as ["-"] followed by the format of the amount, at
    every scale (and fails the same way where the scale is refused). *)
Theorem bigintFormat_negation (n decimal : Z) :
  0 < n ->
  bigintFormat (- n) decimal
  = bindC (bigintFormat n decimal) (fun s => Normal ("-" ++ s)).
Proof.
  intros Hn. unfold bigintFormat.
  destruct (Z.ltb_spec (- n) 0) as [_|H]; [|lia].
  destruct (Z.ltb_spec n 0) as [H|_]; [lia|].
  rewrite Z.opp_involutive.
  destruct (BigInt (Number_pow10 decimal)) as [d|e]; cbn [bindC]; [|reflexivity].
  destruct (BigInt_rem n d) as [r|e]; cbn [bindC]; [|reflexivity].
  destruct (BigInt_div n d) as [q|e]; cbn [bindC]; reflexivity.
Qed.

Lemma bigintFormat_negation_witness :
  0 < 5 /\ bigintFormat (Z.opp 5) 2 = Normal "-0.05".
Proof.
  split; [lia|].
  rewrite (bigintFormat_negation 5 2) by lia. vm_compute. reflexivity.
Defined.

Lemma digit_char_nonzero d :
  (0 < d < 10)%N -> digit_char d <> "0"%char.
Proof.
  intros Hd.
  assert (H : In d [1; 2; 3; 4; 5; 6; 7; 8; 9]%N) by (simpl; lia).
  simpl in H.
  repeat (destruct H as [<- | H]; [discriminate|]). contradiction.
Qed.

(** A positive number is written without a leading zero. *)
Lemma digits_before_head fuel :
  forall n acc, (0 < n < 2 ^ N.of_nat fuel)%N ->
  exists c rest, digits_before fuel n acc = String c rest /\ c <> "0"%char.
Proof.
  induction fuel as [|fuel IH]; intros n acc Hn.
  - change (2 ^ N.of_nat 0)%N with 1%N in Hn. lia.
  - cbn [digits_before].
    assert (Hmod : (n mod 10 < 10)%N) by (apply N.mod_lt; lia).
    assert (Hdiv : (n = 10 * (n / 10) + n mod 10)%N) by (apply N.div_mod; lia).
    destruct (N.eqb_spec (n / 10) 0) as [Hz|Hnz].
    + eexists _, _. split; [reflexivity|]. apply digit_char_nonzero. lia.
    + apply IH. split; [lia|].
      rewrite Nat2N.inj_succ, N.pow_succ_r' in Hn.
      apply N.Div0.div_lt_upper_bound. lia.
Qed.

Lemma N_toString_canonical n :
  N_toString n = "0" \/ exists c rest, N_toString n = String c rest /\ c <> "0"%char.
Proof.
  destruct n as [|p]; [left; reflexivity|].
  right. apply digits_before_head. split; [lia | apply log2_fuel_enough].
Qed.

(** X3. The shape of a formatted amount at scales 0 to 22: an optional ["-"]
    (present exactly for a negative amount), the integer part in decimal
    digits without a leading zero (or ["0"]), a point, and a fraction of
    exactly [decimal] digits (one digit, ["0"], at scale 0); the two parts
    are the quotient and the remainder of the magnitude by [10 ^ decimal]. *)
Theorem bigintFormat_shape (raw decimal : Z) :
  0 <= decimal <= 22 ->
  exists whole frac,
    bigintFormat raw decimal
    = Normal ((if raw <? 0 then "-" else EmptyString) ++ whole ++ "." ++ frac)
    /\ is_digits whole = true
    /\ (whole = "0" \/ exists c rest, whole = String c rest /\ c <> "0"%char)
    /\ parse_digits whole = Some (Z.to_N (Z.abs raw / 10 ^ decimal))
    /\ is_digits frac = true
    /\ String.length frac = Nat.max 1 (Z.to_nat decimal)
    /\ parse_digits frac = Some (Z.to_N (Z.abs raw mod 10 ^ decimal)).
Proof.
  intros Hs.
  unfold bigintFormat. rewrite (BigInt_pow10_exact decimal Hs).
  cbn [bindC]. unfold BigInt_rem, BigInt_div.
  assert (Hd : 0 < 10 ^ decimal) by (apply Z.pow_pos_nonneg; lia).
  destruct (Z.eqb_spec (10 ^ decimal) 0) as [E|_]; [lia|].
  cbn [bindC].
  assert (Habs : (if raw <? 0 then - raw else raw) = Z.abs raw).
  { destruct (Z.ltb_spec raw 0); lia. }
  rewrite Habs.
  assert (Hn : 0 <= Z.abs raw) by lia.
  rewrite Z.rem_mod_nonneg, Z.quot_div_nonneg by lia.
  assert (Hr : 0 <= Z.abs raw mod 10 ^ decimal < 10 ^ decimal)
    by (apply Z.mod_pos_bound; lia).
  assert (Hq : 0 <= Z.abs raw / 10 ^ decimal) by (apply Z.div_pos; lia).
  rewrite !BigInt_toString_nonneg by lia.
  set (q := Z.to_N (Z.abs raw / 10 ^ decimal)).
  set (r := Z.to_N (Z.abs raw mod 10 ^ decimal)).
  destruct (N_toString_spec q) as (dq & Eq & Hdq & Hpq & Hneq & _).
  destruct (N_toString_spec r) as (dr & Er & Hdr & Hpr & Hner & Hlen).
  exists (N_toString q), (padStart (N_toString r) decimal "0").
  split; [reflexivity|].
  split; [now rewrite Eq|].
  split; [apply N_toString_canonical|].
  split.
  { rewrite Eq. unfold parse_digits. destruct dq; [congruence|]. now rewrite Hpq. }
  unfold padStart. rewrite Er.
  set (zs := repeat_char "0" (Z.to_nat (decimal - Z.of_nat (String.length dr)))).
  assert (Hzs : is_digits zs = true).
  { unfold zs. generalize (Z.to_nat (decimal - Z.of_nat (String.length dr))).
    intros k. induction k; cbn; auto. }
  assert (Hdrlen : (1 <= String.length dr)%nat).
  { destruct dr; [congruence | cbn; lia]. }
  assert (Hbound : (1 <= Z.to_nat decimal)%nat -> (String.length dr <= Z.to_nat decimal)%nat).
  { intros H1. apply Hlen; [exact H1|].
    unfold r. rewrite <- (N2Z.id (10 ^ N.of_nat (Z.to_nat decimal))).
    rewrite N2Z.inj_pow, nat_N_Z, Z2Nat.id by lia.
    apply Z2N.inj_lt; try lia. }
  split; [now rewrite is_digits_app, Hzs, Hdr|].
  split.
  { rewrite string_length_app. unfold zs. rewrite length_repeat_char.
    destruct (Z.to_nat decimal) as [|k] eqn:Ek.
    - assert (decimal = 0) by lia. subst decimal.
      assert (Hr0 : r = 0%N) by (unfold r; change (10 ^ 0) with 1 in *; lia).
      rewrite Hr0 in Er. vm_compute in Er. subst dr. reflexivity.
    - specialize (Hbound ltac:(lia)). lia. }
  unfold parse_digits.
  destruct (zs ++ dr) eqn:Ezd.
  { destruct zs; [cbn in Ezd; congruence | discriminate]. }
  rewrite <- Ezd. unfold zs. rewrite parse_leading_zeros, Hpr. reflexivity.
Qed.

Lemma bigintFormat_shape_witness :
  0 <= 18 <= 22
  /\ exists whole frac,
       bigintFormat (-50000000000000) 18 = Normal ("-" ++ whole ++ "." ++ frac)
       /\ String.length frac = 18%nat.
Proof.
  split; [lia|].
  destruct (bigintFormat_shape (-50000000000000) 18 ltac:(lia))
    as (whole & frac & H & _ & _ & _ & _ & Hl & _).
  exists whole, frac. split; [exact H | exact Hl].
Defined.

(** X4. At scale 0 the function still writes a fraction: the amount in
    decimal followed by [".0"], for every amount. *)
Theorem bigintFormat_scale_0 (raw : Z) :
  bigintFormat raw 0 = Normal (BigInt_toString raw ++ ".0").
Proof.
  unfold bigintFormat.
  replace (BigInt (Number_pow10 0)) with (Normal 1) by (vm_compute; reflexivity).
  cbn [bindC]. unfold BigInt_rem, BigInt_div. cbn [Z.eqb bindC].
  rewrite Z.rem_1_r, Z.quot_1_r.
  change (padStart (BigInt_toString 0) 0 "0") with "0".
  destruct raw as [|p|p]; cbn [Z.ltb Z.compare Z.opp BigInt_toString].
  - reflexivity.
  - reflexivity.
  - now rewrite string_app_assoc.
Qed.

(** X5. [bigintPercent] is odd in the amount: negating the amount negates
    the result, for every ratio and precision (division truncates towards
    zero on both sides, and a refused precision fails the same way). *)
Theorem bigintPercent_negation (n : Z) (percent : number) (precision : Z) :
  bigintPercent (- n) percent precision
  = bindC (bigintPercent n percent precision) (fun r => Normal (- r)).
Proof.
  unfold bigintPercent.
  destruct (BigInt (Math_round (Number_mul percent (Number_pow10 precision))))
    as [mult|e]; cbn [bindC]; [|reflexivity].
  destruct (BigInt (Number_pow10 precision)) as [d|e]; cbn [bindC]; [|reflexivity].
  unfold BigInt_div. destruct (Z.eqb_spec d 0) as [E|E]; cbn [bindC]; [reflexivity|].
  f_equal. rewrite Z.mul_opp_l. apply Z.quot_opp_l. exact E.
Qed.

Lemma percent_one_multiplier precision :
  0 <= precision <= 308 ->
  exists d,
    BigInt (Math_round (Number_mul (Number_of_Z 1) (Number_pow10 precision))) = Normal d
    /\ BigInt (Number_pow10 precision) = Normal d /\ 0 < d.
Proof.
  intros Hp.
  assert (H : percent_one_ok precision = true).
  { apply (below_by_enumeration percent_one_ok 309); [vm_compute; reflexivity | lia]. }
  unfold percent_one_ok in H.
  destruct (BigInt (Math_round _)) as [mult|]; [|discriminate].
  destruct (BigInt (Number_pow10 precision)) as [d|]; [|discriminate].
  apply andb_prop in H. destruct H as [H1 H2].
  apply Z.eqb_eq in H1. apply Z.ltb_lt in H2. subst mult.
  exists d. auto.
Qed.

(** X6. A ratio of 1 gives the amount back at every precision from 0 to
    308, also where [10 ** precision] is not a power of ten any more: the
    multiplier and the divisor are the same number. *)
Theorem bigintPercent_one_is_identity (raw precision : Z) :
  0 <= precision <= 308 ->
  bigintPercent raw (Number_of_Z 1) precision = Normal raw.
Proof.
  intros Hp. unfold bigintPercent.
  destruct (percent_one_multiplier precision Hp) as (d & -> & -> & Hd).
  cbn [bindC]. unfold BigInt_div.
  destruct (Z.eqb_spec d 0) as [E|_]; [lia|].
  f_equal. apply Z.quot_mul. lia.
Qed.

Lemma bigintPercent_one_is_identity_witness :
  0 <= 30 <= 308 /\ bigintPercent (-7) (Number_of_Z 1) 30 = Normal (-7).
Proof.
  split; [lia|]. apply bigintPercent_one_is_identity. lia.
Defined.

(** X7. A ratio of one half at the default precision halves the amount and
    drops the remainder towards zero, for negative amounts too (7 gives 3,
    -7 gives -3). *)
Theorem bigintPercent_half_truncates (raw : Z) :
  bigintPercent raw Number_half precision_default = Normal (Z.quot raw 2)
  /\ (0 <= raw -> bigintPercent raw Number_half precision_default = Normal (raw / 2))
  /\ (raw <= 0 -> bigintPercent raw Number_half precision_default = Normal (- (- raw / 2))).
Proof.
  assert (H : bigintPercent raw Number_half precision_default = Normal (Z.quot raw 2)).
  { unfold bigintPercent, precision_default.
    replace (BigInt (Math_round (Number_mul Number_half (Number_pow10 4))))
      with (Normal 5000) by (vm_compute; reflexivity).
    replace (BigInt (Number_pow10 4)) with (Normal 10000) by (vm_compute; reflexivity).
    cbn [bindC]. unfold BigInt_div. cbn [Z.eqb].
    f_equal. change 10000 with (2 * 5000).
    apply Z.quot_mul_cancel_r; lia. }
  split; [exact H|]. split; intros Hr; rewrite H; f_equal.
  - apply Z.quot_div_nonneg; lia.
  - rewrite <- (Z.opp_involutive raw) at 1.
    rewrite Z.quot_opp_l by lia. f_equal. apply Z.quot_div_nonneg; lia.
Qed.

Lemma bigintPercent_half_truncates_witness :
  0 <= 7 /\ bigintPercent 7 Number_half precision_default = Normal (7 / 2).
Proof.
  split; [lia|].
  apply (proj1 (proj2 (bigintPercent_half_truncates 7))). lia.
Defined.

(** ** notify.ts: when and where a post is made *)

Ltac run_harvest env cfg ax report id :=
  let Hno := fresh "Hno" in
  let url := fresh "url" in
  let Hurl := fresh "Hurl" in
  let Ht := fresh "Ht" in
  let params := fresh "params" in
  let Hp := fresh "Hp" in
  destruct (truthy_url_cases (DISCORD_REPORT_WEBHOOK_URL cfg)) as [Hno|(url & Hurl & Ht)];
  [ rewrite (notifyHarvestReport_unconfigured env cfg ax report id Hno)
  | destruct (notifyHarvestReport_run env cfg ax report id url Hurl Ht)
      as (params & Hp & ->);
    rewrite sendReport_run ].

Ltac run_unwrap env cfg ax report id :=
  let Hno := fresh "Hno" in
  let url := fresh "url" in
  let Hurl := fresh "Hurl" in
  let Ht := fresh "Ht" in
  let params := fresh "params" in
  let Hp := fresh "Hp" in
  destruct (truthy_url_cases (DISCORD_REPORT_WEBHOOK_URL cfg)) as [Hno|(url & Hurl & Ht)];
  [ rewrite (notifyUnwrapReport_unconfigured env cfg ax report id Hno)
  | destruct (notifyUnwrapReport_run env cfg ax report id url Hurl Ht)
      as (params & Hp & ->);
    rewrite sendReport_run ].

Ltac run_error env cfg ax ctx error :=
  let Hno := fresh "Hno" in
  let url := fresh "url" in
  let Hurl := fresh "Hurl" in
  let Ht := fresh "Ht" in
  destruct (truthy_url_cases (DISCORD_ALERT_WEBHOOK_URL cfg)) as [Hno|(url & Hurl & Ht)];
  [ rewrite (notifyError_unconfigured env cfg ax ctx error Hno)
  | rewrite (notifyError_run env cfg ax ctx error url Hurl Ht);
    destruct (errorContent env ctx error) as [text|failure] eqn:Htext ].

(** X8. Exactly when a post is made.  A harvest report is posted if and only
    if the report webhook is set (and not the empty string) and the report
    is eventful or [DISCORD_NOTIFY_UNEVENTFUL_HARVEST] is on; an unwrap
    report likewise; an error alert if and only if the alert webhook is set
    and the message text could be built ([String(error)] and
    [JSON.stringify(ctx.data, null, 2)] returned).  The transport's answer
    plays no part. *)
Theorem dispatch_decision {Any : Type} (env : Collaborators Any) (cfg : Config)
    (axios_post : string -> Form -> Completion unit) :
  (forall report id,
     dispatched (notifyHarvestReport env cfg axios_post report id)
     = truthy_url (DISCORD_REPORT_WEBHOOK_URL cfg)
       && (negb (harvestUneventful (HarvestReport.summary report))
           || DISCORD_NOTIFY_UNEVENTFUL_HARVEST cfg))
  /\ (forall report id,
       dispatched (notifyUnwrapReport env cfg axios_post report id)
       = truthy_url (DISCORD_REPORT_WEBHOOK_URL cfg)
         && (negb (unwrapUneventful (UnwrapReport.summary report))
             || DISCORD_NOTIFY_UNEVENTFUL_HARVEST cfg))
  /\ (forall ctx error,
       dispatched (notifyError env cfg axios_post ctx error)
       = truthy_url (DISCORD_ALERT_WEBHOOK_URL cfg)
         && is_normal (errorContent env ctx error)).
Proof.
  split; [|split].
  - intros report id. run_harvest env cfg axios_post report id.
    + rewrite Hno. reflexivity.
    + rewrite Hurl, (truthy_url_some _ Ht).
      destruct (harvestUneventful (HarvestReport.summary report));
        destruct (DISCORD_NOTIFY_UNEVENTFUL_HARVEST cfg); reflexivity.
  - intros report id. run_unwrap env cfg axios_post report id.
    + rewrite Hno. reflexivity.
    + rewrite Hurl, (truthy_url_some _ Ht).
      destruct (unwrapUneventful (UnwrapReport.summary report));
        destruct (DISCORD_NOTIFY_UNEVENTFUL_HARVEST cfg); reflexivity.
  - intros ctx error. run_error env cfg axios_post ctx error.
    + rewrite Hno. reflexivity.
    + rewrite Hurl, (truthy_url_some _ Ht). reflexivity.
    + rewrite Hurl, (truthy_url_some _ Ht). reflexivity.
Qed.

Ltac split_cases :=
  repeat match goal with
  | |- context [if ?b then _ else _] => destruct b
  | |- context [match ?c with Normal _ => _ | Throw _ => _ end] => destruct c
  end.

Ltac in_trace H :=
  cbn [trace snd app andb negb orb In] in H;
  repeat match type of H with
  | _ \/ _ => destruct H as [H|H]
  | False => contradiction
  | _ = _ => discriminate H
  end.

(** X9. One attempt, one destination.  A report notification makes at most
    one post; a post it makes goes to [DISCORD_REPORT_WEBHOOK_URL] and
    carries the serialized report as a file named [report_<chain>.json]. *)
Theorem report_posts {Any : Type} (env : Collaborators Any) (cfg : Config)
    (axios_post : string -> Form -> Completion unit) :
  (forall report id,
     (List.length (posts (trace (notifyHarvestReport env cfg axios_post report id))) <= 1)%nat
     /\ forall url form,
          In (Post url form) (trace (notifyHarvestReport env cfg axios_post report id)) ->
          DISCORD_REPORT_WEBHOOK_URL cfg = Some url
          /\ file1 form =
             Some {| file_name := "report_" ++ HarvestReport.chain report ++ ".json";
                     file_body := serializeReport env (OfHarvest report) true |})
  /\ (forall report id,
       (List.length (posts (trace (notifyUnwrapReport env cfg axios_post report id))) <= 1)%nat
       /\ forall url form,
            In (Post url form) (trace (notifyUnwrapReport env cfg axios_post report id)) ->
            DISCORD_REPORT_WEBHOOK_URL cfg = Some url
            /\ file1 form =
               Some {| file_name := "report_" ++ UnwrapReport.chain report ++ ".json";
                       file_body := serializeReport env (OfUnwrap report) true |}).
Proof.
  split.
  - intros report id. run_harvest env cfg axios_post report id.
    + split; [cbn; lia|]. intros u f H. in_trace H.
    + split.
      * split_cases; cbn; lia.
      * intros u f H. revert H. split_cases; intros H; in_trace H;
          injection H as <- <-; (split; [exact Hurl | reflexivity]).
  - intros report id. run_unwrap env cfg axios_post report id.
    + split; [cbn; lia|]. intros u f H. in_trace H.
    + split.
      * split_cases; cbn; lia.
      * intros u f H. revert H. split_cases; intros H; in_trace H;
          injection H as <- <-; (split; [exact Hurl | reflexivity]).
Qed.

(** X10. An error alert makes at most one post; it goes to
    [DISCORD_ALERT_WEBHOOK_URL], never to the report webhook's form, and
    carries no file. *)
Theorem alert_posts {Any : Type} (env : Collaborators Any) (cfg : Config)
    (axios_post : string -> Form -> Completion unit)
    (ctx : ErrorContext) (error : Any) :
  (List.length (posts (trace (notifyError env cfg axios_post ctx error))) <= 1)%nat
  /\ forall url form,
       In (Post url form) (trace (notifyError env cfg axios_post ctx error)) ->
       DISCORD_ALERT_WEBHOOK_URL cfg = Some url /\ file1 form = None.
Proof.
  run_error env cfg axios_post ctx error.
  - split; [cbn; lia|]. intros u f H. in_trace H.
  - split.
    + split_cases; cbn; lia.
    + intros u f H. revert H. split_cases; intros H; in_trace H;
        injection H as <- <-; (split; [exact Hurl | reflexivity]).
  - split; [cbn; lia|]. intros u f H. in_trace H.
Qed.

(** X11. The message text of every post is redacted: the [payload_json] of
    every post made by the three notifications is the JSON of a content that
    came out of [removeSecretsFromString].  The file attached to a report
    post is not: its body is [serializeReport(report, true)] as returned,
    which is not passed through [removeSecretsFromString]. *)
Theorem message_content_is_redacted {Any : Type} (env : Collaborators Any) (cfg : Config)
    (axios_post : string -> Form -> Completion unit) :
  let redacted (form : Form) :=
    exists text,
      payload_json form
      = JSON_stringify_params env {| content := removeSecretsFromString env text |} in
  (forall report id url form,
     In (Post url form) (trace (notifyHarvestReport env cfg axios_post report id)) ->
     redacted form
     /\ exists name,
          file1 form =
          Some {| file_name := name;
                  file_body := serializeReport env (OfHarvest report) true |})
  /\ (forall report id url form,
       In (Post url form) (trace (notifyUnwrapReport env cfg axios_post report id)) ->
       redacted form
       /\ exists name,
            file1 form =
            Some {| file_name := name;
                    file_body := serializeReport env (OfUnwrap report) true |})
  /\ (forall ctx error url form,
       In (Post url form) (trace (notifyError env cfg axios_post ctx error)) ->
       redacted form /\ file1 form = None).
Proof.
  cbv zeta. split; [|split].
  - intros report id u f. run_harvest env cfg axios_post report id.
    + intros H. in_trace H.
    + unfold harvestParams in Hp.
      destruct (getBalanceReportTable env (OfHarvest report)) as [bt|]; [|discriminate].
      injection Hp as <-.
      split_cases; intros H; in_trace H; injection H as <- <-;
        (split; eexists; reflexivity).
  - intros report id u f. run_unwrap env cfg axios_post report id.
    + intros H. in_trace H.
    + assert (Hred : exists text,
                content params = removeSecretsFromString env text).
      { unfold unwrapParams in Hp.
        destruct (UnwrapReport.unwrapped (UnwrapReport.summary report)).
        - destruct (getBalanceReportTable env (OfUnwrap report)) as [bt|];
            [|discriminate].
          injection Hp as <-. eexists. reflexivity.
        - injection Hp as <-. eexists. reflexivity. }
      destruct Hred as [text Htext]. destruct params as [c]. cbn in Htext. subst c.
      split_cases; intros H; in_trace H; injection H as <- <-;
        (split; eexists; reflexivity).
  - intros ctx error u f. run_error env cfg axios_post ctx error.
    + intros H. in_trace H.
    + split_cases; intros H; in_trace H; injection H as <- <-;
        (split; [eexists|]; reflexivity).
    + intros H. in_trace H.
Qed.

(** X12. What is posted does not depend on how the transport answers: for
    any two transports the three notifications make the same posts (same
    endpoint, same form).  A failed post is not retried or resent in another
    form. *)
Theorem posts_ignore_transport {Any : Type} (env : Collaborators Any) (cfg : Config)
    (transport1 transport2 : string -> Form -> Completion unit) :
  (forall report id,
     posts (trace (notifyHarvestReport env cfg transport1 report id))
     = posts (trace (notifyHarvestReport env cfg transport2 report id)))
  /\ (forall report id,
       posts (trace (notifyUnwrapReport env cfg transport1 report id))
       = posts (trace (notifyUnwrapReport env cfg transport2 report id)))
  /\ (forall ctx error,
       posts (trace (notifyError env cfg transport1 ctx error))
       = posts (trace (notifyError env cfg transport2 ctx error))).
Proof.
  split; [|split].
  - intros report id.
    destruct (truthy_url_cases (DISCORD_REPORT_WEBHOOK_URL cfg)) as [Hno|(url & Hurl & Ht)].
    + now rewrite !(notifyHarvestReport_unconfigured env cfg _ report id Hno).
    + destruct (notifyHarvestReport_run env cfg transport1 report id url Hurl Ht)
        as (params1 & Hp1 & ->).
      destruct (notifyHarvestReport_run env cfg transport2 report id url Hurl Ht)
        as (params2 & Hp2 & ->).
      rewrite Hp1 in Hp2. injection Hp2 as <-.
      rewrite !sendReport_run. split_cases; reflexivity.
  - intros report id.
    destruct (truthy_url_cases (DISCORD_REPORT_WEBHOOK_URL cfg)) as [Hno|(url & Hurl & Ht)].
    + now rewrite !(notifyUnwrapReport_unconfigured env cfg _ report id Hno).
    + destruct (notifyUnwrapReport_run env cfg transport1 report id url Hurl Ht)
        as (params1 & Hp1 & ->).
      destruct (notifyUnwrapReport_run env cfg transport2 report id url Hurl Ht)
        as (params2 & Hp2 & ->).
      rewrite Hp1 in Hp2. injection Hp2 as <-.
      rewrite !sendReport_run. split_cases; reflexivity.
  - intros ctx error.
    destruct (truthy_url_cases (DISCORD_ALERT_WEBHOOK_URL cfg)) as [Hno|(url & Hurl & Ht)].
    + now rewrite !(notifyError_unconfigured env cfg _ ctx error Hno).
    + rewrite !(notifyError_run env cfg _ ctx error url Hurl Ht).
      split_cases; reflexivity.
Qed.

(** X13. The error log is kept for transport failures: an error-level line
    appears in the trace of a notification only after a post that the
    transport rejected, and it carries the error of that rejection.  A run
    whose post succeeded, or that posted nothing, logs no error. *)
Theorem error_log_means_failed_post {Any : Type} (env : Collaborators Any) (cfg : Config)
    (axios_post : string -> Form -> Completion unit) :
  let only_failures (run : Eff unit) :=
    forall msg e,
      In (Log LError msg e) (trace run) ->
      exists url form err,
        In (Post url form) (trace run)
        /\ axios_post url form = Throw err
        /\ e = Some err /\ msg = sendFailed in
  (forall report id, only_failures (notifyHarvestReport env cfg axios_post report id))
  /\ (forall report id, only_failures (notifyUnwrapReport env cfg axios_post report id))
  /\ (forall ctx error, only_failures (notifyError env cfg axios_post ctx error)).
Proof.
  cbv zeta. split; [|split].
  - intros report id msg e. run_harvest env cfg axios_post report id.
    + intros H. cbn [trace snd In] in H. destruct H as [H|[]]. discriminate.
    + destruct (axios_post url (reportForm env params (OfHarvest report))) as [[]|err] eqn:E;
        split_cases; intros H; in_trace H;
        injection H as <- <-;
        exists url, (reportForm env params (OfHarvest report)), err;
        (split; [cbn [trace snd app In]; tauto | auto]).
  - intros report id msg e. run_unwrap env cfg axios_post report id.
    + intros H. cbn [trace snd In] in H. destruct H as [H|[]]. discriminate.
    + destruct (axios_post url (reportForm env params (OfUnwrap report))) as [[]|err] eqn:E;
        split_cases; intros H; in_trace H;
        injection H as <- <-;
        exists url, (reportForm env params (OfUnwrap report)), err;
        (split; [cbn [trace snd app In]; tauto | auto]).
  - intros ctx error msg e. run_error env cfg axios_post ctx error.
    + intros H. cbn [trace snd In] in H. destruct H as [H|[]]. discriminate.
    + match goal with |- context [axios_post url ?f] =>
        set (form := f); destruct (axios_post url form) as [[]|err] eqn:E end;
        intros H; in_trace H;
        injection H as <- <-;
        exists url, form, err; (split; [cbn [trace snd app In]; tauto | auto]).
    + intros H. in_trace H.
Qed.

(** ** notify.ts: the parts of the message *)

Lemma harvestErrorDetails_cons_skip stratReport rest :
  hasMessage stratReport = false ->
  harvestErrorDetails (stratReport :: rest) = harvestErrorDetails rest.
Proof.
  unfold hasMessage. cbn [harvestErrorDetails].
  destruct (HarvestReport.discordMessage _) as [m|]; [|reflexivity].
  now intros ->.
Qed.

(** X14. The error details of a harvest message are built strategy by
    strategy: the details of two lists laid end to end are the two texts
    laid end to end; strategy reports without a message (or with an empty
    one) contribute nothing; and the text is empty exactly when no strategy
    report has a message. *)
Theorem harvestErrorDetails_composes (a b : list HarvestReport.StratReport) :
  harvestErrorDetails (a ++ b)%list = harvestErrorDetails a ++ harvestErrorDetails b
  /\ harvestErrorDetails a = harvestErrorDetails (filter hasMessage a)
  /\ (harvestErrorDetails a = EmptyString <-> filter hasMessage a = []).
Proof.
  split; [|split].
  - induction a as [|sr a IH]; [reflexivity|].
    cbn [app harvestErrorDetails].
    destruct (HarvestReport.discordMessage _) as [m|]; [|exact IH].
    destruct (truthy_string m); [|exact IH].
    rewrite IH. rewrite !string_app_assoc. reflexivity.
  - induction a as [|sr a IH]; [reflexivity|].
    cbn [filter]. destruct (hasMessage sr) eqn:E.
    + unfold hasMessage in E. cbn [harvestErrorDetails].
      destruct (HarvestReport.discordMessage _) as [m|]; [|discriminate].
      rewrite E, IH. reflexivity.
    + rewrite harvestErrorDetails_cons_skip by exact E. exact IH.
  - induction a as [|sr a IH]; [split; reflexivity|].
    cbn [filter]. destruct (hasMessage sr) eqn:E.
    + unfold hasMessage in E. cbn [harvestErrorDetails].
      destruct (HarvestReport.discordMessage _) as [m|]; [|discriminate].
      rewrite E. destruct m; [discriminate|].
      split; discriminate.
    + rewrite harvestErrorDetails_cons_skip by exact E. exact IH.
Qed.

Lemma substring_from_0 (s : string) (m : nat) :
  (String.length s <= m)%nat -> String.substring 0 m s = s.
Proof.
  revert m. induction s as [|c s IH]; intros m Hm.
  - destruct m; reflexivity.
  - destruct m as [|m]; [cbn in Hm; lia|].
    cbn. rewrite IH; [reflexivity | cbn in Hm; lia].
Qed.

Lemma substring_skip (a b : string) (m : nat) :
  String.substring (String.length a) m (a ++ b) = String.substring 0 m b.
Proof. induction a as [|c a IH]; [reflexivity | exact IH]. Qed.

Lemma prefix_app (a b : string) : String.prefix a (a ++ b) = true.
Proof.
  induction a as [|c a IH]; [now destruct b|].
  cbn. destruct (ascii_dec c c); [exact IH | congruence].
Qed.

(** A replacement text without [$] is inserted as it is. *)
Lemma expand_replacement_plain (matched before after by_ : string) :
  lacks "$" by_ = true -> expand_replacement matched before after by_ = by_.
Proof.
  induction by_ as [|c rest IH]; [reflexivity|].
  cbn [lacks]. intros H. apply andb_prop in H. destruct H as [Hc Hrest].
  apply negb_true_iff in Hc. cbn [expand_replacement]. rewrite Hc.
  now rewrite IH.
Qed.

Lemma replace_from_absent (s pat by_ : string) :
  occurs_nowhere pat s = true ->
  forall before, replace_from before s pat by_ = s.
Proof.
  induction s as [|c s IH]; cbn [occurs_nowhere replace_from]; intros H before;
    apply andb_prop in H; destruct H as [Hp Hrest];
    apply negb_true_iff in Hp; rewrite Hp; [reflexivity|].
  now rewrite IH.
Qed.

Lemma String_replace_absent (s pat by_ : string) :
  occurs_nowhere pat s = true -> String_replace s pat by_ = s.
Proof. intros H. apply replace_from_absent. exact H. Qed.

Lemma replace_from_first (pre pat post by_ : string) c pat' :
  pat = String c pat' -> lacks "$" by_ = true -> lacks c pre = true ->
  forall before, replace_from before (pre ++ pat ++ post) pat by_ = pre ++ by_ ++ post.
Proof.
  intros Hpat Hby. induction pre as [|a pre IH]; intros Hpre before.
  - cbn [append]. destruct (pat ++ post) as [|x rest] eqn:E.
    { rewrite Hpat in E. discriminate. }
    cbn [replace_from]. rewrite <- E, prefix_app.
    rewrite substring_skip, substring_from_0 by (rewrite string_length_app; lia).
    now rewrite expand_replacement_plain.
  - cbn [lacks] in Hpre. apply andb_prop in Hpre. destruct Hpre as [Ha Hpre].
    apply negb_true_iff in Ha. apply Ascii.eqb_neq in Ha.
    cbn [append replace_from].
    rewrite Hpat at 1. cbn [String.prefix].
    destruct (ascii_dec c a) as [->|_]; [congruence|].
    now rewrite IH.
Qed.

Lemma String_replace_first (pre pat post by_ : string) c pat' :
  pat = String c pat' -> lacks "$" by_ = true -> lacks c pre = true ->
  String_replace (pre ++ pat ++ post) pat by_ = pre ++ by_ ++ post.
Proof. intros Hpat Hby Hpre. now apply (replace_from_first pre pat post by_ c pat'). Qed.

Lemma is_digits_lacks_dollar (s : string) :
  is_digits s = true -> lacks "$" s = true.
Proof.
  induction s as [|c s IH]; [reflexivity|]. cbn [is_digits lacks].
  destruct (digit_value c) as [d|] eqn:E; [|discriminate].
  intros H. rewrite (IH H), andb_true_r.
  destruct (Ascii.eqb_spec c "$") as [->|_]; [discriminate E | reflexivity].
Qed.

Lemma BigInt_toString_lacks_dollar (z : Z) : lacks "$" (BigInt_toString z) = true.
Proof.
  destruct z as [|p|p]; [reflexivity| |]; cbn [BigInt_toString].
  - destruct (N_toString_spec (Npos p)) as (ds & -> & Hdig & _).
    now apply is_digits_lacks_dollar.
  - destruct (N_toString_spec (Npos p)) as (ds & -> & Hdig & _).
    cbn [append lacks]. now rewrite is_digits_lacks_dollar.
Qed.

(** Below [2 ^ 53] every integer is a number, written with all its digits. *)
Lemma Number_toString_safe (z : Z) :
  Z.abs z < 2 ^ 53 -> Number_toString z = BigInt_toString z.
Proof.
  intros H. unfold Number_toString.
  destruct (Z.ltb_spec (Z.abs z) (2 ^ 53)) as [_|H']; [reflexivity | lia].
Qed.

(** X15. The "full report" link.  Without a report id, and also for the id
    0, the link target is empty.  For any other integer id below [2 ^ 53] in
    absolute value (a safe integer, which [toString] writes with all its
    digits) the first [{{reportId}}] of the template is replaced by the id in
    decimal and a later one is left as it is; a template without the
    placeholder is used unchanged, whatever the id.  From [1e21] on
    [toString] gives exponent notation, and that is what the link shows. *)
Theorem reportUrlMarkdown_cases (cfg : Config) :
  reportUrlMarkdown cfg None = "[full report]()"
  /\ reportUrlMarkdown cfg (Some 0) = "[full report]()"
  /\ (forall id pre post,
        id <> 0 ->
        Z.abs id < 2 ^ 53 ->
        REPORT_URL_TEMPLATE cfg = pre ++ "{{reportId}}" ++ post ->
        lacks "{" pre = true ->
        reportUrlMarkdown cfg (Some id)
        = "[full report](" ++ pre ++ BigInt_toString id ++ post ++ ")")
  /\ (forall id,
        occurs_nowhere "{{reportId}}" (REPORT_URL_TEMPLATE cfg) = true ->
        id <> 0 ->
        reportUrlMarkdown cfg (Some id)
        = "[full report](" ++ REPORT_URL_TEMPLATE cfg ++ ")")
  /\ reportUrlMarkdown (config true) (Some (10 ^ 21))
     = "[full report](https://reports.example/1e+21)".
Proof.
  split; [reflexivity|]. split; [reflexivity|]. split; [|split].
  - intros id pre post Hid Hsafe Htpl Hpre. unfold reportUrlMarkdown, truthy_id.
    destruct (Z.eqb_spec id 0) as [E|_]; [contradiction|]. cbn [negb].
    rewrite Htpl, (Number_toString_safe id Hsafe).
    rewrite (String_replace_first pre "{{reportId}}" post _ "{" "{reportId}}" eq_refl
               (BigInt_toString_lacks_dollar id) Hpre).
    rewrite !string_app_assoc. reflexivity.
  - intros id Habs Hid. unfold reportUrlMarkdown, truthy_id.
    destruct (Z.eqb_spec id 0) as [E|_]; [contradiction|]. cbn [negb].
    now rewrite String_replace_absent.
  - vm_compute. reflexivity.
Qed.

Lemma reportUrlMarkdown_cases_witness :
  42 <> 0
  /\ reportUrlMarkdown (config true) (Some 42)
     = "[full report](https://reports.example/42)".
Proof.
  split; [discriminate|].
  apply (proj1 (proj2 (proj2 (reportUrlMarkdown_cases (config true))))
           42 "https://reports.example/" EmptyString);
    [discriminate | reflexivity | reflexivity | reflexivity].
Defined.

(** X16. The error details of an unwrap message: empty exactly when neither
    the unwrap decision nor the unwrap transaction was rejected; a fulfilled
    or absent outcome adds nothing; a rejected outcome adds one line with
    the error message of that outcome; and when both are rejected the
    decision's line comes first, the transaction's second. *)
Theorem unwrapErrorDetails_cases {Any : Type} (env : Collaborators Any)
    (report : UnwrapReport.t) :
  (unwrapErrorDetails env report = EmptyString
   <-> isRejected (UnwrapReport.unwrapDecision report) = false
       /\ isRejected (UnwrapReport.unwrapTransaction report) = false)
  /\ (forall r1 r2,
        UnwrapReport.unwrapDecision report = Some (Rejected r1) ->
        UnwrapReport.unwrapTransaction report = Some (Rejected r2) ->
        unwrapErrorDetails env report
        = "- 🔥 Unwrap decision failed: " ++ extractErrorMessage env (Rejected r1)
          ++ String "010"
               ("- 🔥 Unwrap transaction failed: " ++ extractErrorMessage env (Rejected r2)
                ++ String "010" EmptyString))
  /\ (forall r1,
        UnwrapReport.unwrapDecision report = Some (Rejected r1) ->
        isRejected (UnwrapReport.unwrapTransaction report) = false ->
        unwrapErrorDetails env report
        = "- 🔥 Unwrap decision failed: " ++ extractErrorMessage env (Rejected r1)
          ++ String "010" EmptyString)
  /\ (forall r2,
        isRejected (UnwrapReport.unwrapDecision report) = false ->
        UnwrapReport.unwrapTransaction report = Some (Rejected r2) ->
        unwrapErrorDetails env report
        = "- 🔥 Unwrap transaction failed: " ++ extractErrorMessage env (Rejected r2)
          ++ String "010" EmptyString).
Proof.
  unfold unwrapErrorDetails.
  destruct (UnwrapReport.unwrapDecision report) as [[v1|r1]|];
    destruct (UnwrapReport.unwrapTransaction report) as [[v2|r2]|];
    cbn [rejectedDetail isRejected];
    repeat split; intros;
    repeat match goal with
           | H : _ /\ _ |- _ => destruct H
           | H : Some _ = Some _ |- _ => injection H as ->
           end;
    try discriminate; try reflexivity;
    rewrite ?string_app_empty_r, ?string_app_assoc; try reflexivity.
Qed.

(** ** notify.ts: the balance table *)

Lemma padStart_length (s : string) (targetLength : Z) (c : ascii) :
  String.length (padStart s targetLength c)
  = Nat.max (String.length s) (Z.to_nat targetLength).
Proof.
  unfold padStart. rewrite string_length_app, length_repeat_char. lia.
Qed.

(** A formatted amount is never shorter than its scale plus two. *)
Lemma bigintFormat_length (n decimal : Z) (s : string) :
  bigintFormat n decimal = Normal s ->
  (Z.to_nat decimal + 2 <= String.length s)%nat.
Proof.
  unfold bigintFormat.
  destruct (BigInt (Number_pow10 decimal)) as [d|]; cbn [bindC]; [|discriminate].
  destruct (BigInt_rem _ d) as [r|]; cbn [bindC]; [|discriminate].
  destruct (BigInt_div _ d) as [q|] eqn:E; cbn [bindC]; [|discriminate].
  intros [= <-].
  rewrite !string_length_app. cbn [String.length]. rewrite padStart_length.
  assert (Hq : (1 <= String.length (BigInt_toString q))%nat).
  { destruct q as [|p|p]; cbn [BigInt_toString].
    - cbn. lia.
    - destruct (N_toString_spec (N.pos p)) as (ds & -> & _ & _ & Hne & _).
      destruct ds; [congruence | cbn; lia].
    - cbn. lia. }
  lia.
Qed.

(** X17. The cells of the balance table.  A profit cell is always the
    formatted amount: the [|| '??'] after it never takes effect.  A balance
    cell is the formatted balance when the balance read was fulfilled, also
    for a zero balance, and ["??"] when it was rejected or is absent.  A
    formatted cell has at least 20 characters, so it is never ["??"]. *)
Theorem balance_cells :
  (forall wei, exists s, bigintFormat wei 18 = Normal s /\ amountOf wei = Normal s)
  /\ (forall (b : Balances) field,
        exists s, bigintFormat (field b) 18 = Normal s
                  /\ balanceOf (Some (Fulfilled b)) field = Normal s)
  /\ (forall reason field, balanceOf (Some (Rejected reason)) field = Normal "??")
  /\ (forall field, balanceOf None field = Normal "??")
  /\ (forall wei s, bigintFormat wei 18 = Normal s ->
                    (20 <= String.length s)%nat /\ s <> "??").
Proof.
  assert (Hlen : forall wei s, bigintFormat wei 18 = Normal s ->
                               (20 <= String.length s)%nat /\ s <> "??").
  { intros wei s Hs. apply bigintFormat_length in Hs.
    change (Z.to_nat 18) with 18%nat in Hs.
    split; [lia|]. intros ->. cbn in Hs. lia. }
  assert (Hcell : forall wei, exists s,
             bigintFormat wei 18 = Normal s
             /\ bindC (bigintFormat3 wei 18 6) (fun s => Normal (or_else s "??")) = Normal s).
  { intros wei. destruct (bigintFormat_returns wei 18) as [s Hs]; [lia|].
    exists s. split; [exact Hs|].
    unfold bigintFormat3. rewrite Hs. cbn [bindC]. f_equal.
    unfold or_else. destruct s; [|reflexivity].
    apply Hlen in Hs. cbn in Hs. lia. }
  split; [exact Hcell|]. split.
  { intros b field. destruct (Hcell (field b)) as (s & Hs & Hc).
    exists s. split; [exact Hs|].
    unfold balanceOf, projectOrUnavailable, asyncResultGet, orUnavailable.
    unfold bigintFormat3 in *. rewrite Hs in *. cbn [bindC] in *. exact Hc. }
  split; [reflexivity|]. split; [reflexivity | exact Hlen].
Qed.

(** ** The earlier revision *)

Lemma earlier_getBalanceReportTable_returns (env : NotifyEarlier.Collaborators) report :
  returns (NotifyEarlier.getBalanceReportTable env report).
Proof.
  unfold NotifyEarlier.getBalanceReportTable.
  repeat match goal with
  | |- context [balanceOf ?o ?f] =>
      let s := fresh "s" in destruct (balanceOf_returns o f) as [s ->]; cbn [bindC]
  | |- context [amountOf ?w] =>
      let s := fresh "s" in destruct (amountOf_returns w) as [s ->]; cbn [bindC]
  end.
  eexists. reflexivity.
Qed.

Lemma earlier_unwrapParams_returns (env : NotifyEarlier.Collaborators) cfg report :
  returns (NotifyEarlier.unwrapParams env cfg report).
Proof.
  unfold NotifyEarlier.unwrapParams.
  destruct (UnwrapReport.unwrapped (UnwrapReport.summary report)).
  - destruct (earlier_getBalanceReportTable_returns env (NotifyEarlier.OfUnwrap report))
      as [bt ->].
    eexists. reflexivity.
  - eexists. reflexivity.
Qed.

Lemma earlier_sendReport_run (env : NotifyEarlier.Collaborators) axios_post url params report :
  NotifyEarlier.sendReport env axios_post url params report =
  (Normal tt,
   Post url (NotifyEarlier.reportForm env params report)
   :: match axios_post url (NotifyEarlier.reportForm env params report) with
      | Normal _ => []
      | Throw e => [Log LError sendFailed (Some e); Log LTrace EmptyString (Some e)]
      end).
Proof.
  unfold NotifyEarlier.sendReport, try_catch, post.
  destruct (axios_post url (NotifyEarlier.reportForm env params report)) as [[]|e];
    reflexivity.
Qed.

Lemma earlier_notifyUnwrapReport_run (env : NotifyEarlier.Collaborators) cfg axios_post
    report url :
  NotifyEarlier.DISCORD_WEBHOOK_URL cfg = Some url -> truthy_string url = true ->
  exists params,
    NotifyEarlier.unwrapParams env cfg report = Normal params
    /\ NotifyEarlier.notifyUnwrapReport env cfg axios_post report =
       (Normal tt,
        (if unwrapUneventful (UnwrapReport.summary report)
         then [Log LInfo "Did not unwrap anything, not reporting" None] else [])
        ++ (if unwrapUneventful (UnwrapReport.summary report)
               && negb (NotifyEarlier.DISCORD_NOTIFY_UNEVENTFUL_HARVEST cfg)
            then []
            else Log LInfo "notifying unwrap report" None
                 :: trace (NotifyEarlier.sendReport env axios_post url params
                             (NotifyEarlier.OfUnwrap report))))%list.
Proof.
  intros Hurl Htruthy.
  destruct (earlier_unwrapParams_returns env cfg report) as [params Hp].
  exists params. split; [exact Hp|].
  unfold NotifyEarlier.notifyUnwrapReport. rewrite Hurl, Htruthy, Hp.
  destruct (unwrapUneventful (UnwrapReport.summary report));
    destruct (NotifyEarlier.DISCORD_NOTIFY_UNEVENTFUL_HARVEST cfg);
    cbv [bind lift logger_info emit ret negb andb];
    rewrite ?earlier_sendReport_run; reflexivity.
Qed.

Lemma earlier_notifyUnwrapReport_unconfigured (env : NotifyEarlier.Collaborators) cfg
    axios_post report :
  truthy_url (NotifyEarlier.DISCORD_WEBHOOK_URL cfg) = false ->
  NotifyEarlier.notifyUnwrapReport env cfg axios_post report =
  (Normal tt,
   [Log LWarn "DISCORD_WEBHOOK_URL not set, not sending any discord message" None]).
Proof.
  unfold NotifyEarlier.notifyUnwrapReport, truthy_url.
  destruct (NotifyEarlier.DISCORD_WEBHOOK_URL cfg) as [url|]; [|reflexivity].
  intros ->. reflexivity.
Qed.

Lemma earlier_notifyHarvestReport_unconfigured (env : NotifyEarlier.Collaborators) cfg
    axios_post report :
  truthy_url (NotifyEarlier.DISCORD_WEBHOOK_URL cfg) = false ->
  NotifyEarlier.notifyHarvestReport env cfg axios_post report =
  (Normal tt,
   [Log LWarn "DISCORD_WEBHOOK_URL not set, not sending any discord message" None]).
Proof.
  unfold NotifyEarlier.notifyHarvestReport, truthy_url.
  destruct (NotifyEarlier.DISCORD_WEBHOOK_URL cfg) as [url|]; [|reflexivity].
  intros ->. reflexivity.
Qed.

(** The run of the earlier harvest notification, by the outcome of building
    the message. *)
Lemma earlier_notifyHarvestReport_run (env : NotifyEarlier.Collaborators) cfg axios_post
    report url :
  NotifyEarlier.DISCORD_WEBHOOK_URL cfg = Some url -> truthy_string url = true ->
  NotifyEarlier.notifyHarvestReport env cfg axios_post report =
  let quiet := NotifyEarlier.harvestUneventful (NotifyEarlier.Harvest.summary report) in
  let before :=
    ((if quiet then [Log LInfo "All strats were skipped, not reporting" None] else [])
     ++ (if quiet && negb (NotifyEarlier.DISCORD_NOTIFY_UNEVENTFUL_HARVEST cfg)
         then [] else [Log LInfo "notifying harvest for report" None]))%list in
  if quiet && negb (NotifyEarlier.DISCORD_NOTIFY_UNEVENTFUL_HARVEST cfg)
  then (Normal tt, before)
  else match NotifyEarlier.harvestParams env cfg report with
       | Normal params =>
           (Normal tt,
            (before ++ trace (NotifyEarlier.sendReport env axios_post url params
                                (NotifyEarlier.OfHarvest report)))%list)
       | Throw e => (Throw e, before)
       end.
Proof.
  intros Hurl Htruthy. cbv zeta.
  unfold NotifyEarlier.notifyHarvestReport. rewrite Hurl, Htruthy.
  destruct (NotifyEarlier.harvestUneventful (NotifyEarlier.Harvest.summary report));
    destruct (NotifyEarlier.DISCORD_NOTIFY_UNEVENTFUL_HARVEST cfg);
    destruct (NotifyEarlier.harvestParams env cfg report) as [params|e];
    cbv [bind lift logger_info emit ret negb andb];
    rewrite ?earlier_sendReport_run; reflexivity.
Qed.

Lemma warningLine_returns explorer d :
  returns (NotifyEarlier.warningLine (Some explorer) d).
Proof.
  unfold NotifyEarlier.warningLine.
  destruct (NotifyEarlier.Harvest.decision d) as [dec|]; [|eexists; reflexivity].
  destruct (NotifyEarlier.Harvest.decision_warning dec); eexists; reflexivity.
Qed.

Lemma warningLines_returns explorer details :
  returns (NotifyEarlier.warningLines (Some explorer) details).
Proof.
  induction details as [|d details [more IH]]; [eexists; reflexivity|].
  cbn [NotifyEarlier.warningLines].
  destruct (warningLine_returns explorer d) as [line ->]. rewrite IH.
  eexists. reflexivity.
Qed.

(** Without a qualifying strategy report the loop never reads the explorer
    entry. *)
Lemma warningLines_unqualified explorerConfig details :
  existsb qualifies (filter NotifyEarlier.isWarning details) = false ->
  NotifyEarlier.warningLines explorerConfig (filter NotifyEarlier.isWarning details)
  = Normal EmptyString.
Proof.
  induction details as [|d details IH]; [reflexivity|].
  cbn [filter]. destruct (NotifyEarlier.isWarning d) eqn:Ew; [|exact IH].
  cbn [existsb]. intros H. apply orb_false_elim in H. destruct H as [Hq Hrest].
  cbn [NotifyEarlier.warningLines].
  unfold qualifies in Hq. rewrite Ew in Hq. cbn [andb] in Hq.
  unfold NotifyEarlier.warningLine.
  destruct (NotifyEarlier.Harvest.decision d) as [dec|]; [rewrite Hq|];
    cbn [bindC]; rewrite (IH Hrest); reflexivity.
Qed.

(** With a qualifying strategy report and no explorer entry the loop throws. *)
Lemma warningLines_missing_explorer details :
  existsb qualifies (filter NotifyEarlier.isWarning details) = true ->
  raises (NotifyEarlier.warningLines None (filter NotifyEarlier.isWarning details)).
Proof.
  induction details as [|d details IH]; [discriminate|].
  cbn [filter]. destruct (NotifyEarlier.isWarning d) eqn:Ew; [|exact IH].
  cbn [existsb NotifyEarlier.warningLines]. intros H.
  unfold qualifies in H. rewrite Ew in H. cbn [andb] in H.
  unfold NotifyEarlier.warningLine.
  destruct (NotifyEarlier.Harvest.decision d) as [dec|].
  - destruct (NotifyEarlier.Harvest.decision_warning dec).
    + cbn [bindC]. eexists. reflexivity.
    + cbn [orb bindC] in *. destruct (IH H) as [e ->]. eexists. reflexivity.
  - cbn [orb bindC] in *. destruct (IH H) as [e ->]. eexists. reflexivity.
Qed.

Lemma logs_are_not_posts (before : list Event) :
  forallb (fun ev => negb (is_post ev)) before = true ->
  forall ev, In ev before -> is_post ev = false.
Proof.
  intros H ev Hin. rewrite forallb_forall in H.
  apply H in Hin. now apply negb_true_iff in Hin.
Qed.

(** The earlier harvest message is a body, a line break, and the ping. *)
Lemma earlier_harvestContent_ends (reportLevel chainUpper countTable balanceTable
    warnings ping : string) :
  exists body,
    NotifyEarlier.harvestContent reportLevel chainUpper countTable balanceTable warnings ping
    = body ++ String "010" ping.
Proof.
  exists ("
### Harvest " ++ reportLevel ++ " for " ++ chainUpper ++ "
" ++ codeSep ++ "
" ++ countTable ++ "
" ++ balanceTable ++ "
" ++ codeSep ++ "
" ++ warnings).
  unfold NotifyEarlier.harvestContent.
  rewrite !string_app_assoc. cbn [append]. reflexivity.
Qed.

Lemma earlier_unwrapContent_ends (reportLevel chainUpper balanceBlock ping : string) :
  exists body,
    NotifyEarlier.unwrapContent reportLevel chainUpper balanceBlock ping
    = body ++ String "010" ping.
Proof.
  exists ("
### Wnative unwrap " ++ reportLevel ++ " for " ++ chainUpper ++ "
" ++ balanceBlock ++ "  ").
  unfold NotifyEarlier.unwrapContent.
  rewrite !string_app_assoc. cbn [append]. reflexivity.
Qed.

(** X18. In the earlier revision role pings are live: the message of every
    post ends with a line break followed by the ping.  With role ids
    configured the ping of a harvest message is one mention [<@&id>] per role
    id, joined by commas, whenever the report has an error or a warning or
    the uneventful flag is on, and the ping of an unwrap message whenever
    the unwrap failed or the flag is on; otherwise, and whenever no role ids
    are configured, the ping is empty. *)
Theorem earlier_rolePing_live (env : NotifyEarlier.Collaborators)
    (cfg : NotifyEarlier.Config) (axios_post : string -> Form -> Completion unit) :
  let ping (wanted : bool) : string :=
    match NotifyEarlier.DISCORD_PING_ROLE_IDS_ON_ERROR cfg with
    | Some ids => if wanted then Array_join (map mention ids) else EmptyString
    | None => EmptyString
    end in
  let ends_with (form : Form) (suffix : string) : Prop :=
    exists body,
      payload_json form
      = NotifyEarlier.JSON_stringify_params env
          {| content := body ++ String "010" suffix |} in
  (forall report url form,
     In (Post url form) (trace (NotifyEarlier.notifyHarvestReport env cfg axios_post report)) ->
     ends_with form
       (ping ((0 <? NotifyEarlier.Harvest.error
                      (NotifyEarlier.Harvest.statuses (NotifyEarlier.Harvest.summary report)))
              || (0 <? NotifyEarlier.Harvest.warning
                         (NotifyEarlier.Harvest.statuses (NotifyEarlier.Harvest.summary report)))
              || NotifyEarlier.DISCORD_NOTIFY_UNEVENTFUL_HARVEST cfg)))
  /\ (forall report url form,
       In (Post url form) (trace (NotifyEarlier.notifyUnwrapReport env cfg axios_post report)) ->
       ends_with form
         (ping (negb (UnwrapReport.success (UnwrapReport.summary report))
                || NotifyEarlier.DISCORD_NOTIFY_UNEVENTFUL_HARVEST cfg))).
Proof.
  cbv zeta.
  assert (Hping : forall wanted,
            NotifyEarlier.rolePing cfg wanted
            = match NotifyEarlier.DISCORD_PING_ROLE_IDS_ON_ERROR cfg with
              | Some ids => if wanted then Array_join (map mention ids) else EmptyString
              | None => EmptyString
              end).
  { intros wanted. unfold NotifyEarlier.rolePing.
    destruct (NotifyEarlier.DISCORD_PING_ROLE_IDS_ON_ERROR cfg) as [ids|];
      destruct wanted; reflexivity. }
  split.
  - intros report u f.
    destruct (truthy_url_cases (NotifyEarlier.DISCORD_WEBHOOK_URL cfg))
      as [Hno|(url & Hurl & Ht)].
    { rewrite (earlier_notifyHarvestReport_unconfigured env cfg axios_post report Hno).
      intros H. in_trace H. }
    rewrite (earlier_notifyHarvestReport_run env cfg axios_post report url Hurl Ht).
    cbv zeta.
    destruct (NotifyEarlier.harvestParams env cfg report) as [params|e] eqn:Hp.
    2:{ split_cases; intros H; in_trace H. }
    unfold NotifyEarlier.harvestParams in Hp.
    destruct (NotifyEarlier.warningDetails cfg report) as [warnings|]; [|discriminate].
    destruct (NotifyEarlier.getBalanceReportTable env (NotifyEarlier.OfHarvest report))
      as [bt|]; [|discriminate].
    injection Hp as <-.
    rewrite earlier_sendReport_run.
    match goal with
    | |- context [NotifyEarlier.harvestContent ?l ?c ?t ?b ?w ?p] =>
        destruct (earlier_harvestContent_ends l c t b w p) as [body ->]
    end.
    unfold NotifyEarlier.harvestRolePing. rewrite Hping.
    split_cases; intros H; in_trace H; injection H as <- <-;
      exists body; reflexivity.
  - intros report u f.
    destruct (truthy_url_cases (NotifyEarlier.DISCORD_WEBHOOK_URL cfg))
      as [Hno|(url & Hurl & Ht)].
    { rewrite (earlier_notifyUnwrapReport_unconfigured env cfg axios_post report Hno).
      intros H. in_trace H. }
    destruct (earlier_notifyUnwrapReport_run env cfg axios_post report url Hurl Ht)
      as (params & Hp & ->).
    assert (Hends : exists body,
              content params
              = body ++ String "010"
                  (NotifyEarlier.unwrapRolePing cfg (UnwrapReport.summary report))).
    { unfold NotifyEarlier.unwrapParams in Hp.
      destruct (UnwrapReport.unwrapped (UnwrapReport.summary report)).
      - destruct (NotifyEarlier.getBalanceReportTable env (NotifyEarlier.OfUnwrap report))
          as [bt|]; [|discriminate].
        injection Hp as <-. cbn [content]. apply earlier_unwrapContent_ends.
      - injection Hp as <-. cbn [content]. apply earlier_unwrapContent_ends. }
    destruct Hends as [body Hbody]. destruct params as [c]. cbn [content] in Hbody.
    subst c. unfold NotifyEarlier.unwrapRolePing. rewrite Hping.
    rewrite earlier_sendReport_run.
    split_cases; intros H; in_trace H; injection H as <- <-;
      exists body; reflexivity.
Qed.

Lemma earlier_rolePing_live_witness :
  exists url form body,
    In (Post url form)
       (trace (NotifyEarlier.notifyHarvestReport earlier_plain
                 (earlier_config false (Some ["11"; "22"])) post_ok
                 (earlier_report "bsc" (earlier_summary 8 0 1 0) [warned_strat])))
    /\ payload_json form = body ++ String "010" "<@&11>,<@&22>".
Proof.
  eexists. eexists.
  match goal with
  | |- exists body, In ?p ?t /\ _ => assert (Hin : In p t)
  end.
  { vm_compute. right. left. reflexivity. }
  destruct (proj1 (earlier_rolePing_live earlier_plain
                     (earlier_config false (Some ["11"; "22"])) post_ok)
              _ _ _ Hin) as [body Hbody].
  exists body. split; [exact Hin | exact Hbody].
Defined.

Lemma earlier_harvestParams_returns (env : NotifyEarlier.Collaborators) cfg report explorer :
  NotifyEarlier.EXPLORER_CONFIG cfg (NotifyEarlier.Harvest.chain report) = Some explorer ->
  returns (NotifyEarlier.harvestParams env cfg report).
Proof.
  intros He. unfold NotifyEarlier.harvestParams, NotifyEarlier.warningDetails.
  rewrite He.
  destruct (earlier_getBalanceReportTable_returns env (NotifyEarlier.OfHarvest report))
    as [bt Hbt].
  destruct (0 <? _).
  - destruct (warningLines_returns explorer
                (filter NotifyEarlier.isWarning (NotifyEarlier.Harvest.details report)))
      as [w ->].
    cbn [bindC]. rewrite Hbt. eexists. reflexivity.
  - cbn [bindC]. rewrite Hbt. eexists. reflexivity.
Qed.

(** The earlier harvest notification, whenever its message can be built. *)
Lemma earlier_harvest_run_ok (env : NotifyEarlier.Collaborators)
    (cfg : NotifyEarlier.Config) (axios_post : string -> Form -> Completion unit)
    (report : NotifyEarlier.Harvest.t) :
  returns (NotifyEarlier.harvestParams env cfg report) ->
  swallowed axios_post (NotifyEarlier.notifyHarvestReport env cfg axios_post report)
  /\ dispatched (NotifyEarlier.notifyHarvestReport env cfg axios_post report)
     = truthy_url (NotifyEarlier.DISCORD_WEBHOOK_URL cfg)
       && (negb (NotifyEarlier.harvestUneventful (NotifyEarlier.Harvest.summary report))
           || NotifyEarlier.DISCORD_NOTIFY_UNEVENTFUL_HARVEST cfg).
Proof.
  intros [params Hparams].
  destruct (truthy_url_cases (NotifyEarlier.DISCORD_WEBHOOK_URL cfg))
    as [Hno|(url & Hurl & Ht)].
  - rewrite (earlier_notifyHarvestReport_unconfigured env cfg axios_post report Hno), Hno.
    split; [|reflexivity]. split; [reflexivity|].
    intros u f e H. in_trace H.
  - rewrite (earlier_notifyHarvestReport_run env cfg axios_post report url Hurl Ht).
    cbv zeta. rewrite Hparams.
    rewrite earlier_sendReport_run, Hurl, (truthy_url_some _ Ht).
    destruct (NotifyEarlier.harvestUneventful (NotifyEarlier.Harvest.summary report));
      destruct (NotifyEarlier.DISCORD_NOTIFY_UNEVENTFUL_HARVEST cfg);
      cbn [andb negb orb app trace snd].
    all: split; [split; [reflexivity|] | reflexivity].
    all: try solve [intros u f e H; in_trace H].
    + apply (failure_logged_attempt axios_post url _ [_; _]).
      apply logs_are_not_posts. reflexivity.
    + apply (failure_logged_attempt axios_post url _ [_]).
      apply logs_are_not_posts. reflexivity.
    + apply (failure_logged_attempt axios_post url _ [_]).
      apply logs_are_not_posts. reflexivity.
Qed.

(** X19. The earlier harvest notification, for a chain that has an explorer
    entry: it returns normally whatever the transport does, every failed
    post is logged, and it posts exactly when the webhook is set and the
    report has something harvested, an error or a warning, or the uneventful
    flag is on.  The silent-error count plays no part. *)
Theorem earlier_harvest_dispatch (env : NotifyEarlier.Collaborators)
    (cfg : NotifyEarlier.Config) (axios_post : string -> Form -> Completion unit)
    (report : NotifyEarlier.Harvest.t) (explorer : NotifyEarlier.ExplorerConfig) :
  NotifyEarlier.EXPLORER_CONFIG cfg (NotifyEarlier.Harvest.chain report) = Some explorer ->
  swallowed axios_post (NotifyEarlier.notifyHarvestReport env cfg axios_post report)
  /\ dispatched (NotifyEarlier.notifyHarvestReport env cfg axios_post report)
     = truthy_url (NotifyEarlier.DISCORD_WEBHOOK_URL cfg)
       && (negb ((NotifyEarlier.Harvest.harvested (NotifyEarlier.Harvest.summary report) =? 0)
                 && (NotifyEarlier.Harvest.error
                       (NotifyEarlier.Harvest.statuses (NotifyEarlier.Harvest.summary report)) =? 0)
                 && (NotifyEarlier.Harvest.warning
                       (NotifyEarlier.Harvest.statuses (NotifyEarlier.Harvest.summary report)) =? 0))
           || NotifyEarlier.DISCORD_NOTIFY_UNEVENTFUL_HARVEST cfg).
Proof.
  intros He.
  apply earlier_harvest_run_ok.
  exact (earlier_harvestParams_returns env cfg report explorer He).
Qed.

Lemma earlier_harvest_dispatch_witness :
  dispatched (NotifyEarlier.notifyHarvestReport earlier_plain (earlier_config false None)
                post_fails (earlier_report "bsc" (earlier_summary 0 0 0 3) [warned_strat]))
  = false.
Proof.
  rewrite (proj2 (earlier_harvest_dispatch earlier_plain (earlier_config false None)
                    post_fails (earlier_report "bsc" (earlier_summary 0 0 0 3) [warned_strat])
                    _ eq_refl)).
  reflexivity.
Defined.

Lemma existsb_qualifies_filter details :
  existsb qualifies (filter NotifyEarlier.isWarning details) = existsb qualifies details.
Proof.
  induction details as [|d details IH]; [reflexivity|].
  cbn [filter existsb]. unfold qualifies at 2.
  destruct (NotifyEarlier.isWarning d) eqn:Ew; cbn [andb orb existsb]; [|exact IH].
  rewrite IH. unfold qualifies at 1. now rewrite Ew.
Qed.

(** X20. The earlier harvest notification for a chain without an explorer
    entry.  The entry is read only inside the warning loop: with no warning
    counted, or no strategy report that qualifies for a warning line, the
    notification behaves as for any other chain.  With a warning counted and
    a qualifying strategy report, and the webhook set, reading the template
    of the missing entry throws: the error reaches the caller and nothing is
    posted. *)
Theorem earlier_harvest_missing_explorer (env : NotifyEarlier.Collaborators)
    (cfg : NotifyEarlier.Config) (axios_post : string -> Form -> Completion unit)
    (report : NotifyEarlier.Harvest.t) :
  NotifyEarlier.EXPLORER_CONFIG cfg (NotifyEarlier.Harvest.chain report) = None ->
  (NotifyEarlier.Harvest.warning
     (NotifyEarlier.Harvest.statuses (NotifyEarlier.Harvest.summary report)) <= 0
   \/ existsb qualifies (NotifyEarlier.Harvest.details report) = false ->
   swallowed axios_post (NotifyEarlier.notifyHarvestReport env cfg axios_post report))
  /\ (truthy_url (NotifyEarlier.DISCORD_WEBHOOK_URL cfg) = true ->
      0 < NotifyEarlier.Harvest.warning
            (NotifyEarlier.Harvest.statuses (NotifyEarlier.Harvest.summary report)) ->
      existsb qualifies (NotifyEarlier.Harvest.details report) = true ->
      raises (completion (NotifyEarlier.notifyHarvestReport env cfg axios_post report))
      /\ dispatched (NotifyEarlier.notifyHarvestReport env cfg axios_post report) = false).
Proof.
  intros He. split.
  - intros Hquiet. apply earlier_harvest_run_ok.
    unfold NotifyEarlier.harvestParams, NotifyEarlier.warningDetails. rewrite He.
    destruct (earlier_getBalanceReportTable_returns env (NotifyEarlier.OfHarvest report))
      as [bt Hbt].
    destruct (Z.ltb_spec 0 (NotifyEarlier.Harvest.warning
               (NotifyEarlier.Harvest.statuses (NotifyEarlier.Harvest.summary report))))
      as [Hpos|Hle].
    + destruct Hquiet as [Hle|Hnone]; [lia|].
      rewrite warningLines_unqualified by (now rewrite existsb_qualifies_filter).
      cbn [bindC]. rewrite Hbt. eexists. reflexivity.
    + cbn [bindC]. rewrite Hbt. eexists. reflexivity.
  - intros Hcfg Hpos Hq.
    destruct (truthy_url_cases (NotifyEarlier.DISCORD_WEBHOOK_URL cfg))
      as [Hno|(url & Hurl & Ht)]; [congruence|].
    rewrite (earlier_notifyHarvestReport_run env cfg axios_post report url Hurl Ht).
    cbv zeta.
    assert (Hgate : NotifyEarlier.harvestUneventful (NotifyEarlier.Harvest.summary report)
                    = false).
    { unfold NotifyEarlier.harvestUneventful.
      destruct (Z.eqb_spec (NotifyEarlier.Harvest.warning
                 (NotifyEarlier.Harvest.statuses (NotifyEarlier.Harvest.summary report))) 0);
        [lia | apply andb_false_r]. }
    rewrite Hgate. cbn [andb].
    assert (Hthrow : raises (NotifyEarlier.harvestParams env cfg report)).
    { unfold NotifyEarlier.harvestParams, NotifyEarlier.warningDetails. rewrite He.
      apply Z.ltb_lt in Hpos. rewrite Hpos.
      rewrite <- existsb_qualifies_filter in Hq.
      destruct (warningLines_missing_explorer _ Hq) as [e ->].
      eexists. reflexivity. }
    destruct Hthrow as [e ->].
    split; [eexists; reflexivity | reflexivity].
Qed.

Lemma earlier_harvest_missing_explorer_witness :
  raises (completion
            (NotifyEarlier.notifyHarvestReport earlier_plain (earlier_config false None)
               post_ok (earlier_report "polygon" (earlier_summary 8 0 1 0) [warned_strat]))).
Proof.
  apply (proj2 (earlier_harvest_missing_explorer earlier_plain (earlier_config false None)
                  post_ok (earlier_report "polygon" (earlier_summary 8 0 1 0) [warned_strat])
                  eq_refl)); reflexivity.
Defined.

(** X21. The earlier unwrap notification returns normally whatever the
    transport does and logs every failed post; it posts exactly when the
    webhook is set and the unwrap failed, or unwrapped something, or the
    uneventful flag is on; and for the same flag and an endpoint set on both
    sides the current revision posts for exactly the same reports. *)
Theorem earlier_unwrap_dispatch (env : NotifyEarlier.Collaborators)
    (cfg : NotifyEarlier.Config) (axios_post : string -> Form -> Completion unit)
    (report : UnwrapReport.t) :
  swallowed axios_post (NotifyEarlier.notifyUnwrapReport env cfg axios_post report)
  /\ dispatched (NotifyEarlier.notifyUnwrapReport env cfg axios_post report)
     = truthy_url (NotifyEarlier.DISCORD_WEBHOOK_URL cfg)
       && (negb (UnwrapReport.success (UnwrapReport.summary report))
           || UnwrapReport.unwrapped (UnwrapReport.summary report)
           || NotifyEarlier.DISCORD_NOTIFY_UNEVENTFUL_HARVEST cfg)
  /\ (forall (Any : Type) (env' : Collaborators Any) (cfg' : Config) axios_post' id,
        truthy_url (DISCORD_REPORT_WEBHOOK_URL cfg')
        = truthy_url (NotifyEarlier.DISCORD_WEBHOOK_URL cfg) ->
        DISCORD_NOTIFY_UNEVENTFUL_HARVEST cfg'
        = NotifyEarlier.DISCORD_NOTIFY_UNEVENTFUL_HARVEST cfg ->
        dispatched (notifyUnwrapReport env' cfg' axios_post' report id)
        = dispatched (NotifyEarlier.notifyUnwrapReport env cfg axios_post report)).
Proof.
  assert (Hd : dispatched (NotifyEarlier.notifyUnwrapReport env cfg axios_post report)
               = truthy_url (NotifyEarlier.DISCORD_WEBHOOK_URL cfg)
                 && (negb (unwrapUneventful (UnwrapReport.summary report))
                     || NotifyEarlier.DISCORD_NOTIFY_UNEVENTFUL_HARVEST cfg)
               /\ swallowed axios_post
                    (NotifyEarlier.notifyUnwrapReport env cfg axios_post report)).
  { destruct (truthy_url_cases (NotifyEarlier.DISCORD_WEBHOOK_URL cfg))
      as [Hno|(url & Hurl & Ht)].
    - rewrite (earlier_notifyUnwrapReport_unconfigured env cfg axios_post report Hno), Hno.
      split; [reflexivity|]. split; [reflexivity|]. intros u f e H. in_trace H.
    - destruct (earlier_notifyUnwrapReport_run env cfg axios_post report url Hurl Ht)
        as (params & _ & ->).
      rewrite earlier_sendReport_run, Hurl, (truthy_url_some _ Ht).
      destruct (unwrapUneventful (UnwrapReport.summary report));
        destruct (NotifyEarlier.DISCORD_NOTIFY_UNEVENTFUL_HARVEST cfg);
        cbn [andb negb orb app trace snd].
      all: split; [reflexivity | split; [reflexivity|]].
      all: try solve [intros u f e H; in_trace H].
      + apply (failure_logged_attempt axios_post url _ [_; _]).
        apply logs_are_not_posts. reflexivity.
      + apply (failure_logged_attempt axios_post url _ [_]).
        apply logs_are_not_posts. reflexivity.
      + apply (failure_logged_attempt axios_post url _ [_]).
        apply logs_are_not_posts. reflexivity. }
  destruct Hd as [Hd Hs].
  split; [exact Hs|]. split.
  - rewrite Hd. unfold unwrapUneventful.
    destruct (UnwrapReport.success (UnwrapReport.summary report));
      destruct (UnwrapReport.unwrapped (UnwrapReport.summary report)); reflexivity.
  - intros Any env' cfg' axios_post' id Hu Hf. rewrite Hd, <- Hu, <- Hf.
    run_unwrap env' cfg' axios_post' report id.
    + rewrite Hno. reflexivity.
    + rewrite Hurl, (truthy_url_some _ Ht).
      destruct (unwrapUneventful (UnwrapReport.summary report));
        destruct (DISCORD_NOTIFY_UNEVENTFUL_HARVEST cfg'); reflexivity.
Qed.

Lemma warningLines_empty_iff explorer details text :
  NotifyEarlier.warningLines (Some explorer) details = Normal text ->
  (text = EmptyString <-> existsb hasWarningDecision details = false).
Proof.
  revert text. induction details as [|d details IH]; intros text.
  - cbn. intros [= <-]. split; reflexivity.
  - cbn [NotifyEarlier.warningLines existsb].
    destruct (warningLines_returns explorer details) as [more Hmore].
    rewrite Hmore. specialize (IH more Hmore).
    unfold NotifyEarlier.warningLine, hasWarningDecision at 1.
    destruct (NotifyEarlier.Harvest.decision d) as [dec|]; cbn [bindC orb].
    + destruct (NotifyEarlier.Harvest.decision_warning dec); cbn [bindC orb].
      * intros [= <-]. split; discriminate.
      * intros [= <-]. exact IH.
    + intros [= <-]. exact IH.
Qed.

Lemma existsb_hasWarningDecision_filter details :
  existsb hasWarningDecision (filter NotifyEarlier.isWarning details)
  = existsb qualifies details.
Proof.
  induction details as [|d details IH]; [reflexivity|].
  cbn [filter existsb]. unfold qualifies at 1. fold (hasWarningDecision d).
  destruct (NotifyEarlier.isWarning d); cbn [andb orb existsb]; now rewrite IH.
Qed.

(** X22. The warning details of the earlier harvest message.  The loop runs
    only when the summary counts a warning: with a count of 0 the details
    are empty whatever the strategy reports say.  Only strategy reports with
    status ['warning'], a decision and the decision's warning flag write a
    line: for a chain with an explorer entry the text is empty exactly when
    no warning is counted or no strategy report qualifies. *)
Theorem earlier_warningDetails_cases (cfg : NotifyEarlier.Config)
    (report : NotifyEarlier.Harvest.t) :
  (NotifyEarlier.Harvest.warning
     (NotifyEarlier.Harvest.statuses (NotifyEarlier.Harvest.summary report)) <= 0 ->
   NotifyEarlier.warningDetails cfg report = Normal EmptyString)
  /\ (existsb qualifies (NotifyEarlier.Harvest.details report) = false ->
      NotifyEarlier.warningDetails cfg report = Normal EmptyString)
  /\ (forall explorer,
        NotifyEarlier.EXPLORER_CONFIG cfg (NotifyEarlier.Harvest.chain report)
        = Some explorer ->
        exists text,
          NotifyEarlier.warningDetails cfg report = Normal text
          /\ (text = EmptyString
              <-> (0 <? NotifyEarlier.Harvest.warning
                          (NotifyEarlier.Harvest.statuses
                             (NotifyEarlier.Harvest.summary report)))
                  && existsb qualifies (NotifyEarlier.Harvest.details report) = false)).
Proof.
  unfold NotifyEarlier.warningDetails.
  split; [|split].
  - intros Hle. apply Z.ltb_ge in Hle. now rewrite Hle.
  - intros Hq. destruct (0 <? _); [|reflexivity].
    apply warningLines_unqualified. now rewrite existsb_qualifies_filter.
  - intros explorer ->.
    destruct (0 <? _).
    + destruct (warningLines_returns explorer
                  (filter NotifyEarlier.isWarning (NotifyEarlier.Harvest.details report)))
        as [text Htext].
      exists text. split; [exact Htext|].
      rewrite (warningLines_empty_iff _ _ _ Htext), existsb_hasWarningDecision_filter.
      reflexivity.
    + exists EmptyString. split; [reflexivity|]. split; reflexivity.
Qed.

Lemma earlier_warningDetails_cases_witness :
  NotifyEarlier.warningDetails (earlier_config false None)
    (earlier_report "bsc" (earlier_summary 8 0 0 0) [warned_strat])
  = Normal EmptyString.
Proof.
  apply (proj1 (earlier_warningDetails_cases (earlier_config false None)
                  (earlier_report "bsc" (earlier_summary 8 0 0 0) [warned_strat]))).
  cbn. lia.
Defined.

(** X23. The two revisions compared on a harvest summary with the same
    harvested, error and warning counts: they compute the same report
    level, and the current revision calls the report uneventful exactly
    when the earlier one does and, in addition, no notice is counted. *)
Theorem revisions_on_harvest_summary (s : HarvestReport.Summary)
    (s0 : NotifyEarlier.Harvest.Summary) :
  HarvestReport.harvested s = NotifyEarlier.Harvest.harvested s0 ->
  error (HarvestReport.statuses s)
  = NotifyEarlier.Harvest.error (NotifyEarlier.Harvest.statuses s0) ->
  warning (HarvestReport.statuses s)
  = NotifyEarlier.Harvest.warning (NotifyEarlier.Harvest.statuses s0) ->
  harvestReportLevel s = NotifyEarlier.harvestReportLevel s0
  /\ harvestUneventful s
     = NotifyEarlier.harvestUneventful s0 && (notice (HarvestReport.statuses s) =? 0).
Proof.
  intros Hh He Hw.
  unfold harvestReportLevel, NotifyEarlier.harvestReportLevel,
    harvestUneventful, NotifyEarlier.harvestUneventful.
  rewrite Hh, He, Hw. split; reflexivity.
Qed.

Lemma revisions_on_harvest_summary_witness :
  harvestReportLevel (summary_with 0 0 0 2)
  = NotifyEarlier.harvestReportLevel (earlier_summary 0 0 0 0)
  /\ harvestUneventful (summary_with 0 0 0 2) = false.
Proof.
  destruct (revisions_on_harvest_summary (summary_with 0 0 0 2) (earlier_summary 0 0 0 0)
              eq_refl eq_refl eq_refl) as [Hl Hu].
  split; [exact Hl | rewrite Hu; reflexivity].
Defined.

(** X24. The "not reporting" line is logged for every uneventful report that
    passes the endpoint check, also when the uneventful flag is on and the
    report is then posted all the same: the log line does not tell whether a
    post follows. *)
Theorem uneventful_line_logged_even_when_posting {Any : Type} (env : Collaborators Any)
    (cfg : Config) (axios_post : string -> Form -> Completion unit) :
  truthy_url (DISCORD_REPORT_WEBHOOK_URL cfg) = true ->
  (forall report id,
     harvestUneventful (HarvestReport.summary report) = true ->
     In (Log LInfo "All strats were skipped, not reporting" None)
        (trace (notifyHarvestReport env cfg axios_post report id))
     /\ dispatched (notifyHarvestReport env cfg axios_post report id)
        = DISCORD_NOTIFY_UNEVENTFUL_HARVEST cfg)
  /\ (forall report id,
       unwrapUneventful (UnwrapReport.summary report) = true ->
       In (Log LInfo "Did not unwrap anything, not reporting" None)
          (trace (notifyUnwrapReport env cfg axios_post report id))
       /\ dispatched (notifyUnwrapReport env cfg axios_post report id)
          = DISCORD_NOTIFY_UNEVENTFUL_HARVEST cfg).
Proof.
  intros Hcfg. split.
  - intros report id Hq. run_harvest env cfg axios_post report id; [congruence|].
    rewrite Hq. split; [left; reflexivity|].
    destruct (DISCORD_NOTIFY_UNEVENTFUL_HARVEST cfg); reflexivity.
  - intros report id Hq. run_unwrap env cfg axios_post report id; [congruence|].
    rewrite Hq. split; [left; reflexivity|].
    destruct (DISCORD_NOTIFY_UNEVENTFUL_HARVEST cfg); reflexivity.
Qed.

Lemma uneventful_line_logged_even_when_posting_witness :
  In (Log LInfo "All strats were skipped, not reporting" None)
     (trace (notifyHarvestReport plain (config true) post_ok
               (harvest_report (summary_with 0 0 0 0)) None))
  /\ dispatched (notifyHarvestReport plain (config true) post_ok
                   (harvest_report (summary_with 0 0 0 0)) None) = true.
Proof.
  exact (proj1 (uneventful_line_logged_even_when_posting plain (config true) post_ok
                  eq_refl)
           (harvest_report (summary_with 0 0 0 0)) None eq_refl).
Defined.
